(** * GestureFlow: the gesture-driven interaction engine

    A shallow embedding of the gesture classifier (components/HandTracker),
    the application's gesture loop (App.tsx) and the drag/placement
    controller (components/Scene3D, InteractionManager), with the
    properties of the specification stated against them.

    Modelling conventions.
    - A JavaScript [number] that carries a coordinate, a distance or an
      angle is a real number: rounding, NaN and infinities are outside the
      model.  [Date.now()] is an integer number of milliseconds.
    - Comparisons of numbers are booleans obtained with [bool_decide].
    - A React state setter called from an effect is an entry of a list of
      calls; the values an effect reads are those of the state it was
      rendered with, and the calls are applied in order afterwards.
    - A reference to an undefined array entry raises in JavaScript: the
      classifier returns [None] there.
    - The three.js scene is a finite map from object names to live
      objects; the camera's unprojection and the ray caster are answers
      that come with each frame. *)

From Stdlib Require Import Reals Lra ZArith Lia.
From stdpp Require Import base option list strings gmap.

Local Open Scope R_scope.

(** ** Numbers *)

#[global] Instance Rlt_decision : RelDecision Rlt := Rlt_dec.
#[global] Instance Rle_decision : RelDecision Rle := Rle_dec.
#[global] Instance Rgt_decision : RelDecision Rgt := Rgt_dec.
#[global] Instance Rge_decision : RelDecision Rge := Rge_dec.
#[global] Instance Req_decision : EqDecision R := Req_dec_T.

(** [Math.atan2(y, x)]: the angle of the point [(x, y)], in (-PI, PI]. *)
Definition atan2 (y x : R) : R :=
  if bool_decide (0 < x) then atan (y / x)
  else if bool_decide (x < 0) then
    if bool_decide (0 <= y) then atan (y / x) + PI else atan (y / x) - PI
  else if bool_decide (0 < y) then PI / 2
  else if bool_decide (y < 0) then - (PI / 2)
  else 0.

(** ** types.ts *)

Module Types.

Inductive AppMode :=
  | VIEW | EDIT | CREATE | MENU | PLACING | RADIAL | HUB | SETTINGS.

Inductive GestureType :=
  | NONE | POINTING | PINCH | VICTORY | ROCK
  | THUMBS_UP | THUMB_DOWN | THREE_FINGERS | SHAKA.

Inductive TransformMode := translate | rotate | scale | color.

Inductive ShapeType := box | sphere | torus | cone.

#[global] Instance AppMode_eq_dec : EqDecision AppMode.
Proof. solve_decision. Defined.
#[global] Instance GestureType_eq_dec : EqDecision GestureType.
Proof. solve_decision. Defined.
#[global] Instance TransformMode_eq_dec : EqDecision TransformMode.
Proof. solve_decision. Defined.
#[global] Instance ShapeType_eq_dec : EqDecision ShapeType.
Proof. solve_decision. Defined.

(** The string value of each member of the [GestureType] enum: the key
    under which the settings record stores it. *)
Definition gestureKey (g : GestureType) : string :=
  match g with
  | NONE => "NONE" | POINTING => "POINTING" | PINCH => "PINCH"
  | VICTORY => "VICTORY" | ROCK => "ROCK" | THUMBS_UP => "THUMBS_UP"
  | THUMB_DOWN => "THUMB_DOWN" | THREE_FINGERS => "THREE_FINGERS"
  | SHAKA => "SHAKA"
  end.

Record HandData := mkHandData {
  hd_x : R;
  hd_y : R;
  hd_gesture : GestureType;
  hd_pinchDistance : R;
  hd_isPinching : bool
}.

(** A [[number, number, number]] tuple. *)
Definition Triple : Type := R * R * R.

Record SceneObject := mkSceneObject {
  so_id : string;
  so_type : ShapeType;
  so_position : Triple;
  so_rotation : Triple;
  so_scale : Triple;
  so_color : string
}.

(** [Partial<SceneObject>] as the callers of [onUpdateObject] build it. *)
Record SceneObjectUpdate := mkUpdate {
  u_position : option Triple;
  u_rotation : option Triple;
  u_scale : option Triple;
  u_color : option string
}.

End Types.
Export Types.

(** ** constants.ts *)

Definition PINCH_THRESHOLD : R := 5 / 100.

Definition INITIAL_OBJECTS : list SceneObject :=
  [ mkSceneObject "cube-1" box (0, 0, 0) (0, 0, 0) (1, 1, 1) "#6366f1" ].

(** ** components/HandTracker: the classifier inside [predictWebcam] *)

Module HandTracker.

Record NormalizedLandmark := mkLandmark {
  lm_x : R;
  lm_y : R;
  lm_z : R
}.

Definition getDist (p1 p2 : NormalizedLandmark) : R :=
  sqrt ((lm_x p1 - lm_x p2) ^ 2 + (lm_y p1 - lm_y p2) ^ 2).

(** The body run on [result.landmarks[0]]: [None] stands for the
    TypeError of reading a coordinate of a missing landmark. *)
Definition handDataOf (landmarks : list NormalizedLandmark) : option HandData :=
  wrist ← landmarks !! 0%nat;
  thumbTip ← landmarks !! 4%nat;
  thumbIp ← landmarks !! 3%nat;
  indexTip ← landmarks !! 8%nat;
  indexPip ← landmarks !! 6%nat;
  middleTip ← landmarks !! 12%nat;
  middlePip ← landmarks !! 10%nat;
  ringTip ← landmarks !! 16%nat;
  ringPip ← landmarks !! 14%nat;
  pinkyTip ← landmarks !! 20%nat;
  pinkyPip ← landmarks !! 18%nat;
  let isIndexExt := bool_decide (getDist indexTip wrist > getDist indexPip wrist) in
  let isMiddleExt := bool_decide (getDist middleTip wrist > getDist middlePip wrist) in
  let isRingExt := bool_decide (getDist ringTip wrist > getDist ringPip wrist) in
  let isPinkyExt := bool_decide (getDist pinkyTip wrist > getDist pinkyPip wrist) in
  let isThumbFar := bool_decide (getDist thumbTip indexPip > 5 / 100) in
  let isThumbUp := bool_decide (lm_y thumbTip < lm_y thumbIp) in
  let isThumbDown := bool_decide (lm_y thumbTip > lm_y thumbIp) in
  let pinchDist := getDist thumbTip indexTip in
  let isPinching := bool_decide (pinchDist < PINCH_THRESHOLD) in
  let gesture :=
    if isThumbFar && isPinkyExt && negb isIndexExt && negb isMiddleExt && negb isRingExt
    then SHAKA
    else if isPinching then PINCH
    else if isIndexExt && isMiddleExt && negb isRingExt && negb isPinkyExt
    then VICTORY
    else if isIndexExt && isPinkyExt && negb isMiddleExt && negb isRingExt
    then ROCK
    else if negb isIndexExt && negb isMiddleExt && negb isRingExt && negb isPinkyExt
            && isThumbFar && isThumbUp
    then THUMBS_UP
    else if negb isIndexExt && negb isMiddleExt && negb isRingExt && negb isPinkyExt
            && isThumbFar && isThumbDown
    then THUMB_DOWN
    else if isIndexExt && isMiddleExt && isRingExt && negb isPinkyExt
    then THREE_FINGERS
    else if isIndexExt && negb isMiddleExt && negb isRingExt && negb isPinkyExt
    then POINTING
    else NONE in
  let normX := (lm_x indexTip * 2 - 1) * -1 in
  let normY := (lm_y indexTip * 2 - 1) * -1 in
  Some (mkHandData normX normY gesture pinchDist isPinching).

(** What [predictWebcam] hands to [onHandUpdate] for a detection result:
    the classification of the first hand, or [null] when no hand was
    detected.  The outer [option] is the exception of [handDataOf]. *)
Definition predictWebcam (result : list (list NormalizedLandmark))
  : option (option HandData) :=
  match result with
  | landmarks :: _ => hd ← handDataOf landmarks; Some (Some hd)
  | [] => Some None
  end.

End HandTracker.

(** ** App.tsx: state, setters, the hand callback and the gesture loop *)

Module App.

Module Sector.
Inductive t := move | rotate | scale | color | delete.
End Sector.

Module Action.
Inductive t := CANCEL | SETTINGS | MENU | RADIAL.
End Action.

Inductive HubTab := guide | ai.

Record HoldStart := mkHoldStart { hs_type : GestureType; hs_time : Z }.

Record Progress := mkProgress { pr_label : string; pr_value : R }.

Record AppState := mkAppState {
  a_handData : option HandData;
  a_objects : list SceneObject;
  a_selectedId : option string;
  a_mode : AppMode;
  a_transformMode : TransformMode;
  a_sensitivity : R;
  a_pendingObjectType : option ShapeType;
  a_holdStart : option HoldStart;
  a_activeProgress : option Progress;
  a_activeRadialSector : option Sector.t;
  a_hubTab : HubTab;
  a_hubPinchCooldown : bool;
  a_gestureSettings : gmap string bool
}.

(** One call of a state setter.  [SetObjects] and [SetHubTab] take the
    updater function, as the calls [setObjects(prev => ...)] do. *)
Inductive SetCall :=
  | SetHandData (v : option HandData)
  | SetObjects (f : list SceneObject -> list SceneObject)
  | SetSelectedId (v : option string)
  | SetMode (v : AppMode)
  | SetTransformMode (v : TransformMode)
  | SetPendingObjectType (v : option ShapeType)
  | SetHoldStart (v : option HoldStart)
  | SetActiveProgress (v : option Progress)
  | SetActiveRadialSector (v : option Sector.t)
  | SetHubTab (f : HubTab -> HubTab)
  | SetHubPinchCooldown (v : bool).

Definition applyCall (s : AppState) (c : SetCall) : AppState :=
  let '(mkAppState hd objs sel m tm sens pend hs prog sect tab cool gs) := s in
  match c with
  | SetHandData v => mkAppState v objs sel m tm sens pend hs prog sect tab cool gs
  | SetObjects f => mkAppState hd (f objs) sel m tm sens pend hs prog sect tab cool gs
  | SetSelectedId v => mkAppState hd objs v m tm sens pend hs prog sect tab cool gs
  | SetMode v => mkAppState hd objs sel v tm sens pend hs prog sect tab cool gs
  | SetTransformMode v => mkAppState hd objs sel m v sens pend hs prog sect tab cool gs
  | SetPendingObjectType v => mkAppState hd objs sel m tm sens v hs prog sect tab cool gs
  | SetHoldStart v => mkAppState hd objs sel m tm sens pend v prog sect tab cool gs
  | SetActiveProgress v => mkAppState hd objs sel m tm sens pend hs v sect tab cool gs
  | SetActiveRadialSector v => mkAppState hd objs sel m tm sens pend hs prog v tab cool gs
  | SetHubTab f => mkAppState hd objs sel m tm sens pend hs prog sect (f tab) cool gs
  | SetHubPinchCooldown v => mkAppState hd objs sel m tm sens pend hs prog sect tab v gs
  end.

Definition applyCalls (s : AppState) (cs : list SetCall) : AppState :=
  foldl applyCall s cs.

(** The state of the first render. *)
Definition initialState : AppState :=
  mkAppState None INITIAL_OBJECTS None VIEW translate (15 / 10) None None None
    None guide false
    (<[gestureKey POINTING := true]>
      (<[gestureKey PINCH := true]>
        (<[gestureKey VICTORY := true]>
          (<[gestureKey THUMBS_UP := true]>
            (<[gestureKey THUMB_DOWN := true]>
              (<[gestureKey THREE_FINGERS := true]> ∅)))))).

Definition HOLD_DURATION : Z := 1000.

(** JavaScript truthiness of a [string | null]. *)
Definition truthy (s : option string) : bool :=
  match s with
  | Some v => negb (bool_decide (v = ""))
  | None => false
  end.

Definition handleHandUpdate (gestureSettings : gmap string bool)
    (data : option HandData) : list SetCall :=
  match data with
  | Some d =>
      if bool_decide (hd_gesture d <> NONE) && bool_decide (hd_gesture d <> SHAKA)
         && bool_decide (hd_gesture d <> ROCK)
         && bool_decide (gestureSettings !! gestureKey (hd_gesture d) = Some false)
      then [SetHandData (Some (mkHandData (hd_x d) (hd_y d) NONE
                                 (hd_pinchDistance d) (hd_isPinching d)))]
      else [SetHandData data]
  | None => [SetHandData data]
  end.

Definition handleUpdateObject (id : string) (updates : SceneObjectUpdate)
  : list SetCall :=
  [SetObjects (fun prev =>
     (fun obj =>
        if bool_decide (so_id obj = id)
        then mkSceneObject (so_id obj) (so_type obj)
               (default (so_position obj) (u_position updates))
               (default (so_rotation obj) (u_rotation updates))
               (default (so_scale obj) (u_scale updates))
               (default (so_color obj) (u_color updates))
        else obj) <$> prev)].

(** [newId] is the string [`obj-${Date.now()}`] of the call. *)
Definition handlePlaceObject (s : AppState) (newId : string) (position : Triple)
  : list SetCall :=
  match a_pendingObjectType s with
  | None => []
  | Some ty =>
      [SetObjects (fun prev =>
         prev ++ [mkSceneObject newId ty position (0, 0, 0) (1, 1, 1) "#ffffff"]);
       SetSelectedId (Some newId);
       SetMode EDIT;
       SetPendingObjectType None]
  end.

(** The candidate trigger of a frame: its action and its label. *)
Definition currentTargetAction (s : AppState) (g : GestureType)
  : option (Action.t * string) :=
  if bool_decide (g = SHAKA) then Some (Action.CANCEL, "Canceling...")
  else if bool_decide (g = ROCK) then Some (Action.SETTINGS, "Control Panel...")
  else if bool_decide (g = VICTORY) && bool_decide (a_mode s <> MENU)
          && bool_decide (a_mode s <> PLACING)
  then Some (Action.MENU, "Opening Menu...")
  else if bool_decide (g = THREE_FINGERS) && truthy (a_selectedId s)
          && bool_decide (a_mode s <> RADIAL)
  then Some (Action.RADIAL, "Radial Tools...")
  else None.

(** "Universal Hold Detection" and "Process Hold". *)
Definition holdBlock (s : AppState) (g : GestureType) (now : Z) : list SetCall :=
  match currentTargetAction s g with
  | Some (action, targetLabel) =>
      let restart :=
        [SetHoldStart (Some (mkHoldStart g now));
         SetActiveProgress (Some (mkProgress targetLabel 0))] in
      match a_holdStart s with
      | None => restart
      | Some holdStart =>
          if bool_decide (hs_type holdStart <> g) then restart
          else
            let elapsed := (now - hs_time holdStart)%Z in
            let progress := Rmin (IZR elapsed / IZR HOLD_DURATION) 1 in
            SetActiveProgress (Some (mkProgress targetLabel (progress * 100))) ::
            (if bool_decide (elapsed >= HOLD_DURATION)%Z then
               match action with
               | Action.CANCEL =>
                   [SetMode VIEW; SetSelectedId None; SetPendingObjectType None]
               | Action.SETTINGS => [SetMode SETTINGS]
               | Action.MENU => [SetMode MENU]
               | Action.RADIAL => [SetMode RADIAL]
               end ++ [SetHoldStart None; SetActiveProgress None]
             else [])
      end
  | None => [SetHoldStart None; SetActiveProgress None]
  end.

(** The clock degree of the vector [(dx, dy)]: 0 at the top. *)
Definition clockDegOf (dy dx : R) : R :=
  let theta := atan2 dy dx in
  let deg := theta * (180 / PI) in
  let clockDeg := deg + 90 in
  if bool_decide (clockDeg < 0) then clockDeg + 360 else clockDeg.

(** The five slices, as the chain of comparisons on [clockDeg]. *)
Definition sectorOf (clockDeg : R) : option Sector.t :=
  if bool_decide (clockDeg >= 324) || bool_decide (clockDeg < 36)
  then Some Sector.move
  else if bool_decide (clockDeg >= 36) && bool_decide (clockDeg < 108)
  then Some Sector.rotate
  else if bool_decide (clockDeg >= 108) && bool_decide (clockDeg < 180)
  then Some Sector.scale
  else if bool_decide (clockDeg >= 180) && bool_decide (clockDeg < 252)
  then Some Sector.color
  else if bool_decide (clockDeg >= 252) && bool_decide (clockDeg < 324)
  then Some Sector.delete
  else None.

(** "Radial Menu Interaction": [innerWidth] and [innerHeight] are the
    window's. *)
Definition radialBlock (s : AppState) (handData : HandData)
    (innerWidth innerHeight : R) : list SetCall :=
  if bool_decide (a_mode s = RADIAL) then
    let screenX := ((hd_x handData + 1) / 2) * innerWidth in
    let screenY := ((1 - hd_y handData) / 2) * innerHeight in
    let centerX := innerWidth / 2 in
    let centerY := innerHeight / 2 in
    let dx := screenX - centerX in
    let dy := screenY - centerY in
    let dist := sqrt (dx * dx + dy * dy) in
    if bool_decide (dist > 50) then
      let sector := sectorOf (clockDegOf dy dx) in
      SetActiveRadialSector sector ::
      (if hd_isPinching handData then
         match sector with
         | Some Sector.move => [SetTransformMode translate; SetMode EDIT]
         | Some Sector.rotate => [SetTransformMode rotate; SetMode EDIT]
         | Some Sector.scale => [SetTransformMode scale; SetMode EDIT]
         | Some Sector.color => [SetTransformMode color; SetMode EDIT]
         | Some Sector.delete =>
             (if truthy (a_selectedId s) then
                [SetObjects (filter (fun o => Some (so_id o) <> a_selectedId s));
                 SetSelectedId None]
              else []) ++ [SetMode VIEW]
         | None => []
         end
       else [])
    else [SetActiveRadialSector None]
  else [].

(** The element under the cursor, reduced to its two attributes. *)
Record Element := mkElement {
  data_create_type : option ShapeType;
  data_hub_tab : option HubTab
}.

(** "2D Interaction in MENU, HUB or SETTINGS Mode": [element] is the
    answer of [document.elementFromPoint] at the cursor.  The timer that
    ends the cooldown is not part of the effect's own calls. *)
Definition menuBlock (s : AppState) (handData : HandData)
    (element : option Element) : list SetCall :=
  if (bool_decide (a_mode s = MENU) || bool_decide (a_mode s = HUB)
      || bool_decide (a_mode s = SETTINGS)) && hd_isPinching handData then
    match element with
    | Some el =>
        match data_create_type el with
        | Some ty => [SetPendingObjectType (Some ty); SetMode PLACING]
        | None => []
        end ++
        match data_hub_tab el with
        | Some hubAction => [SetHubTab (fun _ => hubAction)]
        | None => []
        end
    | None => []
    end ++
    (if bool_decide (a_mode s = HUB)
        && negb (bool_decide (is_Some (element ≫= data_hub_tab)))
        && negb (a_hubPinchCooldown s)
     then [SetHubTab (fun prev => match prev with guide => ai | ai => guide end);
           SetHubPinchCooldown true]
     else [])
  else [].

(** The inputs of one run of the effect besides the state. *)
Record LoopEnv := mkLoopEnv {
  le_now : Z;
  le_innerWidth : R;
  le_innerHeight : R;
  le_element : option Element
}.

(** "1. GESTURE LOGIC LOOP": the calls of one run of the effect. *)
Definition gestureLoop (s : AppState) (env : LoopEnv) : list SetCall :=
  match a_handData s with
  | None => [SetHoldStart None; SetActiveProgress None]
  | Some handData =>
      holdBlock s (hd_gesture handData) (le_now env)
      ++ radialBlock s handData (le_innerWidth env) (le_innerHeight env)
      ++ menuBlock s handData (le_element env)
  end.

(** The modes that the calls of a list set, in order. *)
Definition modeCalls (cs : list SetCall) : list AppMode :=
  omap (fun c => match c with SetMode m => Some m | _ => None end) cs.

(** The state a frame is rendered with, holding the timer that the
    earlier frames left. *)
Definition withHold (s : AppState) (hold : option HoldStart) : AppState :=
  applyCall s (SetHoldStart hold).

(** A run of the hold detection over successive frames.  Each frame
    brings the state it was rendered with, its gesture and its time; the
    hold timer of the state is the one the earlier frames left.  The
    result lists the calls of each frame and the timer left at the end. *)
Fixpoint holdRun (hold : option HoldStart)
    (frames : list (AppState * GestureType * Z))
  : list (list SetCall) * option HoldStart :=
  match frames with
  | [] => ([], hold)
  | (s, g, now) :: rest =>
      let calls := holdBlock (withHold s hold) g now in
      let hold' := a_holdStart (applyCalls (withHold s hold) calls) in
      let '(out, final) := holdRun hold' rest in
      (calls :: out, final)
  end.

(** The toggle of one key in the Control Panel:
    [setGestureSettings(prev => ({...prev, [key]: !prev[key]}))]. *)
Definition toggleGestureSetting (key : string) (prev : gmap string bool)
  : gmap string bool :=
  <[key := negb (default false (prev !! key))]> prev.

(** [renderVirtualCursor]: the place on screen of the 2D cursor and whether
    it is drawn as pinching, or nothing when it is not drawn. *)
Definition renderVirtualCursor (s : AppState) (innerWidth innerHeight : R)
  : option (R * R * bool) :=
  match a_handData s with
  | Some handData =>
      if bool_decide (a_mode s = MENU) || bool_decide (a_mode s = RADIAL)
         || bool_decide (a_mode s = HUB) || bool_decide (a_mode s = SETTINGS)
      then
        let screenX := ((hd_x handData + 1) / 2) * innerWidth in
        let screenY := ((1 - hd_y handData) / 2) * innerHeight in
        Some (screenX, screenY, hd_isPinching handData)
      else None
  | None => None
  end.

(** The geometry that [RadialSlice] draws for a slice: the two ends of its
    arc and the place of its icon, in the coordinates of the wheel. *)
Record SliceGeometry := mkSliceGeometry {
  sl_x1 : R; sl_y1 : R;
  sl_x2 : R; sl_y2 : R;
  sl_iconX : R; sl_iconY : R
}.

Definition RadialSlice (startAngle endAngle : R) : SliceGeometry :=
  let startRad := (startAngle - 90) * (PI / 180) in
  let endRad := (endAngle - 90) * (PI / 180) in
  let r := 200 in
  let x1 := cos startRad * r in
  let y1 := sin startRad * r in
  let x2 := cos endRad * r in
  let y2 := sin endRad * r in
  let midAng := (startAngle + endAngle) / 2 in
  let midRad := (midAng - 90) * (PI / 180) in
  let iconR := 120 in
  let iconX := cos midRad * iconR in
  let iconY := sin midRad * iconR in
  mkSliceGeometry x1 y1 x2 y2 iconX iconY.

(** The angles with which the wheel draws the slice of each sector. *)
Definition sliceAngles (sector : Sector.t) : R * R :=
  match sector with
  | Sector.move => (-36, 36)
  | Sector.rotate => (36, 108)
  | Sector.scale => (108, 180)
  | Sector.color => (180, 252)
  | Sector.delete => (252, 324)
  end.

End App.

(** ** components/Scene3D: the InteractionManager *)

Module Scene3D.

(** *** The parts of three.js the InteractionManager uses *)

Record Vector3 := mkVector3 { v_x : R; v_y : R; v_z : R }.

Record Euler := mkEuler { e_x : R; e_y : R; e_z : R }.

Record HSL := mkHSL { hsl_h : R; hsl_s : R; hsl_l : R }.

Definition add (a b : Vector3) : Vector3 :=
  mkVector3 (v_x a + v_x b) (v_y a + v_y b) (v_z a + v_z b).

Definition sub (a b : Vector3) : Vector3 :=
  mkVector3 (v_x a - v_x b) (v_y a - v_y b) (v_z a - v_z b).

Definition multiplyScalar (a : Vector3) (k : R) : Vector3 :=
  mkVector3 (v_x a * k) (v_y a * k) (v_z a * k).

Definition lerp (a v : Vector3) (alpha : R) : Vector3 :=
  mkVector3 (v_x a + (v_x v - v_x a) * alpha)
            (v_y a + (v_y v - v_y a) * alpha)
            (v_z a + (v_z v - v_z a) * alpha).

(** The remainder [x % 1] of JavaScript: it has the sign of [x]. *)
Definition remainder1 (x : R) : R :=
  if bool_decide (0 <= x) then x - IZR (Int_part x)
  else x + IZR (Int_part (- x)).

(** [THREE.Color], through the three methods that are called on it. *)
Class ThreeColor (C : Type) := {
  getHSL : C -> HSL;
  setHSL : R -> R -> R -> C;
  getHexString : C -> string
}.

Section Manager.
Context {C : Type} `{ThreeColor C}.

(** The material of a mesh: whether it is a [MeshStandardMaterial], and
    its colour. *)
Record Material := mkMaterial { m_standard : bool; m_color : C }.

(** A live object of the scene graph.  [o_mesh] is its material when the
    object is a [THREE.Mesh], and [None] for any other kind of object. *)
Record Object3D := mkObject3D {
  o_position : Vector3;
  o_rotation : Euler;
  o_scale : Vector3;
  o_mesh : option Material
}.

(** The first intersection that passes the filter of the ray cast. *)
Record Hit := mkHit {
  hit_name : string;
  hit_parentName : option string;
  hit_distance : R
}.

Record PrevHand := mkPrevHand {
  ph_x : R;
  ph_y : R;
  gestureWasPinch : bool
}.

Record DragState := mkDragState {
  isDragging : bool;
  targetId : option string;
  distanceToCamera : R;
  startCursorPos : Vector3;
  startObjPos : Vector3;
  startObjRot : Euler;
  startObjScale : Vector3;
  startColorHSL : HSL
}.

Record CursorMesh := mkCursorMesh {
  c_visible : bool;
  c_position : Vector3;
  c_scale : R;
  c_color : string
}.

Record Ghost := mkGhost { g_visible : bool; g_position : Vector3 }.

(** What persists between frames: the two pieces of component state, the
    drag reference, the two mesh references and the scene graph. *)
Record IMState := mkIMState {
  prevHandPos : option PrevHand;
  waitingForPinchRelease : bool;
  dragRef : DragState;
  cursorRef : option CursorMesh;
  ghostRef : option Ghost;
  scene : gmap string Object3D
}.

(** The props of the frame and the answers of the camera and of the ray
    caster: [f_dir] is the normalized direction from the camera through
    the hand's position, [f_hit] the first filtered intersection. *)
Record Frame := mkFrame {
  f_handData : option HandData;
  f_mode : AppMode;
  f_transformMode : TransformMode;
  f_sensitivity : R;
  f_cameraPosition : Vector3;
  f_dir : Vector3;
  f_hit : option Hit
}.

(** The calls of the component's three callback props. *)
Inductive Callback :=
  | OnSelect (id : option string)
  | OnUpdateObject (id : string) (updates : SceneObjectUpdate)
  | OnPlaceObject (position : Triple).

Definition initialDrag : DragState :=
  mkDragState false None 10 (mkVector3 0 0 0) (mkVector3 0 0 0) (mkEuler 0 0 0)
    (mkVector3 0 0 0) (mkHSL 0 0 0).

(** The effect on [mode]. *)
Definition modeEffect (mode : AppMode) (st : IMState) : IMState :=
  mkIMState (prevHandPos st) (bool_decide (mode = PLACING)) (dragRef st)
    (cursorRef st) (ghostRef st) (scene st).

Definition setDragging (d : DragState) (b : bool) : DragState :=
  mkDragState b (targetId d) (distanceToCamera d) (startCursorPos d)
    (startObjPos d) (startObjRot d) (startObjScale d) (startColorHSL d).

(** The first branch of the frame callback: nothing to track. *)
Definition hideAndStop (st : IMState) : IMState * list Callback :=
  (mkIMState (prevHandPos st) (waitingForPinchRelease st)
     (setDragging (dragRef st) false)
     ((fun c => mkCursorMesh false (c_position c) (c_scale c) (c_color c))
        <$> cursorRef st)
     ((fun g => mkGhost false (g_position g)) <$> ghostRef st)
     (scene st),
   []).

(** "1. Calculate Cursor Position". *)
Definition cursorPosOf (d : DragState) (f : Frame) : Vector3 :=
  let projectionDistance := if isDragging d then distanceToCamera d else 10 in
  add (f_cameraPosition f) (multiplyScalar (f_dir f) projectionDistance).

(** "Update visual cursor mesh". *)
Definition updateCursor (st : IMState) (f : Frame) (handData : HandData)
    (cursorPos : Vector3) : option CursorMesh :=
  (fun c =>
     let '(size, tint) :=
       if bool_decide (f_mode f = PLACING)
       then (1 / 10, if waitingForPinchRelease st then "#888888" else "#ffffff")
       else if isDragging (dragRef st) then (25 / 100, "#ffaa00")
       else if hd_isPinching handData then (15 / 100, "#ff0055")
       else if bool_decide (hd_gesture handData = VICTORY) then (3 / 10, "#ff0000")
       else (2 / 10, "#00ffcc") in
     mkCursorMesh true (lerp (c_position c) cursorPos (2 / 10)) size tint)
  <$> cursorRef st.

(** "Update Ghost Object". *)
Definition updateGhost (st : IMState) (f : Frame) (cursorPos : Vector3)
  : option Ghost :=
  (fun g =>
     if bool_decide (f_mode f = PLACING) then
       let p := lerp (g_position g) cursorPos (2 / 10) in
       mkGhost true
         (if bool_decide (Rabs (v_y p) < 1) then mkVector3 (v_x p) (5 / 10) (v_z p)
          else p)
     else mkGhost false (g_position g))
  <$> ghostRef st.

(** [hit.object.name || hit.object.parent?.name], kept when truthy. *)
Definition objectIdOf (hit : Hit) : option string :=
  let objectId :=
    if bool_decide (hit_name hit = "") then hit_parentName hit
    else Some (hit_name hit) in
  if App.truthy objectId then objectId else None.

(** "CASE A: START PINCH (Click / Grab)". *)
Definition startPinch (ghost : option Ghost) (f : Frame) (cursorPos : Vector3)
    (sc : gmap string Object3D) (d : DragState) : DragState * list Callback :=
  let grab :=
    if bool_decide (f_mode f = EDIT) || bool_decide (f_mode f = VIEW) then
      match f_hit f with
      | Some hit =>
          match objectIdOf hit with
          | Some objectId =>
              let d1 :=
                mkDragState true (Some objectId) (hit_distance hit) cursorPos
                  (startObjPos d) (startObjRot d) (startObjScale d)
                  (startColorHSL d) in
              let d2 :=
                match sc !! objectId with
                | Some obj =>
                    mkDragState (isDragging d1) (targetId d1) (distanceToCamera d1)
                      (startCursorPos d1) (o_position obj) (o_rotation obj)
                      (o_scale obj)
                      (match o_mesh obj with
                       | Some mat =>
                           if m_standard mat then getHSL (m_color mat)
                           else startColorHSL d1
                       | None => startColorHSL d1
                       end)
                | None => d1
                end in
              (d2, [OnSelect (Some objectId)])
          | None => (d, [])
          end
      | None => (d, [])
      end
    else (d, []) in
  match ghost with
  | Some g =>
      if bool_decide (f_mode f = PLACING) then
        let p := g_position g in (d, [OnPlaceObject (v_x p, v_y p, v_z p)])
      else grab
  | None => grab
  end.

(** The live object after one frame of "CASE B: DRAGGING". *)
Definition dragObject (f : Frame) (d : DragState) (delta : Vector3)
    (obj : Object3D) : Object3D :=
  match f_transformMode f with
  | translate =>
      mkObject3D (add (startObjPos d) delta) (o_rotation obj) (o_scale obj)
        (o_mesh obj)
  | rotate =>
      let rotSpeed := 2 * f_sensitivity f in
      mkObject3D (o_position obj)
        (mkEuler (e_x (startObjRot d) + v_y delta * rotSpeed)
                 (e_y (startObjRot d) + v_x delta * rotSpeed)
                 (e_z (o_rotation obj)))
        (o_scale obj) (o_mesh obj)
  | scale =>
      let scaleSpeed := 1 * f_sensitivity f in
      let factor := 1 + v_y delta * scaleSpeed in
      let safeFactor := Rmax (1 / 10) factor in
      mkObject3D (o_position obj) (o_rotation obj)
        (multiplyScalar (startObjScale d) safeFactor) (o_mesh obj)
  | color =>
      match o_mesh obj with
      | Some mat =>
          if m_standard mat then
            let h0 :=
              remainder1 (hsl_h (startColorHSL d)
                          + v_x delta * (5 / 10) * f_sensitivity f) in
            let h1 := if bool_decide (h0 < 0) then h0 + 1 else h0 in
            mkObject3D (o_position obj) (o_rotation obj) (o_scale obj)
              (Some (mkMaterial (m_standard mat)
                       (setHSL h1 (hsl_s (startColorHSL d))
                          (hsl_l (startColorHSL d)))))
          else obj
      | None => obj
      end
  end.

(** "CASE B: DRAGGING". *)
Definition dragging (f : Frame) (cursorPos : Vector3) (d : DragState)
    (sc : gmap string Object3D) : gmap string Object3D :=
  if isDragging d && App.truthy (targetId d) then
    match targetId d with
    | Some id =>
        match sc !! id with
        | Some obj =>
            let delta := sub cursorPos (startCursorPos d) in
            <[id := dragObject f d delta obj]> sc
        | None => sc
        end
    | None => sc
    end
  else sc.

(** The update that "CASE C: END PINCH" writes for a live object. *)
Definition commitUpdate (f : Frame) (obj : Object3D) : SceneObjectUpdate :=
  let pose :=
    mkUpdate
      (Some (v_x (o_position obj), v_y (o_position obj), v_z (o_position obj)))
      (Some (e_x (o_rotation obj), e_y (o_rotation obj), e_z (o_rotation obj)))
      (Some (v_x (o_scale obj), v_y (o_scale obj), v_z (o_scale obj)))
      None in
  match o_mesh obj with
  | Some mat =>
      if bool_decide (f_transformMode f = color)
      then mkUpdate None None None (Some ("#" +:+ getHexString (m_color mat)))
      else pose
  | None => pose
  end.

(** "CASE C: END PINCH". *)
Definition endPinch (f : Frame) (sc : gmap string Object3D) (d : DragState)
  : DragState * list Callback :=
  (mkDragState false None (distanceToCamera d) (startCursorPos d)
     (startObjPos d) (startObjRot d) (startObjScale d) (startColorHSL d),
   match targetId d with
   | Some id =>
       if App.truthy (targetId d) then
         match sc !! id with
         | Some obj => [OnUpdateObject id (commitUpdate f obj)]
         | None => []
         end
       else []
   | None => []
   end).

(** The frame callback of the InteractionManager: the state after the
    frame and the callbacks it called, in order. *)
Definition useFrame (st : IMState) (f : Frame) : IMState * list Callback :=
  match f_handData f with
  | None => hideAndStop st
  | Some handData =>
      if bool_decide (f_mode f = MENU) || bool_decide (f_mode f = RADIAL)
         || bool_decide (f_mode f = HUB) || bool_decide (f_mode f = SETTINGS)
      then hideAndStop st
      else
        let cursorPos := cursorPosOf (dragRef st) f in
        let cursor' := updateCursor st f handData cursorPos in
        let ghost' := updateGhost st f cursorPos in
        let prev' :=
          Some (mkPrevHand (hd_x handData) (hd_y handData)
                  (hd_isPinching handData)) in
        if waitingForPinchRelease st then
          (mkIMState prev'
             (if hd_isPinching handData then waitingForPinchRelease st else false)
             (dragRef st) cursor' ghost' (scene st),
           [])
        else
          let isPinching := hd_isPinching handData in
          let wasPinching :=
            match prevHandPos st with
            | Some p => gestureWasPinch p
            | None => false
            end in
          let '(dA, cbA) :=
            if isPinching && negb wasPinching
            then startPinch ghost' f cursorPos (scene st) (dragRef st)
            else (dragRef st, []) in
          let scB :=
            if isPinching then dragging f cursorPos dA (scene st) else scene st in
          let '(dC, cbC) :=
            if negb isPinching && wasPinching && isDragging dA
            then endPinch f scB dA
            else (dA, []) in
          (mkIMState prev' (waitingForPinchRelease st) dC cursor' ghost' scB,
           cbA ++ cbC)
  end.

(** A run of frames: the final state and all callbacks, in order. *)
Fixpoint runFrames (st : IMState) (fs : list Frame) : IMState * list Callback :=
  match fs with
  | [] => (st, [])
  | f :: rest =>
      let '(st1, cb1) := useFrame st f in
      let '(st2, cb2) := runFrames st1 rest in
      (st2, cb1 ++ cb2)
  end.

End Manager.

Arguments Material : clear implicits.
Arguments Object3D : clear implicits.
Arguments IMState : clear implicits.

(** *** The CameraController *)

(** The three switches of the orbit controls that the controller sets. *)
Record OrbitControls := mkOrbitControls {
  enableRotate : bool;
  enablePan : bool;
  enableZoom : bool
}.

(** The frame callback of the CameraController: [direction] is the answer
    of [camera.getWorldDirection], [delta] the time since the last frame.
    The result is the controls and the position of the camera after the
    frame; without controls nothing is done. *)
Definition cameraFrame (handData : option HandData) (mode : AppMode)
    (sensitivity delta : R) (direction : Vector3)
    (controls : option OrbitControls) (position : Vector3)
  : option OrbitControls * Vector3 :=
  match controls with
  | None => (None, position)
  | Some orbit =>
      let g := hd_gesture <$> handData in
      if (bool_decide (g = Some THUMBS_UP) || bool_decide (g = Some THUMB_DOWN))
         && (bool_decide (mode = VIEW) || bool_decide (mode = EDIT))
      then
        let zoomSpeed := 5 * sensitivity * delta in
        let dir := if bool_decide (g = Some THUMBS_UP) then 1 else -1 in
        (Some (mkOrbitControls false false false),
         add position (multiplyScalar direction (dir * zoomSpeed)))
      else
        (Some (mkOrbitControls true
                 (if bool_decide (mode = VIEW) || bool_decide (mode = EDIT)
                  then false else enablePan orbit)
                 true),
         position)
  end.

End Scene3D.

(** ** App.tsx: the callbacks wired to the InteractionManager *)

(** What the application does with one callback of the scene:
    [onSelect] is [setSelectedId], [onUpdateObject] is
    [handleUpdateObject], [onPlaceObject] is [handlePlaceObject]. *)
Definition handleCallback (s : App.AppState) (newId : string)
    (cb : Scene3D.Callback) : list App.SetCall :=
  match cb with
  | Scene3D.OnSelect id => [App.SetSelectedId id]
  | Scene3D.OnUpdateObject id updates => App.handleUpdateObject id updates
  | Scene3D.OnPlaceObject position => App.handlePlaceObject s newId position
  end.

(** The store after the callbacks of a frame. *)
Definition storeAfter (s : App.AppState) (newId : string)
    (cbs : list Scene3D.Callback) : list SceneObject :=
  App.a_objects (App.applyCalls s (cbs ≫= handleCallback s newId)).

(** ** The vocabulary of the specification *)

Module Spec.
Import HandTracker.

(** The landmark of a hand at an index of the MediaPipe numbering. *)
Definition lmAt (lm : list NormalizedLandmark) (i : nat) : NormalizedLandmark :=
  default (mkLandmark 0 0 0) (lm !! i).

Definition WRIST := 0%nat.
Definition THUMB_IP := 3%nat.
Definition THUMB_TIP := 4%nat.
Definition INDEX_PIP := 6%nat.
Definition INDEX_TIP := 8%nat.
Definition MIDDLE_PIP := 10%nat.
Definition MIDDLE_TIP := 12%nat.
Definition RING_PIP := 14%nat.
Definition RING_TIP := 16%nat.
Definition PINKY_PIP := 18%nat.
Definition PINKY_TIP := 20%nat.

(** The distance of two landmarks in the image plane. *)
Definition planarDistance (p q : NormalizedLandmark) : R :=
  sqrt (Rsqr (lm_x p - lm_x q) + Rsqr (lm_y p - lm_y q)).

(** The Euclidean distance of two landmarks as points of space. *)
Definition euclideanDistance (p q : NormalizedLandmark) : R :=
  sqrt (Rsqr (lm_x p - lm_x q) + Rsqr (lm_y p - lm_y q) + Rsqr (lm_z p - lm_z q)).

(** Two landmarks that differ at most in depth. *)
Definition sameInPlane (p q : NormalizedLandmark) : Prop :=
  lm_x p = lm_x q /\ lm_y p = lm_y q.

(** A finger is extended when its tip is farther from the wrist than its
    knuckle is; the distance is the classifier's. *)
Definition extended (lm : list NormalizedLandmark) (tip knuckle : nat) : Prop :=
  getDist (lmAt lm tip) (lmAt lm WRIST) > getDist (lmAt lm knuckle) (lmAt lm WRIST).

Definition indexExtended lm := extended lm INDEX_TIP INDEX_PIP.
Definition middleExtended lm := extended lm MIDDLE_TIP MIDDLE_PIP.
Definition ringExtended lm := extended lm RING_TIP RING_PIP.
Definition pinkyExtended lm := extended lm PINKY_TIP PINKY_PIP.

Definition thumbFar (lm : list NormalizedLandmark) : Prop :=
  getDist (lmAt lm THUMB_TIP) (lmAt lm INDEX_PIP) > 5 / 100.

Definition thumbUp (lm : list NormalizedLandmark) : Prop :=
  lm_y (lmAt lm THUMB_TIP) < lm_y (lmAt lm THUMB_IP).

Definition thumbDown (lm : list NormalizedLandmark) : Prop :=
  lm_y (lmAt lm THUMB_TIP) > lm_y (lmAt lm THUMB_IP).

(** The eight rules of the priority table, in the words of the table. *)
Definition shakaRule lm : Prop :=
  thumbFar lm /\ pinkyExtended lm
  /\ ~ indexExtended lm /\ ~ middleExtended lm /\ ~ ringExtended lm.

Definition pinchRule lm : Prop :=
  getDist (lmAt lm THUMB_TIP) (lmAt lm INDEX_TIP) < 5 / 100.

Definition victoryRule lm : Prop :=
  indexExtended lm /\ middleExtended lm /\ ~ ringExtended lm /\ ~ pinkyExtended lm.

Definition rockRule lm : Prop :=
  indexExtended lm /\ pinkyExtended lm /\ ~ middleExtended lm /\ ~ ringExtended lm.

Definition allFourCurled lm : Prop :=
  ~ indexExtended lm /\ ~ middleExtended lm /\ ~ ringExtended lm
  /\ ~ pinkyExtended lm.

Definition thumbsUpRule lm : Prop := allFourCurled lm /\ thumbFar lm /\ thumbUp lm.

Definition thumbsDownRule lm : Prop :=
  allFourCurled lm /\ thumbFar lm /\ thumbDown lm.

Definition threeFingersRule lm : Prop :=
  indexExtended lm /\ middleExtended lm /\ ringExtended lm /\ ~ pinkyExtended lm.

Definition pointingRule lm : Prop :=
  indexExtended lm /\ ~ middleExtended lm /\ ~ ringExtended lm
  /\ ~ pinkyExtended lm.

(** The tag [g] is the one of the first rule of the table that holds. *)
Definition firstMatch (lm : list NormalizedLandmark) (g : GestureType) : Prop :=
  (shakaRule lm -> g = SHAKA)
  /\ (~ shakaRule lm -> pinchRule lm -> g = PINCH)
  /\ (~ shakaRule lm -> ~ pinchRule lm -> victoryRule lm -> g = VICTORY)
  /\ (~ shakaRule lm -> ~ pinchRule lm -> ~ victoryRule lm -> rockRule lm ->
      g = ROCK)
  /\ (~ shakaRule lm -> ~ pinchRule lm -> ~ victoryRule lm -> ~ rockRule lm ->
      thumbsUpRule lm -> g = THUMBS_UP)
  /\ (~ shakaRule lm -> ~ pinchRule lm -> ~ victoryRule lm -> ~ rockRule lm ->
      ~ thumbsUpRule lm -> thumbsDownRule lm -> g = THUMB_DOWN)
  /\ (~ shakaRule lm -> ~ pinchRule lm -> ~ victoryRule lm -> ~ rockRule lm ->
      ~ thumbsUpRule lm -> ~ thumbsDownRule lm -> threeFingersRule lm ->
      g = THREE_FINGERS)
  /\ (~ shakaRule lm -> ~ pinchRule lm -> ~ victoryRule lm -> ~ rockRule lm ->
      ~ thumbsUpRule lm -> ~ thumbsDownRule lm -> ~ threeFingersRule lm ->
      pointingRule lm -> g = POINTING)
  /\ (~ shakaRule lm -> ~ pinchRule lm -> ~ victoryRule lm -> ~ rockRule lm ->
      ~ thumbsUpRule lm -> ~ thumbsDownRule lm -> ~ threeFingersRule lm ->
      ~ pointingRule lm -> g = NONE).

(** The row of the hold table that a gesture selects: its target mode. *)
Definition holdTarget (g : GestureType) : option AppMode :=
  match g with
  | SHAKA => Some VIEW
  | ROCK => Some SETTINGS
  | VICTORY => Some MENU
  | THREE_FINGERS => Some RADIAL
  | _ => None
  end.

(** A selection is present: an object id, which is never the empty
    string. *)
Definition selectionPresent (s : App.AppState) : Prop :=
  exists id, App.a_selectedId s = Some id /\ id <> "".

(** The precondition of the row of the hold table that a gesture selects. *)
Definition qualifies (s : App.AppState) (g : GestureType) : Prop :=
  match g with
  | SHAKA | ROCK => True
  | VICTORY => App.a_mode s <> MENU /\ App.a_mode s <> PLACING
  | THREE_FINGERS => selectionPresent s /\ App.a_mode s <> RADIAL
  | _ => False
  end.

(** The cursor on the screen and the centre of the viewport, in pixels. *)
Definition cursorOnScreen (hd : HandData) (width height : R) : R * R :=
  ((hd_x hd + 1) / 2 * width, (1 - hd_y hd) / 2 * height).

Definition viewportCentre (width height : R) : R * R := (width / 2, height / 2).

Definition pixelDistance (p q : R * R) : R :=
  sqrt (Rsqr (p.1 - q.1) + Rsqr (p.2 - q.2)).

(** The five sectors of 72 degrees, by their clock degrees. *)
Definition sectorRange (sector : App.Sector.t) (deg : R) : Prop :=
  match sector with
  | App.Sector.move => (324 <= deg < 360) \/ (0 <= deg < 36)
  | App.Sector.rotate => 36 <= deg < 108
  | App.Sector.scale => 108 <= deg < 180
  | App.Sector.color => 180 <= deg < 252
  | App.Sector.delete => 252 <= deg < 324
  end.

(** The modes in which the frame callback of the scene does nothing but
    hide the cursor and stop the drag: the four of its first test. *)
Definition inertMode (m : AppMode) : Prop :=
  m = MENU \/ m = RADIAL \/ m = HUB \/ m = SETTINGS.

(** The cursor in the world for a frame, projected at a distance from the
    camera. *)
Definition cursorAt (f : Scene3D.Frame) (distance : R) : Scene3D.Vector3 :=
  Scene3D.add (Scene3D.f_cameraPosition f)
    (Scene3D.multiplyScalar (Scene3D.f_dir f) distance).

(** The cursor of the last frame of a drag that began with the cursor at
    [start]. *)
Definition lastCursor (distance : R) (start : Scene3D.Vector3)
    (drags : list Scene3D.Frame) : Scene3D.Vector3 :=
  foldl (fun _ f => cursorAt f distance) start drags.

Definition tripleOf (v : Scene3D.Vector3) : Triple :=
  (Scene3D.v_x v, Scene3D.v_y v, Scene3D.v_z v).

Definition tripleOfEuler (e : Scene3D.Euler) : Triple :=
  (Scene3D.e_x e, Scene3D.e_y e, Scene3D.e_z e).

(** The previous frame of the hand was a pinch. *)
Definition wasPinching {C} (st : Scene3D.IMState C) : Prop :=
  exists p, Scene3D.prevHandPos st = Some p /\ Scene3D.gestureWasPinch p = true.

(** A frame with a pinching hand, in View or Edit, in translate mode. *)
Definition translateDrag (f : Scene3D.Frame) : Prop :=
  (exists hd, Scene3D.f_handData f = Some hd /\ hd_isPinching hd = true)
  /\ (Scene3D.f_mode f = EDIT \/ Scene3D.f_mode f = VIEW)
  /\ Scene3D.f_transformMode f = translate.

(** A drag in progress on the object [id]: the session holds the
    distance of the hit, the cursor [c0] and the position [p0] of the
    pinch-down, and the live object stands at [p0] moved by the way of the
    cursor from [c0] to [cur], with the rotation, the scale and the
    material it had. *)
Definition dragInProgress {C} (id : string) (distance : R)
    (c0 p0 : Scene3D.Vector3) (r0 : Scene3D.Euler) (s0 : Scene3D.Vector3)
    (m : option (Scene3D.Material C)) (cur : Scene3D.Vector3)
    (st : Scene3D.IMState C) : Prop :=
  Scene3D.waitingForPinchRelease st = false
  /\ wasPinching st
  /\ Scene3D.isDragging (Scene3D.dragRef st) = true
  /\ Scene3D.targetId (Scene3D.dragRef st) = Some id
  /\ id <> ""
  /\ Scene3D.distanceToCamera (Scene3D.dragRef st) = distance
  /\ Scene3D.startCursorPos (Scene3D.dragRef st) = c0
  /\ Scene3D.startObjPos (Scene3D.dragRef st) = p0
  /\ Scene3D.scene st !! id
     = Some (Scene3D.mkObject3D (Scene3D.add p0 (Scene3D.sub cur c0)) r0 s0 m).

(** The pose that a commit writes for a live object. *)
Definition poseUpdate {C} (obj : Scene3D.Object3D C) : SceneObjectUpdate :=
  mkUpdate (Some (tripleOf (Scene3D.o_position obj)))
    (Some (tripleOfEuler (Scene3D.o_rotation obj)))
    (Some (tripleOf (Scene3D.o_scale obj))) None.

(** A callback that writes to an object of the store. *)
Definition isUpdate (cb : Scene3D.Callback) : Prop :=
  exists id u, cb = Scene3D.OnUpdateObject id u.

(** A session on the live object [obj] named [id], as a pinching frame or
    a pinch-up meets it. *)
Definition sessionOn {C} (id : string) (obj : Scene3D.Object3D C)
    (st : Scene3D.IMState C) : Prop :=
  Scene3D.waitingForPinchRelease st = false
  /\ wasPinching st
  /\ Scene3D.isDragging (Scene3D.dragRef st) = true
  /\ Scene3D.targetId (Scene3D.dragRef st) = Some id
  /\ id <> ""
  /\ Scene3D.scene st !! id = Some obj.

(** The way of the cursor since the pinch-down, for a frame of a
    session. *)
Definition dragDelta {C} (st : Scene3D.IMState C) (f : Scene3D.Frame)
  : Scene3D.Vector3 :=
  Scene3D.sub (Scene3D.cursorPosOf (Scene3D.dragRef st) f)
    (Scene3D.startCursorPos (Scene3D.dragRef st)).

(** The length of a vector and the distance of two points in the world. *)
Definition norm (v : Scene3D.Vector3) : R :=
  sqrt (Rsqr (Scene3D.v_x v) + Rsqr (Scene3D.v_y v) + Rsqr (Scene3D.v_z v)).

Definition distanceTo (a b : Scene3D.Vector3) : R := norm (Scene3D.sub a b).

(** The callbacks of a run up to the first pick of an object. *)
Fixpoint untilSelect (cbs : list Scene3D.Callback) : list Scene3D.Callback :=
  match cbs with
  | [] => []
  | Scene3D.OnSelect _ :: _ => []
  | cb :: rest => cb :: untilSelect rest
  end.

(** A frame in mode [m] whose hand pinches, and one whose hand is open. *)
Definition pinchIn (m : AppMode) (f : Scene3D.Frame) : Prop :=
  Scene3D.f_mode f = m
  /\ exists hd, Scene3D.f_handData f = Some hd /\ hd_isPinching hd = true.

Definition openIn (m : AppMode) (f : Scene3D.Frame) : Prop :=
  Scene3D.f_mode f = m
  /\ exists hd, Scene3D.f_handData f = Some hd /\ hd_isPinching hd = false.

(** A frame with a hand, outside the four modes that suspend tracking. *)
Definition tracked (f : Scene3D.Frame) : Prop :=
  (exists hd, Scene3D.f_handData f = Some hd) /\ ~ inertMode (Scene3D.f_mode f).

(** A call that replaces the list of objects. *)
Definition setsObjects (c : App.SetCall) : bool :=
  match c with App.SetObjects _ => true | _ => false end.

(** The frame does not qualify for any row of the hold table. *)
Definition holdCleared : list App.SetCall :=
  [App.SetHoldStart None; App.SetActiveProgress None].

End Spec.

(** ** Sample inputs *)

Module Samples.
Import HandTracker.

Definition origin : NormalizedLandmark := mkLandmark 0 0 0.

(** A hand whose 21 landmarks coincide in the image, with the index tip
    one unit deeper than the rest. *)
Definition flatHand : list NormalizedLandmark :=
  replicate 8 origin ++ [mkLandmark 0 0 1] ++ replicate 12 origin.

(** A hand with the Shaka pattern whose thumb tip touches the index tip:
    thumb tip and index tip at (0.1, 0), index knuckle at (0.2, 0), pinky
    tip at (0.3, 0), and the wrist with every other landmark at (0, 0). *)
Definition shakaPinchHand : list NormalizedLandmark :=
  let w := origin in
  let t := mkLandmark (1 / 10) 0 0 in
  [w; w; w; w; t; w; mkLandmark (2 / 10) 0 0; w; t; w; w; w; w; w; w; w; w; w;
   w; w; mkLandmark (3 / 10) 0 0].

(** The settings after the user has switched Pinch off, with a stray
    entry that marks Shaka as inactive. *)
Definition pinchOff : gmap string bool :=
  <[gestureKey SHAKA := false]>
    (<[gestureKey PINCH := false]> (App.a_gestureSettings App.initialState)).

Definition pinchOffState : App.AppState :=
  let s := App.initialState in
  App.mkAppState (App.a_handData s) (App.a_objects s) (App.a_selectedId s)
    (App.a_mode s) (App.a_transformMode s) (App.a_sensitivity s)
    (App.a_pendingObjectType s) (App.a_holdStart s) (App.a_activeProgress s)
    (App.a_activeRadialSector s) (App.a_hubTab s) (App.a_hubPinchCooldown s)
    pinchOff.

(** The first render with the cube selected, as a Victory hold meets it. *)
Definition cubeSelected : App.AppState :=
  App.applyCall App.initialState (App.SetSelectedId (Some "cube-1")).

(** The radial menu open over the first render, on a window of 1000 by
    800 pixels. *)
Definition radialOpen : App.AppState :=
  App.applyCall cubeSelected (App.SetMode RADIAL).



(** A colour kept as its hex string; hue, saturation and lightness are
    not tracked by this sample. *)
#[global] Instance hexColor : Scene3D.ThreeColor string := {|
  Scene3D.getHSL := fun _ => Scene3D.mkHSL 0 0 (1 / 2);
  Scene3D.setHSL := fun _ _ _ => "808080";
  Scene3D.getHexString := fun c => c
|}.

(** The scene of the first render: the mesh of the cube, named by its id,
    and a camera rig that is not a mesh. *)
Definition cubeMesh : Scene3D.Object3D string :=
  Scene3D.mkObject3D (Scene3D.mkVector3 0 0 0) (Scene3D.mkEuler 0 0 0)
    (Scene3D.mkVector3 1 1 1) (Some (Scene3D.mkMaterial true "6366f1")).

Definition rigGroup : Scene3D.Object3D string :=
  Scene3D.mkObject3D (Scene3D.mkVector3 0 3 0) (Scene3D.mkEuler 0 0 0)
    (Scene3D.mkVector3 1 1 1) None.

Definition atRest : Scene3D.IMState string :=
  Scene3D.mkIMState None false Scene3D.initialDrag
    (Some (Scene3D.mkCursorMesh false (Scene3D.mkVector3 0 0 0) 1 "#00ffcc"))
    (Some (Scene3D.mkGhost false (Scene3D.mkVector3 0 0 0)))
    (<["cube-1" := cubeMesh]> (<["rig" := rigGroup]> ∅)).

Definition pinchingHand : HandData := mkHandData 0 0 PINCH (1 / 100) true.

Definition openHand : HandData := mkHandData 0 0 NONE (2 / 10) false.

(** Frames seen from a camera at (-12, 0, 0) that looks along the x axis
    at the cube, 12 units away. *)
Definition frameOf (hand : option HandData) (mode : AppMode)
    (tm : TransformMode) (hit : option Scene3D.Hit) : Scene3D.Frame :=
  Scene3D.mkFrame hand mode tm (15 / 10) (Scene3D.mkVector3 (-12) 0 0)
    (Scene3D.mkVector3 1 0 0) hit.

Definition cubeHit : Scene3D.Hit := Scene3D.mkHit "cube-1" None 12.


Definition pickCube : Scene3D.Frame :=
  frameOf (Some pinchingHand) EDIT translate (Some cubeHit).

Definition holdCube : Scene3D.Frame :=
  frameOf (Some pinchingHand) EDIT translate (Some cubeHit).

Definition releaseCube : Scene3D.Frame :=
  frameOf (Some openHand) EDIT translate None.

Definition handLost : Scene3D.Frame := frameOf None EDIT translate None.

(** The cube picked and held for one more frame: the projection of the
    cursor has moved from 10 to 12 units from the camera, and the live
    mesh with it. *)
Definition midDrag : Scene3D.IMState string :=
  (Scene3D.runFrames atRest [pickCube; holdCube]).1.

Definition rockHand : HandData := mkHandData 0 0 ROCK (2 / 10) false.

Definition settingsFrame : Scene3D.Frame :=
  frameOf (Some rockHand) SETTINGS translate None.

Definition placingPinch : Scene3D.Frame :=
  frameOf (Some pinchingHand) PLACING translate None.

Definition placingOpen : Scene3D.Frame :=
  frameOf (Some openHand) PLACING translate None.

(** A pinching hand seen along the y axis. *)
Definition pinchElsewhere : Scene3D.Frame :=
  Scene3D.mkFrame (Some pinchingHand) EDIT translate (15 / 10)
    (Scene3D.mkVector3 (-12) 0 0) (Scene3D.mkVector3 0 1 0) None.



Definition pinchFrame : HandData := mkHandData 0 0 PINCH (1 / 100) true.

Definition shakaFrame : HandData := mkHandData 0 0 SHAKA (1 / 100) true.

(** The radial menu with a pinching hand at the top of the screen. *)
Definition radialPinchTop : App.AppState :=
  App.applyCall radialOpen
    (App.SetHandData (Some (mkHandData 0 1 PINCH (1 / 100) true))).

Definition window1000x800 : App.LoopEnv := App.mkLoopEnv 7000 1000 800 None.

(** The creation menu with a pinching hand over the sphere button. *)
Definition menuPinch : App.AppState :=
  App.applyCalls App.initialState
    [App.SetMode MENU; App.SetHandData (Some pinchFrame)].

Definition overSphereButton : App.LoopEnv :=
  App.mkLoopEnv 7000 1000 800 (Some (App.mkElement (Some sphere) None)).

(** The state after a pinch on the sphere button of the creation menu. *)
Definition placingSphere : App.AppState :=
  App.applyCalls App.initialState
    [App.SetPendingObjectType (Some sphere); App.SetMode PLACING].

(** The Help hub, open on the guide, with a pinching hand over no tab. *)
Definition hubOpen : App.AppState :=
  App.applyCalls App.initialState
    [App.SetMode HUB; App.SetHandData (Some pinchFrame)].

(** Edit mode with the Rock gesture held since 5000 ms, and the run of
    the gesture loop at 6000 ms, at which the hold fires. *)
Definition rockHeld : App.AppState :=
  App.applyCalls App.initialState
    [App.SetMode EDIT; App.SetHandData (Some rockHand);
     App.SetHoldStart (Some (App.mkHoldStart ROCK 5000))].

Definition holdDue : App.LoopEnv := App.mkLoopEnv 6000 1000 800 None.

(** The cube of [midDrag], two units along the x axis from where it was
    picked. *)
Definition draggedCube : Scene3D.Object3D string :=
  Scene3D.mkObject3D
    (Scene3D.add (Scene3D.mkVector3 0 0 0)
       (Scene3D.sub (Spec.cursorAt holdCube 12) (Spec.cursorAt pickCube 10)))
    (Scene3D.mkEuler 0 0 0) (Scene3D.mkVector3 1 1 1)
    (Some (Scene3D.mkMaterial true "6366f1")).

(** Frames of a held pinch in the other three transform modes. *)
Definition turnCube : Scene3D.Frame :=
  frameOf (Some pinchingHand) EDIT rotate None.

Definition scaleCube : Scene3D.Frame :=
  frameOf (Some pinchingHand) EDIT scale None.

Definition tintCube : Scene3D.Frame :=
  frameOf (Some pinchingHand) EDIT color None.

(** An open hand in View, with nothing under the cursor. *)
Definition lookAround : Scene3D.Frame :=
  frameOf (Some openHand) VIEW translate None.

(** A session whose target has left the scene. *)
Definition staleDrag : Scene3D.IMState string :=
  Scene3D.mkIMState (Scene3D.prevHandPos midDrag)
    (Scene3D.waitingForPinchRelease midDrag) (Scene3D.dragRef midDrag)
    (Scene3D.cursorRef midDrag) (Scene3D.ghostRef midDrag)
    (delete "cube-1" (Scene3D.scene midDrag)).

Definition thumbsUp : HandData := mkHandData 0 0 THUMBS_UP (2 / 10) false.

Definition thumbDown : HandData := mkHandData 0 0 THUMB_DOWN (2 / 10) false.

Definition freeOrbit : Scene3D.OrbitControls :=
  Scene3D.mkOrbitControls true true true.

End Samples.

(** * Properties *)

Ltac decide_reals :=
  repeat (case_bool_decide; try (exfalso; lra)).

Ltac decide_tags :=
  repeat (case_bool_decide; try (exfalso; first [congruence | tauto])).

Ltac members H :=
  repeat (apply elem_of_cons in H as [H | H]);
  try (apply elem_of_nil in H; contradiction).

Ltac decide_modes :=
  repeat first
    [ rewrite bool_decide_eq_true_2 by first [reflexivity | assumption]
    | rewrite bool_decide_eq_false_2 by first [discriminate | assumption | congruence] ].

(** ** The classifier *)

Import HandTracker Spec.

Lemma getDist_planar p q : getDist p q = planarDistance p q.
Proof.
  unfold getDist, planarDistance, Rsqr. f_equal. ring.
Qed.

Lemma lookup_21 {A} (l : list A) :
  length l = 21%nat ->
  exists a0 a1 a2 a3 a4 a5 a6 a7 a8 a9 a10 a11 a12 a13 a14 a15 a16 a17 a18 a19 a20,
    l = [a0; a1; a2; a3; a4; a5; a6; a7; a8; a9; a10; a11; a12; a13; a14; a15;
         a16; a17; a18; a19; a20].
Proof.
  intros Hl.
  do 21 (destruct l as [|? l]; [discriminate Hl|]).
  destruct l; [|discriminate Hl].
  repeat eexists.
Qed.

(** C1.  For a hand of 21 landmarks the classifier returns a frame, and
    its tag is that of the first rule that holds, in the order Shaka,
    Pinch, Victory, Rock, ThumbsUp, ThumbsDown, ThreeFingers, Pointing,
    and None when no rule holds.  In particular Shaka wins when the Shaka
    pattern and the pinch condition both hold, and the tag is Pinch when
    the pinch condition holds without the Shaka pattern, whatever the
    other fingers do. *)
Theorem C1_priority_cascade (lm : list NormalizedLandmark) :
  length lm = 21%nat ->
  exists hd,
    handDataOf lm = Some hd
    /\ firstMatch lm (hd_gesture hd)
    /\ (shakaRule lm -> pinchRule lm -> hd_gesture hd = SHAKA)
    /\ (pinchRule lm -> ~ shakaRule lm -> hd_gesture hd = PINCH).
Proof.
  intros Hl.
  destruct (lookup_21 lm Hl)
    as (a0&a1&a2&a3&a4&a5&a6&a7&a8&a9&a10&a11&a12&a13&a14&a15&a16&a17&a18&a19&a20&->).
  eexists. split; [reflexivity|].
  cbn [hd_gesture].
  unfold firstMatch, shakaRule, pinchRule, victoryRule, rockRule, thumbsUpRule,
    thumbsDownRule, threeFingersRule, pointingRule, allFourCurled, indexExtended,
    middleExtended, ringExtended, pinkyExtended, extended, thumbFar, thumbUp,
    thumbDown, lmAt, PINCH_THRESHOLD.
  cbn [lookup list_lookup default from_option id WRIST THUMB_IP THUMB_TIP INDEX_PIP
       INDEX_TIP MIDDLE_PIP MIDDLE_TIP RING_PIP RING_TIP PINKY_PIP PINKY_TIP].
  rewrite <- ?bool_decide_not, <- ?bool_decide_and.
  repeat (case_bool_decide; [tauto|]).
  tauto.
Qed.

Lemma flatHand_classified :
  handDataOf Samples.flatHand
  = Some (mkHandData ((0 * 2 - 1) * -1) ((0 * 2 - 1) * -1) PINCH
            (getDist Samples.origin (mkLandmark 0 0 1)) true).
Proof.
  unfold handDataOf, Samples.flatHand, Samples.origin, PINCH_THRESHOLD. cbn.
  unfold getDist. cbn.
  replace ((0 - 0) * ((0 - 0) * 1) + (0 - 0) * ((0 - 0) * 1)) with 0 by ring.
  rewrite sqrt_0. decide_reals. reflexivity.
Qed.

Lemma getDist_level p q :
  lm_y p = lm_y q -> getDist p q = Rabs (lm_x p - lm_x q).
Proof.
  intros Hy. unfold getDist. rewrite Hy.
  replace ((lm_x p - lm_x q) ^ 2 + (lm_y q - lm_y q) ^ 2)
    with (Rsqr (lm_x p - lm_x q)) by (unfold Rsqr; ring).
  apply sqrt_Rsqr_abs.
Qed.

Ltac level_distances :=
  rewrite ?getDist_level by reflexivity; cbn [lm_x lm_y];
  repeat match goal with
         | |- context [Rabs ?x] =>
             first [ rewrite (Rabs_pos_eq x) by lra
                   | rewrite (Rabs_left x) by lra ]
         end.

Lemma shakaPinchHand_shaka : shakaRule Samples.shakaPinchHand.
Proof.
  unfold shakaRule, thumbFar, pinkyExtended, indexExtended, middleExtended,
    ringExtended, extended.
  cbn. unfold Samples.origin.
  repeat split; try (intros Hgt; revert Hgt); level_distances; lra.
Qed.

Lemma shakaPinchHand_pinch : pinchRule Samples.shakaPinchHand.
Proof.
  unfold pinchRule. cbn. level_distances. lra.
Qed.

(** The Shaka pattern and the pinch condition hold together for
    [shakaPinchHand], and the classifier answers Shaka. *)
Lemma C1_priority_cascade_witness :
  exists hd,
    handDataOf Samples.shakaPinchHand = Some hd /\ hd_gesture hd = SHAKA.
Proof.
  destruct (C1_priority_cascade Samples.shakaPinchHand eq_refl)
    as (hd & Hhd & _ & Hshaka & _).
  exists hd. split; [exact Hhd|].
  apply Hshaka; [apply shakaPinchHand_shaka | apply shakaPinchHand_pinch].
Defined.

Lemma bind_related {A B} (P : A -> A -> Prop) (a b : option A)
    (f g : A -> option B) :
  option_Forall2 P a b -> (forall x y, P x y -> f x = g y) ->
  a ≫= f = b ≫= g.
Proof.
  intros [x y Hxy|] Hfg; cbn; [apply Hfg, Hxy | reflexivity].
Qed.

Lemma getDist_depth_free p q p' q' :
  sameInPlane p p' -> sameInPlane q q' -> getDist p q = getDist p' q'.
Proof.
  intros [Hx Hy] [Hx' Hy']. unfold getDist. rewrite Hx, Hy, Hx', Hy'. reflexivity.
Qed.

Lemma handDataOf_depth_free (lm lm' : list NormalizedLandmark) :
  Forall2 sameInPlane lm lm' -> handDataOf lm' = handDataOf lm.
Proof.
  intros HF. unfold handDataOf. symmetry.
  pose proof (proj1 (Forall2_lookup _ _ _) HF) as Hi.
  apply (bind_related _ _ _ _ _ (Hi _)); intros wrist wrist' Hw.
  apply (bind_related _ _ _ _ _ (Hi _)); intros thumbTip thumbTip' Htt.
  apply (bind_related _ _ _ _ _ (Hi _)); intros thumbIp thumbIp' Hti.
  apply (bind_related _ _ _ _ _ (Hi _)); intros indexTip indexTip' Hit.
  apply (bind_related _ _ _ _ _ (Hi _)); intros indexPip indexPip' Hip.
  apply (bind_related _ _ _ _ _ (Hi _)); intros middleTip middleTip' Hmt.
  apply (bind_related _ _ _ _ _ (Hi _)); intros middlePip middlePip' Hmp.
  apply (bind_related _ _ _ _ _ (Hi _)); intros ringTip ringTip' Hrt.
  apply (bind_related _ _ _ _ _ (Hi _)); intros ringPip ringPip' Hrp.
  apply (bind_related _ _ _ _ _ (Hi _)); intros pinkyTip pinkyTip' Hpt.
  apply (bind_related _ _ _ _ _ (Hi _)); intros pinkyPip pinkyPip' Hpp.
  rewrite (getDist_depth_free indexTip wrist _ _ Hit Hw),
    (getDist_depth_free indexPip wrist _ _ Hip Hw),
    (getDist_depth_free middleTip wrist _ _ Hmt Hw),
    (getDist_depth_free middlePip wrist _ _ Hmp Hw),
    (getDist_depth_free ringTip wrist _ _ Hrt Hw),
    (getDist_depth_free ringPip wrist _ _ Hrp Hw),
    (getDist_depth_free pinkyTip wrist _ _ Hpt Hw),
    (getDist_depth_free pinkyPip wrist _ _ Hpp Hw),
    (getDist_depth_free thumbTip indexPip _ _ Htt Hip),
    (getDist_depth_free thumbTip indexTip _ _ Htt Hit).
  destruct Htt as [_ ->], Hti as [_ ->], Hit as [-> ->].
  reflexivity.
Qed.

(** C7, as the classifier computes it.  For a hand of 21 landmarks the
    pinch distance of the frame is the distance in the image plane (x and
    y; the depth z is not read) between the thumb tip and the index tip,
    and [isPinching] holds exactly when that distance is below 0.05.  The
    thumb-far test and the extension tests use the same planar distance,
    and the whole frame is unchanged when only depths change. *)
Theorem C7_planar_pinch_distance (lm : list NormalizedLandmark) :
  length lm = 21%nat ->
  exists hd,
    handDataOf lm = Some hd
    /\ hd_pinchDistance hd
       = planarDistance (lmAt lm THUMB_TIP) (lmAt lm INDEX_TIP)
    /\ (hd_isPinching hd = true
        <-> planarDistance (lmAt lm THUMB_TIP) (lmAt lm INDEX_TIP) < 5 / 100)
    /\ (thumbFar lm
        <-> planarDistance (lmAt lm THUMB_TIP) (lmAt lm INDEX_PIP) > 5 / 100)
    /\ (forall tip knuckle,
          extended lm tip knuckle
          <-> planarDistance (lmAt lm tip) (lmAt lm WRIST)
              > planarDistance (lmAt lm knuckle) (lmAt lm WRIST))
    /\ (forall lm', Forall2 sameInPlane lm lm' -> handDataOf lm' = Some hd).
Proof.
  intros Hl.
  destruct (lookup_21 lm Hl)
    as (a0&a1&a2&a3&a4&a5&a6&a7&a8&a9&a10&a11&a12&a13&a14&a15&a16&a17&a18&a19&a20&->).
  eexists. split; [reflexivity|].
  cbn [hd_pinchDistance hd_isPinching].
  unfold thumbFar, extended, lmAt, THUMB_TIP, INDEX_TIP, INDEX_PIP, WRIST,
    PINCH_THRESHOLD.
  cbn [lookup list_lookup default from_option id].
  split; [apply getDist_planar|].
  split; [rewrite bool_decide_eq_true, getDist_planar; reflexivity|].
  split; [rewrite getDist_planar; reflexivity|].
  split; [intros tip knuckle; rewrite !getDist_planar; reflexivity|].
  intros lm' HF. rewrite (handDataOf_depth_free _ _ HF). reflexivity.
Qed.

Lemma C7_planar_pinch_distance_witness :
  exists hd,
    handDataOf Samples.flatHand = Some hd
    /\ hd_pinchDistance hd
       = planarDistance (lmAt Samples.flatHand THUMB_TIP)
           (lmAt Samples.flatHand INDEX_TIP).
Proof.
  destruct (C7_planar_pinch_distance Samples.flatHand eq_refl)
    as (hd & Hhd & Hdist & _).
  exists hd. split; [exact Hhd | exact Hdist].
Defined.

(** C7 as stated fails on [flatHand]: its thumb tip and index tip are one
    unit apart as points of space, yet the classifier reports a pinch
    distance of 0 and a pinch. *)
Lemma C7_euclidean_counterexample :
  euclideanDistance (lmAt Samples.flatHand THUMB_TIP)
    (lmAt Samples.flatHand INDEX_TIP) = 1
  /\ hd_pinchDistance <$> handDataOf Samples.flatHand = Some 0
  /\ hd_isPinching <$> handDataOf Samples.flatHand = Some true
  /\ ~ (euclideanDistance (lmAt Samples.flatHand THUMB_TIP)
          (lmAt Samples.flatHand INDEX_TIP) < 5 / 100).
Proof.
  assert (Hd : euclideanDistance (lmAt Samples.flatHand THUMB_TIP)
                 (lmAt Samples.flatHand INDEX_TIP) = 1).
  { unfold euclideanDistance. cbn.
    replace (Rsqr (0 - 0) + Rsqr (0 - 0) + Rsqr (0 - 1)) with 1
      by (unfold Rsqr; ring).
    apply sqrt_1. }
  rewrite Hd, flatHand_classified. cbn.
  rewrite getDist_level by reflexivity. cbn.
  replace (0 - 0) with 0 by ring. rewrite Rabs_R0.
  repeat split; lra.
Qed.

(** ** The hand callback *)

Import App.

(** C9.  Whatever the settings, a frame whose tag they mark inactive, and
    which is neither Shaka nor Rock, reaches the state with its tag
    replaced by None and its other fields untouched; a frame whose tag is
    Shaka or Rock reaches the state as it came. *)
Theorem C9_disabled_gesture_downgraded (st : AppState) (d : HandData) :
  let st' := applyCalls st (handleHandUpdate (a_gestureSettings st) (Some d)) in
  (a_gestureSettings st !! gestureKey (hd_gesture d) = Some false ->
   hd_gesture d <> SHAKA -> hd_gesture d <> ROCK ->
   a_handData st'
   = Some (mkHandData (hd_x d) (hd_y d) NONE (hd_pinchDistance d) (hd_isPinching d)))
  /\ (hd_gesture d = SHAKA \/ hd_gesture d = ROCK -> a_handData st' = Some d).
Proof.
  destruct st, d as [x y g pd pinching]; cbn.
  split.
  - intros Hoff Hs Hr. unfold handleHandUpdate; cbn.
    destruct (decide (g = NONE)) as [->|Hn].
    + rewrite (bool_decide_eq_false_2 (NONE <> NONE)) by tauto. reflexivity.
    + rewrite !bool_decide_eq_true_2 by assumption. reflexivity.
  - intros [-> | ->]; reflexivity.
Qed.

Lemma C9_disabled_gesture_downgraded_witness :
  a_handData (applyCalls Samples.pinchOffState
                (handleHandUpdate Samples.pinchOff (Some Samples.pinchFrame)))
  = Some (mkHandData 0 0 NONE (1 / 100) true)
  /\ a_handData (applyCalls Samples.pinchOffState
                   (handleHandUpdate Samples.pinchOff (Some Samples.shakaFrame)))
     = Some Samples.shakaFrame.
Proof.
  split.
  - apply (C9_disabled_gesture_downgraded Samples.pinchOffState Samples.pinchFrame);
      [reflexivity | discriminate | discriminate].
  - apply (C9_disabled_gesture_downgraded Samples.pinchOffState Samples.shakaFrame).
    left; reflexivity.
Defined.

(** ** The hold timer *)

Lemma withHold_fields st hold :
  a_mode (withHold st hold) = a_mode st
  /\ a_selectedId (withHold st hold) = a_selectedId st
  /\ a_holdStart (withHold st hold) = hold.
Proof. destruct st; repeat split. Qed.

Lemma qualifies_target st g :
  qualifies st g ->
  exists action label,
    currentTargetAction st g = Some (action, label)
    /\ holdTarget g
       = Some (match action with
               | Action.CANCEL => VIEW
               | Action.SETTINGS => SETTINGS
               | Action.MENU => MENU
               | Action.RADIAL => RADIAL
               end).
Proof.
  unfold qualifies, currentTargetAction, selectionPresent.
  destruct g; try contradiction; intros Hq; cbn.
  - destruct Hq as [Hm Hp]. decide_tags; cbn; eauto.
  - decide_tags; cbn; eauto.
  - destruct Hq as [(id & -> & Hid) Hr]. cbn. decide_tags; cbn; eauto.
  - decide_tags; cbn; eauto.
Qed.

Lemma qualifies_withHold st hold g : qualifies st g -> qualifies (withHold st hold) g.
Proof.
  destruct (withHold_fields st hold) as (Hm & Hs & _).
  unfold qualifies, selectionPresent. rewrite Hm, Hs. tauto.
Qed.

(** A frame that starts the hold: the timer is set, no mode is set. *)
Lemma hold_start st hold g now :
  qualifies st g ->
  (hold = None \/ exists h, hold = Some h /\ hs_type h <> g) ->
  let calls := holdBlock (withHold st hold) g now in
  modeCalls calls = []
  /\ a_holdStart (applyCalls (withHold st hold) calls) = Some (mkHoldStart g now).
Proof.
  intros Hq Hfresh.
  destruct (qualifies_target _ _ (qualifies_withHold st hold g Hq))
    as (action & label & Hcur & _).
  cbn zeta. unfold holdBlock. rewrite Hcur.
  destruct (withHold_fields st hold) as (_ & _ & ->).
  destruct Hfresh as [-> | (h & -> & Hne)].
  - destruct st; split; reflexivity.
  - rewrite bool_decide_eq_true_2 by assumption. destruct st; split; reflexivity.
Qed.

(** A frame of a running hold before the second has passed: nothing but
    the progress is set. *)
Lemma hold_wait st g t0 now :
  qualifies st g -> (now - t0 < HOLD_DURATION)%Z ->
  let st0 := withHold st (Some (mkHoldStart g t0)) in
  let calls := holdBlock st0 g now in
  modeCalls calls = []
  /\ a_holdStart (applyCalls st0 calls) = Some (mkHoldStart g t0).
Proof.
  intros Hq Hlt.
  destruct (qualifies_target _ _
              (qualifies_withHold st (Some (mkHoldStart g t0)) g Hq))
    as (action & label & Hcur & _).
  cbn zeta. unfold holdBlock. rewrite Hcur.
  destruct (withHold_fields st (Some (mkHoldStart g t0))) as (_ & _ & ->).
  cbn [hs_type hs_time].
  rewrite (bool_decide_eq_false_2 (g <> g)) by tauto.
  rewrite bool_decide_eq_false_2 by lia.
  destruct st; split; reflexivity.
Qed.

(** The frame of a running hold at which the second has passed: the mode
    of the row is set once and the timer is cleared. *)
Lemma hold_fire st g t0 now :
  qualifies st g -> (now - t0 >= HOLD_DURATION)%Z ->
  let st0 := withHold st (Some (mkHoldStart g t0)) in
  let calls := holdBlock st0 g now in
  Some (modeCalls calls) = (fun m => [m]) <$> holdTarget g
  /\ a_holdStart (applyCalls st0 calls) = None.
Proof.
  intros Hq Hge.
  destruct (qualifies_target _ _
              (qualifies_withHold st (Some (mkHoldStart g t0)) g Hq))
    as (action & label & Hcur & Htarget).
  cbn zeta. unfold holdBlock. rewrite Hcur, Htarget.
  destruct (withHold_fields st (Some (mkHoldStart g t0))) as (_ & _ & ->).
  cbn [hs_type hs_time].
  rewrite (bool_decide_eq_false_2 (g <> g)) by tauto.
  rewrite bool_decide_eq_true_2 by lia.
  destruct st, action; split; reflexivity.
Qed.

(** A frame that finds no timer sets no mode, whatever it brings. *)
Lemma hold_idle st g now : modeCalls (holdBlock (withHold st None) g now) = [].
Proof.
  unfold holdBlock.
  destruct (withHold_fields st None) as (_ & _ & ->).
  destruct (currentTargetAction (withHold st None) g) as [[action label]|];
    reflexivity.
Qed.

Lemma holdRun_app hold frames1 frames2 :
  holdRun hold (frames1 ++ frames2)
  = let '(out1, hold1) := holdRun hold frames1 in
    let '(out2, hold2) := holdRun hold1 frames2 in
    (out1 ++ out2, hold2).
Proof.
  revert hold. induction frames1 as [|[[st g] now] rest IH]; intros hold; cbn.
  - destruct (holdRun hold frames2); reflexivity.
  - rewrite IH.
    destruct (holdRun _ rest) as [out1 hold1].
    destruct (holdRun hold1 frames2); reflexivity.
Qed.

(** The frames of a hold that has started and whose second has not
    passed: none of them sets a mode, and the timer is kept. *)
Lemma hold_waiting_run g t0 (pre : list (AppState * Z)) :
  Forall (fun f => qualifies f.1 g /\ (f.2 - t0 < HOLD_DURATION)%Z) pre ->
  let '(out, hold) :=
    holdRun (Some (mkHoldStart g t0)) ((fun f => (f.1, g, f.2)) <$> pre) in
  modeCalls <$> out = replicate (length pre) []
  /\ hold = Some (mkHoldStart g t0).
Proof.
  induction 1 as [|[st now] rest [Hq Hlt] _ IH]; cbn; [split; reflexivity|].
  destruct (hold_wait st g t0 now Hq Hlt) as [Hmode Hhold].
  rewrite Hhold.
  destruct (holdRun _ _) as [out hold]. cbn.
  destruct IH as [-> ->]. rewrite Hmode. split; reflexivity.
Qed.

(** C2.  A run of frames that sustains one qualifying gesture: [first]
    starts the hold at time [t0], the frames [pre] come while less than
    1000 ms have passed since [t0], and [fire] is the first frame at or
    after 1000 ms.  No frame before [fire] sets a mode, [fire] sets the
    target mode of the gesture exactly once and leaves no timer, and the
    frame that follows, whatever it brings, sets no mode. *)
Theorem C2_hold_fires_once (g : GestureType) (hold0 : option HoldStart)
    (first : AppState) (t0 : Z) (pre : list (AppState * Z))
    (fire : AppState * Z) (next : AppState * GestureType * Z) :
  (hold0 = None \/ exists h, hold0 = Some h /\ hs_type h <> g) ->
  qualifies first g ->
  Forall (fun f => qualifies f.1 g /\ (f.2 - t0 < HOLD_DURATION)%Z) pre ->
  qualifies fire.1 g ->
  (fire.2 - t0 >= HOLD_DURATION)%Z ->
  exists target,
    holdTarget g = Some target
    /\ (let '(out, hold) :=
          holdRun hold0
            ((first, g, t0) :: ((fun f => (f.1, g, f.2)) <$> pre)
             ++ [(fire.1, g, fire.2)]) in
        modeCalls <$> out = [] :: replicate (length pre) [] ++ [[target]]
        /\ hold = None)
    /\ (let '(out, _) :=
          holdRun hold0
            ((first, g, t0) :: ((fun f => (f.1, g, f.2)) <$> pre)
             ++ [(fire.1, g, fire.2); next]) in
        modeCalls <$> out = [] :: replicate (length pre) [] ++ [[target]; []]).
Proof.
  intros Hfresh Hfirst Hpre Hfire Hge.
  destruct fire as [stf nowf], next as [[stn gn] nown]; cbn [fst snd] in *.
  destruct (hold_start first hold0 g t0 Hfirst Hfresh) as [Hm0 Hh0].
  destruct (hold_fire stf g t0 nowf Hfire Hge) as [Hmf Hhf].
  pose proof (hold_idle stn gn nown) as Hmn.
  pose proof (hold_waiting_run g t0 pre Hpre) as Hrun.
  destruct (holdTarget g) as [target|] eqn:Htarget; [|discriminate Hmf].
  injection Hmf as Hmf.
  exists target. split; [reflexivity|].
  cbn [holdRun]. rewrite Hh0, !holdRun_app.
  destruct (holdRun _ (_ <$> pre)) as [out hold]. destruct Hrun as [Hout ->].
  cbn [holdRun]. rewrite Hhf. cbn [holdRun].
  rewrite !fmap_cons, !fmap_app, Hout, Hm0. cbn.
  rewrite Hmf, Hmn. repeat split; reflexivity.
Qed.

(** A Victory hold from the first render with the cube selected: started
    at 5000, seen again at 5400 and 5900, fired at 6000, and followed by
    one more Victory frame at 6016. *)
Lemma C2_hold_fires_once_witness :
  (let '(out, hold) :=
     holdRun None
       [(Samples.cubeSelected, VICTORY, 5000%Z);
        (Samples.cubeSelected, VICTORY, 5400%Z);
        (Samples.cubeSelected, VICTORY, 5900%Z);
        (Samples.cubeSelected, VICTORY, 6000%Z)] in
   modeCalls <$> out = [[]; []; []; [MENU]] /\ hold = None)
  /\ (let '(out, _) :=
        holdRun None
          [(Samples.cubeSelected, VICTORY, 5000%Z);
           (Samples.cubeSelected, VICTORY, 5400%Z);
           (Samples.cubeSelected, VICTORY, 5900%Z);
           (Samples.cubeSelected, VICTORY, 6000%Z);
           (applyCall Samples.cubeSelected (SetMode MENU), VICTORY, 6016%Z)] in
      modeCalls <$> out = [[]; []; []; [MENU]; []]).
Proof.
  destruct (C2_hold_fires_once VICTORY None Samples.cubeSelected 5000
              [(Samples.cubeSelected, 5400%Z); (Samples.cubeSelected, 5900%Z)]
              (Samples.cubeSelected, 6000%Z)
              (applyCall Samples.cubeSelected (SetMode MENU), VICTORY, 6016%Z))
    as (target & Htarget & Hrun & Hnext).
  - left; reflexivity.
  - split; discriminate.
  - repeat constructor; cbn; try discriminate; unfold HOLD_DURATION; lia.
  - split; discriminate.
  - cbn. unfold HOLD_DURATION. lia.
  - injection Htarget as <-. split; [exact Hrun | exact Hnext].
Defined.

(** ** The radial sector mapper *)




Lemma sectorRange_sectorOf sector deg :
  sectorRange sector deg -> sectorOf deg = Some sector.
Proof.
  unfold sectorOf.
  destruct sector; cbn; intros Hr; decide_reals; cbn [orb andb];
    try reflexivity; exfalso; lra.
Qed.



Lemma clockDegOf_top dy : dy < 0 -> clockDegOf dy 0 = 0.
Proof.
  intros Hdy. pose proof PI_RGT_0 as Hpi.
  unfold clockDegOf, atan2. decide_reals; try lra.
  - exfalso. assert (- (PI / 2) * (180 / PI) + 90 = 0) by (field; lra). lra.
  - field; lra.
Qed.


(** ** The drag and placement controller *)

Import Scene3D.

Section Controller.
Context {C : Type} `{ThreeColor C}.

Implicit Types (st : IMState C) (f : Frame) (obj : Object3D C).

Lemma useFrame_no_hand st f :
  f_handData f = None -> useFrame st f = hideAndStop st.
Proof. intros Hh. unfold useFrame. rewrite Hh. reflexivity. Qed.

Lemma useFrame_inert st f :
  inertMode (f_mode f) -> useFrame st f = hideAndStop st.
Proof.
  intros Hm. unfold useFrame.
  destruct (f_handData f); [|reflexivity].
  destruct Hm as [-> | [-> | [-> | ->]]]; decide_modes; reflexivity.
Qed.

Lemma startPinch_no_update ghost f cursorPos sc d :
  Forall (fun cb => ~ isUpdate cb) (startPinch ghost f cursorPos sc d).2.
Proof.
  unfold startPinch.
  destruct ghost, (bool_decide (f_mode f = PLACING)),
    (bool_decide (f_mode f = EDIT) || bool_decide (f_mode f = VIEW)),
    (f_hit f) as [hit|];
    try destruct (objectIdOf hit); cbn; repeat constructor;
    intros (id & u & Hcb); discriminate Hcb.
Qed.

Lemma startPinch_no_hit ghost f cursorPos sc d :
  f_hit f = None -> (startPinch ghost f cursorPos sc d).1 = d.
Proof.
  intros Hhit. unfold startPinch. rewrite Hhit.
  destruct ghost, (bool_decide (f_mode f = PLACING)),
    (bool_decide (f_mode f = EDIT) || bool_decide (f_mode f = VIEW)); reflexivity.
Qed.

Lemma dragging_closed f cursorPos d sc :
  isDragging d = false -> dragging f cursorPos d sc = sc.
Proof. intros Hd. unfold dragging. rewrite Hd. reflexivity. Qed.

(** A frame that finds no session writes nothing to the store, and leaves
    no session and the same scene when nothing is under the cursor. *)
Lemma closed_session_frame st f :
  isDragging (dragRef st) = false ->
  Forall (fun cb => ~ isUpdate cb) (useFrame st f).2
  /\ (f_hit f = None ->
      isDragging (dragRef (useFrame st f).1) = false
      /\ scene (useFrame st f).1 = scene st).
Proof.
  intros Hclosed. unfold useFrame.
  destruct (f_handData f) as [hd|]; [|cbn; repeat split; constructor].
  destruct (_ || _ || _ || _); [cbn; repeat split; constructor|].
  destruct (waitingForPinchRelease st);
    [cbn; repeat split; [constructor | assumption]|].
  destruct (hd_isPinching hd) eqn:Hpinch; cbn [negb andb].
  - destruct (match prevHandPos st with Some p => gestureWasPinch p | None => false end);
      cbn [negb].
    + cbn. rewrite dragging_closed by assumption.
      repeat split; [constructor | assumption].
    + pose proof (startPinch_no_update (updateGhost st f (cursorPosOf (dragRef st) f))
                    f (cursorPosOf (dragRef st) f) (scene st) (dragRef st)) as Hnone.
      pose proof (startPinch_no_hit (updateGhost st f (cursorPosOf (dragRef st) f))
                    f (cursorPosOf (dragRef st) f) (scene st) (dragRef st)) as Hsame.
      destruct (startPinch _ f _ (scene st) (dragRef st)) as [dA cbA].
      cbn in *. rewrite app_nil_r. split; [exact Hnone|].
      intros Hhit. rewrite (Hsame Hhit) in *.
      rewrite dragging_closed by assumption. split; [assumption | reflexivity].
  - rewrite Hclosed, andb_false_r. cbn. repeat split; [constructor | assumption].
Qed.

Lemma closed_session_run st (later : list Frame) :
  isDragging (dragRef st) = false ->
  Forall (fun f => f_hit f = None) later ->
  Forall (fun cb => ~ isUpdate cb) (runFrames st later).2
  /\ isDragging (dragRef (runFrames st later).1) = false
  /\ scene (runFrames st later).1 = scene st.
Proof.
  intros Hclosed Hlater. revert st Hclosed.
  induction Hlater as [|f rest Hhit _ IH]; intros st Hclosed; cbn.
  - repeat split; [constructor | assumption].
  - destruct (closed_session_frame st f Hclosed) as [Hnone Hkeep].
    destruct (Hkeep Hhit) as [Hclosed1 Hscene1].
    destruct (useFrame st f) as [st1 cb1]. cbn in *.
    destruct (IH st1 Hclosed1) as (Hnone2 & Hclosed2 & Hscene2).
    destruct (runFrames st1 rest) as [st2 cb2]. cbn in *.
    repeat split; [apply Forall_app; split; assumption | assumption | congruence].
Qed.

(** The store keeps every object as it is under callbacks that are not
    updates: it can only grow at its end. *)
Lemma storeAfter_no_update (ast : AppState) newId (cbs : list Callback) :
  Forall (fun cb => ~ isUpdate cb) cbs ->
  exists added, storeAfter ast newId cbs = a_objects ast ++ added.
Proof.
  unfold storeAfter. intros Hcbs.
  assert (Hgen : forall s0 : AppState,
            exists added,
              a_objects (applyCalls s0 (cbs ≫= handleCallback ast newId))
              = a_objects s0 ++ added).
  { induction Hcbs as [|cb rest Hcb _ IH]; intros s0; cbn.
    - exists []. rewrite app_nil_r. reflexivity.
    - unfold applyCalls. rewrite foldl_app. fold (applyCalls s0 (handleCallback ast newId cb)).
      fold (applyCalls (applyCalls s0 (handleCallback ast newId cb))
              (rest ≫= handleCallback ast newId)).
      destruct (IH (applyCalls s0 (handleCallback ast newId cb))) as [added ->].
      destruct cb as [id | id u | pos]; cbn.
      + destruct s0; cbn. eauto.
      + exfalso. apply Hcb. exists id, u. reflexivity.
      + unfold handlePlaceObject. destruct (a_pendingObjectType ast); cbn.
        * destruct s0; cbn. rewrite <- app_assoc. eauto.
        * eauto. }
  apply Hgen.
Qed.

(** The gesture loop leaves View and Edit only for Settings, Menu or
    Radial, and writes nothing to the store on the way. *)
Lemma gestureLoop_leaves_to_inert (ast : AppState) (env : LoopEnv) :
  a_mode ast = VIEW \/ a_mode ast = EDIT ->
  let ast' := applyCalls ast (gestureLoop ast env) in
  a_objects ast' = a_objects ast
  /\ (a_mode ast' <> VIEW -> a_mode ast' <> EDIT -> inertMode (a_mode ast')).
Proof.
  intros Hmode. cbn zeta. unfold gestureLoop, inertMode.
  destruct (a_handData ast) as [hd|]; [|destruct ast; cbn in *; intuition congruence].
  assert (Hradial : radialBlock ast hd (le_innerWidth env) (le_innerHeight env) = []).
  { unfold radialBlock. rewrite bool_decide_eq_false_2; [reflexivity|].
    destruct Hmode as [-> | ->]; discriminate. }
  assert (Hmenu : menuBlock ast hd (le_element env) = []).
  { unfold menuBlock.
    rewrite !(bool_decide_eq_false_2 (a_mode ast = _))
      by (destruct Hmode as [-> | ->]; discriminate).
    reflexivity. }
  rewrite Hradial, Hmenu, !app_nil_r. unfold holdBlock.
  destruct (currentTargetAction ast (hd_gesture hd)) as [[action label]|];
    [|destruct ast; cbn in *; intuition congruence].
  destruct (a_holdStart ast) as [hold|];
    [|destruct ast; cbn in *; intuition congruence].
  destruct (bool_decide (hs_type hold <> hd_gesture hd));
    [destruct ast; cbn in *; intuition congruence|].
  destruct (bool_decide (le_now env - hs_time hold >= HOLD_DURATION)%Z);
    [|destruct ast; cbn in *; intuition congruence].
  destruct ast, action; cbn in *; intuition congruence.
Qed.

(** A frame that finds no session calls nothing or places the preview,
    and leaves no session, unless it picks an object. *)
Lemma closed_frame_cases st f :
  isDragging (dragRef st) = false ->
  (((useFrame st f).2 = [] \/ exists pos, (useFrame st f).2 = [OnPlaceObject pos])
   /\ isDragging (dragRef (useFrame st f).1) = false)
  \/ exists sel, (useFrame st f).2 = [OnSelect sel].
Proof.
  intros Hclosed. unfold useFrame.
  destruct (f_handData f) as [hd|]; [|left; split; [left|]; reflexivity].
  destruct (_ || _ || _ || _); [left; split; [left|]; reflexivity|].
  destruct (waitingForPinchRelease st); [left; split; [left; reflexivity | exact Hclosed]|].
  destruct (hd_isPinching hd); cbn [negb andb].
  - destruct (match prevHandPos st with Some p => gestureWasPinch p | None => false end);
      cbn [negb].
    + left. split; [left; reflexivity | exact Hclosed].
    + unfold startPinch.
      destruct (updateGhost st f (cursorPosOf (dragRef st) f)) as [g|],
        (bool_decide (f_mode f = PLACING)),
        (bool_decide (f_mode f = EDIT) || bool_decide (f_mode f = VIEW)),
        (f_hit f) as [hit|];
        try destruct (objectIdOf hit) as [objectId|]; cbn [fst snd app];
        first [ right; eexists; reflexivity
              | left; split; [right; eexists; reflexivity | exact Hclosed]
              | left; split; [left; reflexivity | exact Hclosed] ].
  - rewrite Hclosed, andb_false_r. left. split; [left; reflexivity | exact Hclosed].
Qed.

(** After a session is gone no update is written before an object is
    picked anew, whatever the frames that follow. *)
Lemma closed_run_until_select st (later : list Frame) :
  isDragging (dragRef st) = false ->
  Forall (fun cb => ~ isUpdate cb) (untilSelect (runFrames st later).2).
Proof.
  revert st. induction later as [|f rest IH]; intros st Hclosed; [constructor|].
  cbn [runFrames].
  destruct (closed_frame_cases st f Hclosed)
    as [[[Hcb | (pos & Hcb)] Hclosed1] | (sel & Hcb)];
    destruct (useFrame st f) as [st1 cb1]; cbn [fst snd] in *; subst cb1;
    specialize (IH st1);
    destruct (runFrames st1 rest) as [st2 cb2]; cbn [fst snd app untilSelect] in *.
  - apply IH, Hclosed1.
  - constructor; [intros (id & u & Hcb); discriminate Hcb | apply IH, Hclosed1].
  - constructor.
Qed.

(** A frame in Menu, Radial, Hub or Settings calls no callback and leaves
    no session. *)
Lemma inert_frame_discards st f :
  inertMode (f_mode f) ->
  (useFrame st f).2 = [] /\ isDragging (dragRef (useFrame st f).1) = false.
Proof.
  intros Hinert. rewrite (useFrame_inert st f Hinert). split; reflexivity.
Qed.

(** C4.  A mode change away from View and Edit discards the session and
    writes nothing to the store.  The mode leaves View and Edit by a run
    of the gesture loop only; that run keeps the objects of the store as
    they are, and the first frame in the new mode, whatever the session
    it meets, calls no callback and leaves no session, so that the store
    is still the one of before the drag.  No frame that follows writes
    an update before an object is picked anew: up to there the store
    keeps every object as it was, and when nothing is picked at all no
    update is ever written. *)
Theorem C4_mode_change_discards_session (ast : AppState) (env : LoopEnv)
    (newId : string) st f (later : list Frame) :
  a_mode ast = VIEW \/ a_mode ast = EDIT ->
  a_mode (applyCalls ast (gestureLoop ast env)) <> VIEW ->
  a_mode (applyCalls ast (gestureLoop ast env)) <> EDIT ->
  f_mode f = a_mode (applyCalls ast (gestureLoop ast env)) ->
  a_objects (applyCalls ast (gestureLoop ast env)) = a_objects ast
  /\ (useFrame st f).2 = []
  /\ storeAfter (applyCalls ast (gestureLoop ast env)) newId (useFrame st f).2
     = a_objects ast
  /\ isDragging (dragRef (useFrame st f).1) = false
  /\ Forall (fun cb => ~ isUpdate cb)
       (untilSelect (runFrames (useFrame st f).1 later).2)
  /\ (exists added,
        storeAfter (applyCalls ast (gestureLoop ast env)) newId
          (untilSelect (runFrames (useFrame st f).1 later).2)
        = a_objects ast ++ added)
  /\ (Forall (fun f' => f_hit f' = None) later ->
      Forall (fun cb => ~ isUpdate cb) (runFrames (useFrame st f).1 later).2
      /\ exists added,
           storeAfter (applyCalls ast (gestureLoop ast env)) newId
             (runFrames (useFrame st f).1 later).2
           = a_objects ast ++ added).
Proof.
  intros Hmode Hview Hedit Hframe.
  pose proof (gestureLoop_leaves_to_inert ast env Hmode) as Hloop. cbn zeta in Hloop.
  destruct Hloop as [Hobjects Hto].
  assert (Hinert : inertMode (f_mode f)) by (rewrite Hframe; apply Hto; assumption).
  destruct (inert_frame_discards st f Hinert) as [Hcbs Hclosed].
  pose proof (closed_run_until_select (useFrame st f).1 later Hclosed) as Huntil.
  split; [exact Hobjects|]. split; [exact Hcbs|].
  split; [rewrite Hcbs; exact Hobjects|]. split; [exact Hclosed|].
  split; [exact Huntil|]. split.
  - destruct (storeAfter_no_update (applyCalls ast (gestureLoop ast env)) newId _ Huntil)
      as [added Hstore].
    exists added. rewrite Hstore, Hobjects. reflexivity.
  - intros Hlater.
    destruct (closed_session_run (useFrame st f).1 later Hclosed Hlater)
      as (Hnone & _ & _).
    split; [exact Hnone|].
    destruct (storeAfter_no_update (applyCalls ast (gestureLoop ast env)) newId _ Hnone)
      as [added Hstore].
    exists added. rewrite Hstore, Hobjects. reflexivity.
Qed.

(** C3, as the frame callback implements it.  A frame without a hand, met
    during a drag, calls no callback and ends the session; the scene, the
    anchors of the drag and the record of the previous hand stay as they
    were.  The next frame with a hand, pinching or not, calls no callback,
    moves nothing in the scene and finds no session: the drag is neither
    resumed nor committed. *)
Theorem C3_hand_lost_ends_session (ast : AppState) (newId : string) st lost f :
  f_handData lost = None ->
  isDragging (dragRef st) = true ->
  wasPinching st ->
  let st1 := (useFrame st lost).1 in
  ((useFrame st lost).2 = []
   /\ isDragging (dragRef st1) = false
   /\ scene st1 = scene st
   /\ prevHandPos st1 = prevHandPos st
   /\ startCursorPos (dragRef st1) = startCursorPos (dragRef st)
   /\ startObjPos (dragRef st1) = startObjPos (dragRef st)
   /\ distanceToCamera (dragRef st1) = distanceToCamera (dragRef st))
  /\ ((useFrame st1 f).2 = []
      /\ storeAfter ast newId ((useFrame st lost).2 ++ (useFrame st1 f).2)
         = a_objects ast
      /\ scene (useFrame st1 f).1 = scene st
      /\ isDragging (dragRef (useFrame st1 f).1) = false).
Proof.
  intros Hlost Hdrag (p & Hprev & Hwas). cbn zeta.
  rewrite (useFrame_no_hand st lost Hlost). cbn [fst snd hideAndStop].
  split; [repeat split|].
  set (st1 := mkIMState _ _ _ _ _ _).
  assert (Hcall : (useFrame st1 f).2 = []
                  /\ scene (useFrame st1 f).1 = scene st
                  /\ isDragging (dragRef (useFrame st1 f).1) = false).
  { unfold useFrame.
    destruct (f_handData f) as [hd|]; [|repeat split].
    destruct (_ || _ || _ || _); [repeat split|].
    destruct (waitingForPinchRelease st1); [repeat split|].
    subst st1. cbn [prevHandPos dragRef scene]. rewrite Hprev, Hwas.
    destruct (hd_isPinching hd); cbn; rewrite ?dragging_closed by reflexivity;
      repeat split. }
  destruct Hcall as (Hcbs & Hscene & Hclosed).
  rewrite Hcbs. repeat split; assumption.
Qed.

Lemma objectIdOf_nonempty (hit : Hit) id : objectIdOf hit = Some id -> id <> "".
Proof.
  unfold objectIdOf.
  destruct (bool_decide (hit_name hit = "")); [destruct (hit_parentName hit) as [n|]|];
    cbn; try discriminate;
    case_bool_decide; cbn; intros Heq; try discriminate; congruence.
Qed.

Lemma truthy_nonempty id : id <> "" -> truthy (Some id) = true.
Proof. intros Hid. cbn. rewrite bool_decide_eq_false_2 by assumption. reflexivity. Qed.

Lemma runFrames_app st (fs1 fs2 : list Frame) :
  runFrames st (fs1 ++ fs2)
  = ((runFrames (runFrames st fs1).1 fs2).1,
     (runFrames st fs1).2 ++ (runFrames (runFrames st fs1).1 fs2).2).
Proof.
  revert st. induction fs1 as [|f rest IH]; intros st; cbn.
  - destruct (runFrames st fs2); reflexivity.
  - destruct (useFrame st f) as [st1 cb1]. rewrite IH.
    destruct (runFrames st1 rest) as [st2 cb2]. cbn.
    destruct (runFrames st2 fs2) as [st3 cb3]. cbn.
    rewrite app_assoc. reflexivity.
Qed.

(** The pinch-down over an object opens the session and leaves the live
    object where it was. *)
Lemma pick_opens_session st pick hd (hit : Hit) id obj :
  waitingForPinchRelease st = false -> ~ wasPinching st ->
  isDragging (dragRef st) = false ->
  f_handData pick = Some hd -> hd_isPinching hd = true ->
  f_mode pick = EDIT \/ f_mode pick = VIEW ->
  f_transformMode pick = translate ->
  f_hit pick = Some hit -> objectIdOf hit = Some id ->
  scene st !! id = Some obj ->
  (useFrame st pick).2 = [OnSelect (Some id)]
  /\ dragInProgress id (hit_distance hit) (cursorAt pick 10) (o_position obj)
       (o_rotation obj) (o_scale obj) (o_mesh obj) (cursorAt pick 10)
       (useFrame st pick).1.
Proof.
  intros Hwait Hwas Hclosed Hhand Hpinch Hmode Htm Hhit Hid Hobj.
  pose proof (objectIdOf_nonempty hit id Hid) as Hne.
  assert (Hprev : match prevHandPos st with
                  | Some p => gestureWasPinch p
                  | None => false
                  end = false).
  { destruct (prevHandPos st) as [p|] eqn:Hp; [|reflexivity].
    destruct (gestureWasPinch p) eqn:Hg; [|reflexivity].
    exfalso. apply Hwas. exists p. split; [exact Hp | exact Hg]. }
  assert (Hcursor : cursorPosOf (dragRef st) pick = cursorAt pick 10).
  { unfold cursorPosOf, cursorAt. rewrite Hclosed. reflexivity. }
  assert (Hstart : forall ghost,
            startPinch ghost pick (cursorAt pick 10) (scene st) (dragRef st)
            = (mkDragState true (Some id) (hit_distance hit) (cursorAt pick 10)
                 (o_position obj) (o_rotation obj) (o_scale obj)
                 (match o_mesh obj with
                  | Some mat =>
                      if m_standard mat then getHSL (m_color mat)
                      else startColorHSL (dragRef st)
                  | None => startColorHSL (dragRef st)
                  end),
               [OnSelect (Some id)])).
  { intros ghost. unfold startPinch. rewrite Hhit, Hid, Hobj. cbn.
    destruct ghost, Hmode as [-> | ->]; decide_modes; reflexivity. }
  unfold useFrame. rewrite Hhand, Hwait, Hpinch, Hprev, Hcursor, Hstart.
  assert (Hguard : bool_decide (f_mode pick = MENU) || bool_decide (f_mode pick = RADIAL)
                   || bool_decide (f_mode pick = HUB)
                   || bool_decide (f_mode pick = SETTINGS) = false)
    by (destruct Hmode as [-> | ->]; decide_modes; reflexivity).
  rewrite Hguard. cbn [negb andb fst snd].
  unfold dragging. cbn [isDragging targetId startCursorPos startObjPos].
  rewrite (truthy_nonempty id Hne), Hobj. cbn [andb]. cbn [fst snd app].
  split; [reflexivity|].
  unfold dragInProgress, wasPinching. cbn.
  repeat split; try assumption; try reflexivity.
  - eexists. split; reflexivity.
  - rewrite lookup_insert_eq. unfold dragObject. rewrite Htm. reflexivity.
Qed.

(** A frame of the drag in translate mode calls no callback and puts the
    live object at the snapshot moved by the way of the cursor. *)
Lemma drag_frame_translates id distance c0 p0 r0 s0 m cur st f :
  dragInProgress id distance c0 p0 r0 s0 m cur st ->
  translateDrag f ->
  (useFrame st f).2 = []
  /\ dragInProgress id distance c0 p0 r0 s0 m (cursorAt f distance)
       (useFrame st f).1.
Proof.
  intros (Hwait & (p & Hprev & Hwas) & Hdrag & Htarget & Hne & Hdist & Hc0 & Hp0 & Hobj)
         ((hd & Hhand & Hpinch) & Hmode & Htm).
  assert (Hcursor : cursorPosOf (dragRef st) f = cursorAt f distance).
  { unfold cursorPosOf, cursorAt. rewrite Hdrag, Hdist. reflexivity. }
  assert (Hguard : bool_decide (f_mode f = MENU) || bool_decide (f_mode f = RADIAL)
                   || bool_decide (f_mode f = HUB)
                   || bool_decide (f_mode f = SETTINGS) = false)
    by (destruct Hmode as [-> | ->]; decide_modes; reflexivity).
  unfold useFrame. rewrite Hhand, Hguard, Hwait, Hpinch, Hprev, Hwas, Hcursor.
  cbn [negb andb fst snd]. unfold dragging.
  rewrite Hdrag, Htarget, (truthy_nonempty id Hne), Hobj, Hc0. cbn [andb fst snd app].
  split; [reflexivity|].
  unfold dragInProgress, wasPinching. cbn.
  repeat split; try assumption; try reflexivity.
  - eexists. split; reflexivity.
  - rewrite lookup_insert_eq. unfold dragObject. rewrite Htm, Hp0. reflexivity.
Qed.

Lemma drag_run_translates id distance c0 p0 r0 s0 m cur st (drags : list Frame) :
  dragInProgress id distance c0 p0 r0 s0 m cur st ->
  Forall translateDrag drags ->
  (runFrames st drags).2 = []
  /\ dragInProgress id distance c0 p0 r0 s0 m (lastCursor distance cur drags)
       (runFrames st drags).1.
Proof.
  intros Hinv Hdrags. revert cur st Hinv.
  induction Hdrags as [|f rest Hf _ IH]; intros cur st Hinv; cbn.
  - split; [reflexivity | exact Hinv].
  - destruct (drag_frame_translates _ _ _ _ _ _ _ _ _ f Hinv Hf) as [Hcb Hinv1].
    destruct (useFrame st f) as [st1 cb1]. cbn in Hcb, Hinv1. subst cb1.
    destruct (IH _ _ Hinv1) as [Hcb2 Hinv2].
    destruct (runFrames st1 rest) as [st2 cb2]. cbn in *. subst cb2.
    split; [reflexivity | exact Hinv2].
Qed.

(** The pinch-up of a drag in progress, outside the color mode, writes
    the live pose once. *)
Lemma release_commits_pose id distance c0 p0 r0 s0 m cur st f hd :
  dragInProgress id distance c0 p0 r0 s0 m cur st ->
  f_handData f = Some hd -> hd_isPinching hd = false ->
  f_mode f = EDIT \/ f_mode f = VIEW ->
  f_transformMode f <> color ->
  (useFrame st f).2
  = [OnUpdateObject id
       (poseUpdate (mkObject3D (add p0 (sub cur c0)) r0 s0 m))].
Proof.
  intros (Hwait & (p & Hprev & Hwas) & Hdrag & Htarget & Hne & Hdist & Hc0 & Hp0 & Hobj)
         Hhand Hpinch Hmode Htm.
  assert (Hguard : bool_decide (f_mode f = MENU) || bool_decide (f_mode f = RADIAL)
                   || bool_decide (f_mode f = HUB)
                   || bool_decide (f_mode f = SETTINGS) = false)
    by (destruct Hmode as [-> | ->]; decide_modes; reflexivity).
  unfold useFrame. rewrite Hhand, Hguard, Hwait, Hpinch, Hprev, Hwas.
  cbn [negb andb fst snd]. rewrite Hdrag. cbn [andb].
  unfold endPinch. rewrite Htarget, (truthy_nonempty id Hne), Hobj.
  cbn [fst snd app]. unfold commitUpdate, poseUpdate. cbn [o_mesh].
  rewrite (bool_decide_eq_false_2 _ Htm). destruct m; reflexivity.
Qed.

(** What the store holds after a selection and an update of an object. *)
Lemma storeAfter_select_update (ast : AppState) newId sel id u :
  storeAfter ast newId [OnSelect sel; OnUpdateObject id u]
  = (fun o =>
       if bool_decide (so_id o = id)
       then mkSceneObject (so_id o) (so_type o)
              (default (so_position o) (u_position u))
              (default (so_rotation o) (u_rotation u))
              (default (so_scale o) (u_scale u))
              (default (so_color o) (u_color u))
       else o) <$> a_objects ast.
Proof. destruct ast; reflexivity. Qed.

(** C6.  A completed drag in translate mode: the hand pinches down over
    the object [id] in View or Edit, keeps pinching through the frames
    [drags], and releases.  With [d] the way of the cursor in the world
    from the pinch-down to the last pinching frame, the one update of the
    run carries the position of the live object at the pinch-down plus
    [d], and the store holds that position for the object afterwards. *)
Theorem C6_translate_drag_commits_snapshot_plus_delta (ast : AppState)
    (newId : string) st pick (drags : list Frame) release hdp hdr (hit : Hit)
    id obj :
  waitingForPinchRelease st = false -> ~ wasPinching st ->
  isDragging (dragRef st) = false ->
  f_handData pick = Some hdp -> hd_isPinching hdp = true ->
  f_mode pick = EDIT \/ f_mode pick = VIEW ->
  f_transformMode pick = translate ->
  f_hit pick = Some hit -> objectIdOf hit = Some id ->
  scene st !! id = Some obj ->
  Forall translateDrag drags ->
  f_handData release = Some hdr -> hd_isPinching hdr = false ->
  f_mode release = EDIT \/ f_mode release = VIEW ->
  f_transformMode release = translate ->
  let start := cursorAt pick 10 in
  let d := sub (lastCursor (hit_distance hit) start drags) start in
  let written := add (o_position obj) d in
  let cbs := (runFrames st (pick :: drags ++ [release])).2 in
  cbs = [OnSelect (Some id);
         OnUpdateObject id
           (mkUpdate (Some (tripleOf written)) (Some (tripleOfEuler (o_rotation obj)))
              (Some (tripleOf (o_scale obj))) None)]
  /\ so_id <$> storeAfter ast newId cbs = so_id <$> a_objects ast
  /\ (forall o, o ∈ storeAfter ast newId cbs -> so_id o = id ->
               so_position o = tripleOf written).
Proof.
  intros Hwait Hwas Hclosed Hhand Hpinch Hmode Htm Hhit Hid Hobj Hdrags
         Hhandr Hpinchr Hmoder Htmr start d written.
  destruct (pick_opens_session st pick hdp hit id obj Hwait Hwas Hclosed Hhand Hpinch
              Hmode Htm Hhit Hid Hobj) as [Hcb1 Hinv1].
  assert (Hcbs : (runFrames st (pick :: drags ++ [release])).2
                 = [OnSelect (Some id);
                    OnUpdateObject id
                      (mkUpdate (Some (tripleOf written))
                         (Some (tripleOfEuler (o_rotation obj)))
                         (Some (tripleOf (o_scale obj))) None)]).
  { cbn [runFrames]. destruct (useFrame st pick) as [st1 cb1].
    cbn [fst snd] in Hcb1, Hinv1. subst cb1.
    rewrite runFrames_app.
    destruct (drag_run_translates _ _ _ _ _ _ _ _ _ drags Hinv1 Hdrags) as [Hcb2 Hinv2].
    rewrite Hcb2. cbn [runFrames fst snd app].
    pose proof (release_commits_pose _ _ _ _ _ _ _ _ _ release hdr Hinv2 Hhandr Hpinchr
                  Hmoder) as Hcb3.
    rewrite Htmr in Hcb3. specialize (Hcb3 ltac:(discriminate)).
    destruct (useFrame (runFrames st1 drags).1 release) as [st3 cb3].
    cbn [fst snd] in *. subst cb3. reflexivity. }
  cbn zeta. rewrite Hcbs, storeAfter_select_update. cbn [u_position u_rotation u_scale u_color default from_option Datatypes.id].
  split; [reflexivity|]. split.
  - rewrite <- list_fmap_compose. apply list_fmap_ext. intros i o _. cbn.
    destruct (bool_decide (so_id o = id)); reflexivity.
  - intros o Ho Hoid. apply list_elem_of_fmap in Ho as (o0 & -> & _).
    destruct (bool_decide (so_id o0 = id)) eqn:Hdec; [reflexivity|].
    apply bool_decide_eq_false in Hdec. contradiction.
Qed.


Lemma not_inert_guard (m : AppMode) :
  ~ inertMode m ->
  bool_decide (m = MENU) || bool_decide (m = RADIAL) || bool_decide (m = HUB)
  || bool_decide (m = SETTINGS) = false.
Proof.
  unfold inertMode. intros Hm.
  destruct m; decide_modes; try reflexivity; exfalso; apply Hm; tauto.
Qed.

(** C8.  A frame in Placing moves the preview a fifth of the way to the
    cursor and shows it; when the height reached is within 1 of the
    ground it becomes 0.5, otherwise it is kept, so that the height of
    the preview is 0.5 or at least 1 away from the ground.  A pinch-down
    in that frame places the preview's position: it is the argument of the
    one callback, and the position of the object that the store gains. *)
Theorem C8_placing_preview_clamped (ast : AppState) (newId : string) st f hd
    (g : Ghost) :
  f_handData f = Some hd -> f_mode f = PLACING -> ghostRef st = Some g ->
  let p := lerp (g_position g) (cursorPosOf (dragRef st) f) (2 / 10) in
  exists g',
    ghostRef (useFrame st f).1 = Some g'
    /\ g_visible g' = true
    /\ v_x (g_position g') = v_x p /\ v_z (g_position g') = v_z p
    /\ (Rabs (v_y p) < 1 -> v_y (g_position g') = 5 / 10)
    /\ (1 <= Rabs (v_y p) -> v_y (g_position g') = v_y p)
    /\ (v_y (g_position g') = 5 / 10 \/ 1 <= Rabs (v_y (g_position g')))
    /\ (waitingForPinchRelease st = false -> ~ wasPinching st ->
        hd_isPinching hd = true ->
        (useFrame st f).2 = [OnPlaceObject (tripleOf (g_position g'))]
        /\ forall ty,
             a_pendingObjectType ast = Some ty ->
             storeAfter ast newId (useFrame st f).2
             = a_objects ast
               ++ [mkSceneObject newId ty (tripleOf (g_position g')) (0, 0, 0)
                     (1, 1, 1) "#ffffff"]).
Proof.
  intros Hhand Hmode Hghost p.
  set (g' := mkGhost true
               (if bool_decide (Rabs (v_y p) < 1)
                then mkVector3 (v_x p) (5 / 10) (v_z p) else p)).
  assert (Hupdate : updateGhost st f (cursorPosOf (dragRef st) f) = Some g').
  { unfold updateGhost. rewrite Hghost, (bool_decide_eq_true_2 _ Hmode). reflexivity. }
  assert (Hguard : bool_decide (f_mode f = MENU) || bool_decide (f_mode f = RADIAL)
                   || bool_decide (f_mode f = HUB)
                   || bool_decide (f_mode f = SETTINGS) = false)
    by (rewrite Hmode; decide_modes; reflexivity).
  exists g'. split.
  { unfold useFrame. rewrite Hhand, Hguard, Hupdate.
    destruct (waitingForPinchRelease st); [reflexivity|].
    destruct (if hd_isPinching hd && negb _ then _ else _) as [dA cbA].
    destruct (if negb (hd_isPinching hd) && _ && _ then _ else _) as [dC cbC].
    reflexivity. }
  split; [reflexivity|].
  assert (Hcoords :
    v_x (g_position g') = v_x p /\ v_z (g_position g') = v_z p
    /\ (Rabs (v_y p) < 1 -> v_y (g_position g') = 5 / 10)
    /\ (1 <= Rabs (v_y p) -> v_y (g_position g') = v_y p)
    /\ (v_y (g_position g') = 5 / 10 \/ 1 <= Rabs (v_y (g_position g')))).
  { subst g'. cbn [g_position].
    destruct (decide (Rabs (v_y p) < 1)) as [Hnear | Hnear];
      [rewrite (bool_decide_eq_true_2 _ Hnear)
      | rewrite (bool_decide_eq_false_2 _ Hnear)]; cbn [v_x v_y v_z].
    - split; [reflexivity|]. split; [reflexivity|]. split; [reflexivity|].
      split; [intros; exfalso; lra | left; reflexivity].
    - split; [reflexivity|]. split; [reflexivity|].
      split; [intros; exfalso; lra|]. split; [reflexivity | right; lra]. }
  destruct Hcoords as (Hx & Hz & Hnear & Hfar & Hheight).
  repeat (split; [assumption|]).
  intros Hwait Hwas Hpinch.
  assert (Hprev : match prevHandPos st with
                  | Some q => gestureWasPinch q
                  | None => false
                  end = false).
  { destruct (prevHandPos st) as [q|] eqn:Hq; [|reflexivity].
    destruct (gestureWasPinch q) eqn:Hg; [|reflexivity].
    exfalso. apply Hwas. exists q. split; [exact Hq | exact Hg]. }
  assert (Hcbs : (useFrame st f).2 = [OnPlaceObject (tripleOf (g_position g'))]).
  { unfold useFrame. rewrite Hhand, Hguard, Hupdate, Hwait, Hpinch, Hprev.
    cbn [negb andb]. unfold startPinch.
    rewrite (bool_decide_eq_true_2 _ Hmode). reflexivity. }
  split; [exact Hcbs|].
  intros ty Hty. rewrite Hcbs. unfold storeAfter. cbn.
  unfold handlePlaceObject. rewrite Hty. destruct ast; reflexivity.
Qed.


End Controller.

(** ** The controller on the sample scene *)

Import Samples.

Lemma midDrag_session :
  isDragging (dragRef midDrag) = true
  /\ targetId (dragRef midDrag) = Some "cube-1"
  /\ waitingForPinchRelease midDrag = false
  /\ wasPinching midDrag.
Proof.
  repeat split; try (vm_compute; reflexivity).
  eexists. split; vm_compute; reflexivity.
Qed.

Lemma midDrag_cube :
  scene midDrag !! "cube-1"
  = Some (mkObject3D
            (add (mkVector3 0 0 0) (sub (cursorAt holdCube 12) (cursorAt pickCube 10)))
            (mkEuler 0 0 0) (mkVector3 1 1 1) (Some (mkMaterial true "6366f1"))).
Proof. vm_compute. reflexivity. Qed.

Lemma not_inert_edit : ~ inertMode EDIT.
Proof. intros [Hm | [Hm | [Hm | Hm]]]; discriminate Hm. Qed.

Lemma C3_hand_lost_ends_session_witness :
  isDragging (dragRef (useFrame midDrag handLost).1) = false
  /\ (useFrame (useFrame midDrag handLost).1 releaseCube).2 = []
  /\ (useFrame (useFrame midDrag handLost).1 holdCube).2 = [].
Proof.
  destruct midDrag_session as (Hdrag & _ & _ & Hwas).
  pose proof (C3_hand_lost_ends_session App.initialState "obj-1" midDrag handLost
                releaseCube eq_refl Hdrag Hwas) as Hopen.
  pose proof (C3_hand_lost_ends_session App.initialState "obj-1" midDrag handLost
                holdCube eq_refl Hdrag Hwas) as Hpinch.
  cbn zeta in Hopen, Hpinch.
  destruct Hopen as ((_ & Hclosed & _) & Hcbs & _).
  destruct Hpinch as (_ & Hcbs' & _).
  split; [exact Hclosed|]. split; [exact Hcbs | exact Hcbs'].
Defined.

(** C3 as stated fails on the sample drag.  The cube is held at x = 2
    while the store has it at x = 0; the hand is lost for one frame.  When
    it comes back open no update is written and the store keeps x = 0;
    when it comes back pinching elsewhere the cube does not follow. *)
Lemma C3_suspension_counterexample :
  isDragging (dragRef midDrag) = true
  /\ (exists obj, scene midDrag !! "cube-1" = Some obj /\ v_x (o_position obj) = 2)
  /\ (runFrames midDrag [handLost; releaseCube]).2 = []
  /\ storeAfter App.initialState "obj-1" (runFrames midDrag [handLost; releaseCube]).2
     = INITIAL_OBJECTS
  /\ so_position <$> INITIAL_OBJECTS = [(0, 0, 0)]
  /\ cursorAt pinchElsewhere 12 <> cursorAt holdCube 12
  /\ scene (runFrames midDrag [handLost; pinchElsewhere]).1 = scene midDrag
  /\ isDragging (dragRef (runFrames midDrag [handLost; pinchElsewhere]).1) = false.
Proof.
  split; [apply midDrag_session|].
  split.
  { eexists. split; [apply midDrag_cube|]. cbn. lra. }
  split; [vm_compute; reflexivity|].
  split; [vm_compute; reflexivity|].
  split; [reflexivity|].
  split.
  { unfold cursorAt; cbn. intros Heq. injection Heq as Hx Hy. lra. }
  split; vm_compute; reflexivity.
Qed.

(** The Rock hold fires while the cube is dragged: the mode becomes
    Settings, the frame in Settings calls nothing and leaves no session,
    and the pinch-up that follows writes no update. *)
Lemma C4_mode_change_discards_session_witness :
  a_objects (applyCalls rockHeld (gestureLoop rockHeld holdDue)) = a_objects rockHeld
  /\ (useFrame midDrag settingsFrame).2 = []
  /\ isDragging (dragRef (useFrame midDrag settingsFrame).1) = false
  /\ Forall (fun cb => ~ isUpdate cb)
       (untilSelect (runFrames (useFrame midDrag settingsFrame).1 [releaseCube]).2).
Proof.
  assert (Hmode : a_mode (applyCalls rockHeld (gestureLoop rockHeld holdDue)) = SETTINGS)
    by (vm_compute; reflexivity).
  destruct (C4_mode_change_discards_session rockHeld holdDue "obj-1" midDrag
              settingsFrame [releaseCube])
    as (Hobjects & Hcbs & _ & Hclosed & Huntil & _).
  - right; reflexivity.
  - rewrite Hmode. discriminate.
  - rewrite Hmode. discriminate.
  - rewrite Hmode. reflexivity.
  - split; [exact Hobjects|]. split; [exact Hcbs|]. split; [exact Hclosed | exact Huntil].
Defined.

Lemma cursor_step :
  tripleOf (add (mkVector3 0 0 0) (sub (cursorAt holdCube 12) (cursorAt pickCube 10)))
  = (2, 0, 0).
Proof. unfold tripleOf, cursorAt; cbn. repeat f_equal; lra. Qed.

(** The cube at (0, 0, 0), picked and dragged by (2, 0, 0), is committed
    at (2, 0, 0). *)
Lemma C6_translate_drag_commits_snapshot_plus_delta_witness :
  (runFrames atRest [pickCube; holdCube; releaseCube]).2
  = [OnSelect (Some "cube-1");
     OnUpdateObject "cube-1"
       (mkUpdate (Some (2, 0, 0)) (Some (0, 0, 0)) (Some (1, 1, 1)) None)].
Proof.
  assert (Hrest : ~ wasPinching atRest) by (intros (p & Hp & _); discriminate Hp).
  assert (Hid : objectIdOf cubeHit = Some "cube-1") by (vm_compute; reflexivity).
  assert (Hobj : scene atRest !! "cube-1" = Some cubeMesh) by (vm_compute; reflexivity).
  assert (Hhold : Forall translateDrag [holdCube]).
  { repeat constructor. exists pinchingHand. split; reflexivity. }
  destruct (C6_translate_drag_commits_snapshot_plus_delta App.initialState "obj-1"
              atRest pickCube [holdCube] releaseCube pinchingHand openHand cubeHit
              "cube-1" cubeMesh eq_refl Hrest eq_refl eq_refl eq_refl
              (or_introl eq_refl) eq_refl eq_refl Hid Hobj Hhold eq_refl eq_refl
              (or_introl eq_refl) eq_refl) as (Hcbs & _).
  cbn [app] in Hcbs. rewrite Hcbs.
  cbn [lastCursor foldl hit_distance cubeHit o_position o_rotation o_scale cubeMesh].
  rewrite cursor_step. reflexivity.
Defined.

Lemma C8_placing_preview_clamped_witness :
  exists g',
    ghostRef (useFrame atRest placingPinch).1 = Some g'
    /\ v_y (g_position g') = 5 / 10
    /\ (useFrame atRest placingPinch).2 = [OnPlaceObject (tripleOf (g_position g'))].
Proof.
  destruct (C8_placing_preview_clamped App.initialState "obj-1" atRest placingPinch
              pinchingHand (mkGhost false (mkVector3 0 0 0)) eq_refl eq_refl eq_refl)
    as (g' & Hg & _ & _ & _ & Hnear & _ & _ & Hplace).
  exists g'. split; [exact Hg|]. split.
  - apply Hnear. cbn.
    replace (0 + (0 + 0 * 10 - 0) * (2 / 10)) with 0 by lra.
    rewrite Rabs_R0. lra.
  - apply Hplace; [reflexivity | | reflexivity].
    intros (p & Hp & _). discriminate Hp.
Defined.



(** * Further properties of the code *)

(** ** The classifier: missing landmarks, the cursor, pinch and postures *)

Lemma handDataOf_defined (lm : list NormalizedLandmark) :
  (21 <= length lm)%nat -> exists hd, handDataOf lm = Some hd.
Proof.
  intros Hge. unfold handDataOf.
  repeat match goal with
         | |- context [lm !! ?i] =>
             let a := fresh "a" in
             destruct (lookup_lt_is_Some_2 lm i ltac:(lia)) as [a ->];
             cbn [mbind option_bind]
         end.
  eexists. reflexivity.
Qed.

(** X1.  The classifier fails exactly on a hand with fewer than 21
    landmarks: every shorter list raises, every list of 21 or more is
    classified. *)
Theorem handDataOf_fails_iff_short (lm : list NormalizedLandmark) :
  handDataOf lm = None <-> (length lm < 21)%nat.
Proof.
  split.
  - intros Hnone. destruct (decide (length lm < 21)%nat) as [Hlt | Hge]; [exact Hlt|].
    destruct (handDataOf_defined lm ltac:(lia)) as [hd Hhd]. congruence.
  - intros Hlt. unfold handDataOf.
    rewrite (lookup_ge_None_2 lm 20) by lia.
    repeat match goal with
           | |- context [lm !! ?i ≫= _] =>
               destruct (lm !! i); cbn [mbind option_bind]; [|reflexivity]
           end.
    reflexivity.
Qed.

(** X2.  The cursor of a frame is the index tip mirrored on both axes:
    [1 - 2x] and [1 - 2y]; an index tip inside the image gives a cursor
    inside the square from -1 to 1. *)
Theorem cursor_mirrors_index_tip (lm : list NormalizedLandmark) (hd : HandData) :
  handDataOf lm = Some hd ->
  hd_x hd = 1 - 2 * lm_x (lmAt lm INDEX_TIP)
  /\ hd_y hd = 1 - 2 * lm_y (lmAt lm INDEX_TIP)
  /\ (0 <= lm_x (lmAt lm INDEX_TIP) <= 1 -> -1 <= hd_x hd <= 1)
  /\ (0 <= lm_y (lmAt lm INDEX_TIP) <= 1 -> -1 <= hd_y hd <= 1).
Proof.
  unfold handDataOf, lmAt, INDEX_TIP. intros Hhd.
  repeat match type of Hhd with
         | context [lm !! ?i ≫= _] =>
             destruct (lm !! i); cbn [mbind option_bind] in Hhd; [|discriminate Hhd]
         end.
  injection Hhd as <-. cbn [hd_x hd_y default from_option Datatypes.id].
  repeat split; intros; lra.
Qed.

Lemma cursor_mirrors_index_tip_witness :
  exists hd,
    handDataOf Samples.shakaPinchHand = Some hd
    /\ hd_x hd = 1 - 2 * (1 / 10) /\ hd_y hd = 1 - 2 * 0.
Proof.
  destruct (handDataOf_defined Samples.shakaPinchHand) as [hd Hhd]; [cbn; lia|].
  exists hd. split; [exact Hhd|].
  destruct (cursor_mirrors_index_tip _ _ Hhd) as (Hx & Hy & _).
  split; [exact Hx | exact Hy].
Defined.

(** X3.  Pinch pre-empts every posture but Shaka: a frame that pinches is
    tagged Shaka or Pinch, a frame tagged Pinch pinches, and a frame with
    any other tag than these two does not pinch. *)
Theorem pinch_preempts_postures (lm : list NormalizedLandmark) (hd : HandData) :
  handDataOf lm = Some hd ->
  (hd_isPinching hd = true -> hd_gesture hd = SHAKA \/ hd_gesture hd = PINCH)
  /\ (hd_gesture hd = PINCH -> hd_isPinching hd = true)
  /\ (hd_gesture hd <> SHAKA -> hd_gesture hd <> PINCH -> hd_isPinching hd = false).
Proof.
  unfold handDataOf. intros Hhd.
  repeat match type of Hhd with
         | context [lm !! ?i ≫= _] =>
             destruct (lm !! i); cbn [mbind option_bind] in Hhd; [|discriminate Hhd]
         end.
  injection Hhd as <-. cbn [hd_gesture hd_isPinching].
  destruct (_ && _ && negb _ && negb _ && negb _).
  - repeat split; intros; try tauto; congruence.
  - destruct (bool_decide (getDist _ _ < PINCH_THRESHOLD)).
    + repeat split; intros; try tauto; congruence.
    + repeat split; intros; try reflexivity; try discriminate.
      exfalso.
      repeat match goal with
             | Hg : (if ?b then _ else _) = PINCH |- _ =>
                 destruct b; try discriminate Hg
             end.
Qed.

Lemma pinch_preempts_postures_witness :
  exists hd,
    handDataOf Samples.flatHand = Some hd
    /\ (hd_gesture hd = SHAKA \/ hd_gesture hd = PINCH).
Proof.
  eexists. split; [apply flatHand_classified|].
  apply (pinch_preempts_postures Samples.flatHand _ flatHand_classified).
  reflexivity.
Defined.

(** ** The application: the hand callback, the settings and the store *)

Lemma applyCalls_app (st : AppState) (cs1 cs2 : list SetCall) :
  applyCalls st (cs1 ++ cs2) = applyCalls (applyCalls st cs1) cs2.
Proof. unfold applyCalls. apply foldl_app. Qed.

(** X4.  The hand callback makes exactly one call, and storing its frame
    again changes nothing; a frame, or no frame, passes as it is unless
    the settings mark its tag with [false]: a tag that the settings do not
    list is enabled. *)
Theorem handleHandUpdate_passes_and_settles (settings : gmap string bool)
    (data : option HandData) :
  (exists stored,
     handleHandUpdate settings data = [SetHandData stored]
     /\ handleHandUpdate settings stored = [SetHandData stored])
  /\ ((forall d, data = Some d ->
                settings !! gestureKey (hd_gesture d) <> Some false) ->
      handleHandUpdate settings data = [SetHandData data]).
Proof.
  split.
  - destruct data as [[x y g pd pinching]|]; [|exists None; split; reflexivity].
    unfold handleHandUpdate at 1. cbn [hd_gesture hd_x hd_y hd_pinchDistance hd_isPinching].
    destruct (_ && _ && _ && _) eqn:Hoff.
    + eexists. split; [reflexivity|]. unfold handleHandUpdate. cbn [hd_gesture].
      rewrite (bool_decide_eq_false_2 (NONE <> NONE)) by tauto. reflexivity.
    + eexists. split; [reflexivity|]. unfold handleHandUpdate.
      cbn [hd_gesture]. rewrite Hoff. reflexivity.
  - intros Hon. destruct data as [d|]; [|reflexivity].
    unfold handleHandUpdate.
    rewrite (bool_decide_eq_false_2 (settings !! _ = Some false)) by (apply Hon; reflexivity).
    rewrite andb_false_r. reflexivity.
Qed.

Lemma handleHandUpdate_passes_and_settles_witness :
  handleHandUpdate (a_gestureSettings initialState) (Some Samples.shakaFrame)
  = [SetHandData (Some Samples.shakaFrame)]
  /\ handleHandUpdate (a_gestureSettings initialState) (Some Samples.pinchFrame)
     = [SetHandData (Some Samples.pinchFrame)].
Proof.
  split;
    apply (handleHandUpdate_passes_and_settles (a_gestureSettings initialState));
    intros d Hd; apply (inj Some) in Hd; subst d; vm_compute; discriminate.
Defined.

(** X5.  The toggle of a listed key flips its entry and nothing else:
    the set of keys is kept, the other entries are kept, and two toggles
    restore the settings.  Switching a listed gesture off makes the hand
    callback downgrade its frames. *)
Theorem toggleGestureSetting_flips (key : string) (settings : gmap string bool)
    (b : bool) :
  settings !! key = Some b ->
  toggleGestureSetting key settings !! key = Some (negb b)
  /\ dom (toggleGestureSetting key settings) = dom settings
  /\ (forall other, other <> key ->
        toggleGestureSetting key settings !! other = settings !! other)
  /\ toggleGestureSetting key (toggleGestureSetting key settings) = settings
  /\ (forall d, gestureKey (hd_gesture d) = key -> b = true ->
        hd_gesture d <> SHAKA -> hd_gesture d <> ROCK ->
        handleHandUpdate (toggleGestureSetting key settings) (Some d)
        = [SetHandData (Some (mkHandData (hd_x d) (hd_y d) NONE
                                 (hd_pinchDistance d) (hd_isPinching d)))]).
Proof.
  intros Hkey. unfold toggleGestureSetting. rewrite Hkey. cbn [default from_option Datatypes.id].
  split; [apply lookup_insert_eq|].
  split.
  { rewrite dom_insert_L. apply subseteq_union_1_L, singleton_subseteq_l.
    apply elem_of_dom. exists b. exact Hkey. }
  split; [intros other Hne; apply lookup_insert_ne; congruence|].
  split.
  { rewrite lookup_insert_eq. cbn. rewrite negb_involutive, insert_insert_eq.
    apply insert_id, Hkey. }
  intros [x y g pd pinching] Hg -> Hs Hr. cbn in *. unfold handleHandUpdate. cbn.
  destruct (decide (g = NONE)) as [-> | Hn].
  - rewrite (bool_decide_eq_false_2 (NONE <> NONE)) by tauto. reflexivity.
  - rewrite Hg, lookup_insert_eq. cbn.
    rewrite !bool_decide_eq_true_2 by (assumption || reflexivity). reflexivity.
Qed.

Lemma toggleGestureSetting_flips_witness :
  toggleGestureSetting "PINCH" (a_gestureSettings initialState) !! "PINCH" = Some false
  /\ toggleGestureSetting "PINCH"
       (toggleGestureSetting "PINCH" (a_gestureSettings initialState))
     = a_gestureSettings initialState.
Proof.
  destruct (toggleGestureSetting_flips "PINCH" (a_gestureSettings initialState) true)
    as (Hflip & _ & _ & Htwice & _); [vm_compute; reflexivity|].
  split; [exact Hflip | exact Htwice].
Defined.

Lemma objects_after_update (st : AppState) id u :
  a_objects (applyCalls st (handleUpdateObject id u))
  = (fun o =>
       if bool_decide (so_id o = id)
       then mkSceneObject (so_id o) (so_type o)
              (default (so_position o) (u_position u))
              (default (so_rotation o) (u_rotation u))
              (default (so_scale o) (u_scale u))
              (default (so_color o) (u_color u))
       else o) <$> a_objects st.
Proof. destruct st; reflexivity. Qed.

(** X6.  An update of the store by id keeps the number, the order, the
    ids and the kinds of the objects, leaves every object with another id
    as it is, leaves the whole store as it is when no object has the id,
    changes nothing but the list of objects, and is the same done once or
    twice. *)
Theorem handleUpdateObject_frame (st : AppState) (id : string)
    (u : SceneObjectUpdate) :
  let st' := applyCalls st (handleUpdateObject id u) in
  (fun o => (so_id o, so_type o)) <$> a_objects st'
  = (fun o => (so_id o, so_type o)) <$> a_objects st
  /\ (forall i o, a_objects st !! i = Some o -> so_id o <> id ->
                a_objects st' !! i = Some o)
  /\ (id ∉ so_id <$> a_objects st -> a_objects st' = a_objects st)
  /\ (a_selectedId st' = a_selectedId st /\ a_mode st' = a_mode st
      /\ a_handData st' = a_handData st /\ a_holdStart st' = a_holdStart st)
  /\ a_objects (applyCalls st' (handleUpdateObject id u)) = a_objects st'.
Proof.
  cbn zeta. rewrite !objects_after_update.
  split; [|split; [|split; [|split]]].
  - rewrite <- list_fmap_compose. apply list_fmap_ext. intros i o _. cbn.
    destruct (bool_decide (so_id o = id)); reflexivity.
  - intros i o Hi Hne. rewrite list_lookup_fmap, Hi. cbn.
    rewrite bool_decide_eq_false_2 by assumption. reflexivity.
  - intros Hnot. rewrite <- (list_fmap_id (a_objects st)) at 2.
    apply list_fmap_ext. intros i o Hi. cbn.
    rewrite bool_decide_eq_false_2; [reflexivity|].
    intros <-. apply Hnot. apply list_elem_of_fmap. exists o.
    split; [reflexivity|]. eapply list_elem_of_lookup_2, Hi.
  - destruct st; repeat split.
  - rewrite <- list_fmap_compose. apply list_fmap_ext. intros i o _. cbn.
    destruct (bool_decide (so_id o = id)) eqn:Hid; cbn; rewrite Hid; [|reflexivity].
    destruct u as [[?|] [?|] [?|] [?|]]; reflexivity.
Qed.

(** X7.  Placing with no pending kind does nothing.  With a pending kind
    the store gains one object at its end, with the given id and position,
    no rotation, unit scale and the white colour; the new object is
    selected, the mode is Edit and the pending kind is cleared; the
    objects that were there are kept. *)
Theorem handlePlaceObject_effect (st : AppState) (newId : string) (pos : Triple) :
  let st' := applyCalls st (handlePlaceObject st newId pos) in
  (a_pendingObjectType st = None -> st' = st)
  /\ (forall ty, a_pendingObjectType st = Some ty ->
        a_objects st'
        = a_objects st ++ [mkSceneObject newId ty pos (0, 0, 0) (1, 1, 1) "#ffffff"]
        /\ a_selectedId st' = Some newId
        /\ a_mode st' = EDIT
        /\ a_pendingObjectType st' = None
        /\ a_transformMode st' = a_transformMode st
        /\ a_holdStart st' = a_holdStart st).
Proof.
  cbn zeta. unfold handlePlaceObject. split.
  - intros ->. reflexivity.
  - intros ty ->. destruct st; repeat split.
Qed.

Lemma handlePlaceObject_effect_witness :
  applyCalls initialState (handlePlaceObject initialState "obj-7" (1, 5 / 10, -2))
  = initialState
  /\ a_objects (applyCalls Samples.placingSphere
                  (handlePlaceObject Samples.placingSphere "obj-7" (1, 5 / 10, -2)))
     = INITIAL_OBJECTS
       ++ [mkSceneObject "obj-7" sphere (1, 5 / 10, -2) (0, 0, 0) (1, 1, 1) "#ffffff"].
Proof.
  split.
  - apply (handlePlaceObject_effect initialState "obj-7" (1, 5 / 10, -2)).
    reflexivity.
  - pose proof (handlePlaceObject_effect Samples.placingSphere "obj-7"
                  (1, 5 / 10, -2)) as [_ Hplaced].
    apply (Hplaced sphere eq_refl).
Defined.

(** ** The application: the gesture loop *)

Lemma last_cons_cons {A} (x y : A) (l : list A) : last (x :: y :: l) = last (y :: l).
Proof. reflexivity. Qed.

(** The mode after a batch of calls is the last mode that was set. *)
Lemma mode_after_calls (cs : list SetCall) (st : AppState) :
  a_mode (applyCalls st cs) = default (a_mode st) (last (modeCalls cs)).
Proof.
  revert st. induction cs as [|c cs IH]; intros st; [reflexivity|].
  change (applyCalls st (c :: cs)) with (applyCalls (applyCall st c) cs).
  rewrite IH.
  destruct c; try (destruct st; reflexivity).
  change (modeCalls (SetMode v :: cs)) with (v :: modeCalls cs).
  destruct (modeCalls cs) as [|m ms]; [destruct st; reflexivity|].
  rewrite last_cons_cons.
  destruct (last (m :: ms)) eqn:Hlast; [reflexivity|].
  apply last_None in Hlast. discriminate Hlast.
Qed.

Lemma modeCalls_app (cs1 cs2 : list SetCall) :
  modeCalls (cs1 ++ cs2) = modeCalls cs1 ++ modeCalls cs2.
Proof. unfold modeCalls. apply omap_app. Qed.

Lemma objects_after_other_calls (cs : list SetCall) (st : AppState) :
  Forall (fun c => setsObjects c = false) cs ->
  a_objects (applyCalls st cs) = a_objects st.
Proof.
  intros Hcs. revert st. induction Hcs as [|c cs Hc _ IH]; intros st; [reflexivity|].
  change (applyCalls st (c :: cs)) with (applyCalls (applyCall st c) cs).
  rewrite IH. destruct c; try discriminate Hc; destruct st; reflexivity.
Qed.

Lemma holdBlock_keeps_objects st g now :
  Forall (fun c => setsObjects c = false) (holdBlock st g now).
Proof.
  unfold holdBlock.
  destruct (currentTargetAction st g) as [[action label]|]; [|repeat constructor].
  destruct (a_holdStart st) as [hold|]; [|repeat constructor].
  destruct (bool_decide (hs_type hold <> g)); [repeat constructor|].
  destruct (bool_decide (_ >= _)%Z), action; repeat constructor.
Qed.

Lemma menuBlock_keeps_objects st hd element :
  Forall (fun c => setsObjects c = false) (menuBlock st hd element).
Proof.
  unfold menuBlock.
  destruct (_ && hd_isPinching hd); [|constructor].
  apply Forall_app. split.
  - destruct element as [el|]; [|constructor].
    apply Forall_app.
    split; [destruct (data_create_type el) | destruct (data_hub_tab el)];
      repeat constructor.
  - destruct (_ && _ && _); repeat constructor.
Qed.

Lemma not_qualifies_no_target st g :
  ~ qualifies st g -> currentTargetAction st g = None.
Proof.
  unfold qualifies, currentTargetAction, selectionPresent. intros Hq.
  destruct g; try (exfalso; apply Hq; exact I).
  - decide_tags; reflexivity.
  - decide_tags; reflexivity.
  - decide_tags; reflexivity.
  - decide_tags; cbn [andb]; try reflexivity.
  - decide_tags; reflexivity.
  - decide_tags; reflexivity.
  - destruct (a_selectedId st) as [id|] eqn:Hsel; cbn [truthy].
    + decide_tags; cbn [andb negb]; try reflexivity;
        exfalso; apply Hq; (split; [|assumption]); exists id;
        (split; [reflexivity | assumption]).
    + decide_tags; reflexivity.
Qed.

(** X8.  An interruption forfeits the hold.  A frame whose gesture does
    not qualify, like a frame without a hand, clears the timer and sets no
    mode; when the gesture comes back the timer starts again at that
    frame's time, so that no mode is set there however long ago the
    interrupted hold began. *)
Theorem hold_interruption_forfeits (g g' : GestureType) (t0 t1 t2 : Z)
    (interrupted resumed : AppState) :
  ~ qualifies interrupted g' ->
  qualifies resumed g ->
  holdBlock (withHold interrupted (Some (mkHoldStart g t0))) g' t1 = holdCleared
  /\ (forall env,
        a_handData interrupted = None -> gestureLoop interrupted env = holdCleared)
  /\ holdRun (Some (mkHoldStart g t0)) [(interrupted, g', t1); (resumed, g, t2)]
     = ([holdCleared;
         holdBlock (withHold resumed None) g t2],
        Some (mkHoldStart g t2))
  /\ modeCalls (holdBlock (withHold resumed None) g t2) = [].
Proof.
  intros Hbad Hgood.
  assert (Hclear : forall hold,
            holdBlock (withHold interrupted hold) g' t1 = holdCleared).
  { intros hold. unfold holdBlock.
    rewrite (not_qualifies_no_target (withHold interrupted hold) g'); [reflexivity|].
    intros Hq. apply Hbad. revert Hq.
    destruct (withHold_fields interrupted hold) as (Hm & Hs & _).
    unfold qualifies, selectionPresent. rewrite Hm, Hs. tauto. }
  destruct (hold_start resumed None g t2 Hgood (or_introl eq_refl)) as [Hmode Hhold].
  split; [apply Hclear|].
  split; [intros env Hnone; unfold gestureLoop; rewrite Hnone; reflexivity|].
  split; [|exact Hmode].
  cbn [holdRun]. rewrite Hclear.
  assert (Hnone : a_holdStart
                    (applyCalls (withHold interrupted (Some (mkHoldStart g t0)))
                       holdCleared) = None)
    by (destruct interrupted; reflexivity).
  rewrite Hnone, Hhold. reflexivity.
Qed.

Lemma hold_interruption_forfeits_witness :
  holdRun (Some (mkHoldStart VICTORY 5000))
    [(Samples.cubeSelected, POINTING, 5900%Z); (Samples.cubeSelected, VICTORY, 6100%Z)]
  = ([holdCleared; holdBlock (withHold Samples.cubeSelected None) VICTORY 6100],
     Some (mkHoldStart VICTORY 6100)).
Proof.
  apply (hold_interruption_forfeits VICTORY POINTING 5000 5900 6100
           Samples.cubeSelected Samples.cubeSelected).
  - intros Hq. exact Hq.
  - split; discriminate.
Defined.

(** X9.  The progress that the hold shows never exceeds 100, and is not
    negative as long as the clock has not gone back behind the start of
    the hold. *)
Theorem hold_progress_bounded (st : AppState) (g : GestureType) (now : Z)
    (p : Progress) :
  SetActiveProgress (Some p) ∈ holdBlock st g now ->
  pr_value p <= 100
  /\ ((forall hold, a_holdStart st = Some hold -> (hs_time hold <= now)%Z) ->
      0 <= pr_value p).
Proof.
  unfold holdBlock.
  destruct (currentTargetAction st g) as [[action label]|].
  2:{ intros Hin. exfalso. members Hin; discriminate Hin. }
  assert (Hrestart :
    SetActiveProgress (Some p)
    ∈ [SetHoldStart (Some (mkHoldStart g now));
       SetActiveProgress (Some (mkProgress label 0))] ->
    pr_value p <= 100
    /\ ((forall hold, a_holdStart st = Some hold -> (hs_time hold <= now)%Z) ->
        0 <= pr_value p)).
  { intros Hin. assert (p = mkProgress label 0) as ->
      by (members Hin; congruence).
    cbn. lra. }
  destruct (a_holdStart st) as [hold|]; [|exact Hrestart].
  destruct (bool_decide (hs_type hold <> g)); [exact Hrestart|].
  intros Hin.
  assert (Hp : p = mkProgress label
                 (Rmin (IZR (now - hs_time hold) / IZR HOLD_DURATION) 1 * 100)).
  { apply elem_of_cons in Hin as [Heq | Hin]; [congruence|]. exfalso.
    destruct (bool_decide (_ >= _)%Z), action; cbn in Hin; members Hin;
      discriminate Hin. }
  subst p. cbn [pr_value].
  pose proof (Rmin_r (IZR (now - hs_time hold) / IZR HOLD_DURATION) 1) as Hle.
  split; [lra|].
  intros Hclock. specialize (Hclock hold eq_refl).
  assert (0 <= IZR (now - hs_time hold) / IZR HOLD_DURATION).
  { apply Rmult_le_pos; [apply IZR_le; lia|].
    left. apply Rinv_0_lt_compat. unfold HOLD_DURATION. lra. }
  assert (0 <= Rmin (IZR (now - hs_time hold) / IZR HOLD_DURATION) 1)
    by (apply Rmin_glb; lra).
  lra.
Qed.

Lemma hold_progress_bounded_witness :
  pr_value (mkProgress "Opening Menu..." (Rmin (IZR (5400 - 5000) / IZR HOLD_DURATION) 1 * 100))
  <= 100.
Proof.
  apply (hold_progress_bounded
           (withHold Samples.cubeSelected (Some (mkHoldStart VICTORY 5000)))
           VICTORY 5400).
  vm_compute. apply list_elem_of_here.
Defined.

(** What the radial block does to the store of the state it is applied
    to: nothing, or the removal of the selected object. *)
Lemma radialBlock_objects (st acc : AppState) hd width height :
  let acc' := applyCalls acc (radialBlock st hd width height) in
  a_objects acc' = a_objects acc
  \/ (a_mode st = RADIAL /\ truthy (a_selectedId st) = true
      /\ hd_isPinching hd = true
      /\ a_objects acc'
         = filter (fun o => Some (so_id o) <> a_selectedId st) (a_objects acc)
      /\ a_selectedId acc' = None).
Proof.
  cbn zeta. unfold radialBlock.
  case_bool_decide as Hmode; [|left; reflexivity].
  destruct (bool_decide (sqrt _ > 50)); [|left; destruct acc; reflexivity].
  destruct (hd_isPinching hd); [|left; destruct acc; reflexivity].
  destruct (sectorOf _) as [[| | | |]|]; try (left; destruct acc; reflexivity).
  destruct (truthy (a_selectedId st)) eqn:Hsel; [|left; destruct acc; reflexivity].
  right. destruct acc; repeat split; assumption.
Qed.

(** X10.  The gesture loop never adds an object and never alters one: the
    store after a run is the store before, or, in Radial mode with a
    selection and a pinching hand, the store without the objects of the
    selected id, and then the selection is cleared and the mode is View. *)
Theorem gestureLoop_store_only_loses_selection (st : AppState) (env : LoopEnv) :
  let st' := applyCalls st (gestureLoop st env) in
  (a_objects st' = a_objects st
   \/ (a_mode st = RADIAL /\ truthy (a_selectedId st) = true
       /\ (exists hd, a_handData st = Some hd /\ hd_isPinching hd = true)
       /\ a_objects st'
          = filter (fun o => Some (so_id o) <> a_selectedId st) (a_objects st)
       /\ a_selectedId st' = None))
  /\ a_objects st' `sublist_of` a_objects st.
Proof.
  cbn zeta.
  assert (Hcases :
    a_objects (applyCalls st (gestureLoop st env)) = a_objects st
    \/ (a_mode st = RADIAL /\ truthy (a_selectedId st) = true
        /\ (exists hd, a_handData st = Some hd /\ hd_isPinching hd = true)
        /\ a_objects (applyCalls st (gestureLoop st env))
           = filter (fun o => Some (so_id o) <> a_selectedId st) (a_objects st)
        /\ a_selectedId (applyCalls st (gestureLoop st env)) = None)).
  { unfold gestureLoop. destruct (a_handData st) as [hd|] eqn:Hhand.
    2:{ left. destruct st; reflexivity. }
    rewrite !applyCalls_app.
    pose proof (objects_after_other_calls _ st
                  (holdBlock_keeps_objects st (hd_gesture hd) (le_now env))) as Hhold.
    set (st1 := applyCalls st (holdBlock st (hd_gesture hd) (le_now env))) in *.
    destruct (radialBlock_objects st st1 hd (le_innerWidth env) (le_innerHeight env))
      as [Hsame | (Hmode & Hsel & Hpinch & Hfilter & Hnone)].
    - left.
      rewrite (objects_after_other_calls _ _ (menuBlock_keeps_objects st hd _)).
      congruence.
    - right.
      assert (Hmenu : menuBlock st hd (le_element env) = []).
      { unfold menuBlock. rewrite Hmode. decide_modes. reflexivity. }
      rewrite Hmenu. cbn [applyCalls foldl].
      repeat split; try assumption; [eauto | congruence]. }
  split; [exact Hcases|].
  destruct Hcases as [-> | (_ & _ & _ & -> & _)]; [reflexivity | apply sublist_filter].
Qed.

(** X11.  In Radial mode a pinch over a sector decides the frame, also
    when a hold fires in the same run of the loop: Move, Rotate, Scale and
    Color set their transform mode and the mode Edit; Delete sets the mode
    View, keeps the transform mode, and with a selection leaves no object
    of the selected id in the store and no selection.  The sector is
    shown as active. *)
Theorem radial_pinch_selects_tool (st : AppState) (env : LoopEnv) (hd : HandData)
    (sector : Sector.t) :
  a_handData st = Some hd -> a_mode st = RADIAL -> hd_isPinching hd = true ->
  let cursor := cursorOnScreen hd (le_innerWidth env) (le_innerHeight env) in
  let centre := viewportCentre (le_innerWidth env) (le_innerHeight env) in
  pixelDistance cursor centre > 50 ->
  sectorRange sector (clockDegOf (cursor.2 - centre.2) (cursor.1 - centre.1)) ->
  let st' := applyCalls st (gestureLoop st env) in
  a_activeRadialSector st' = Some sector
  /\ match sector with
     | Sector.move => a_transformMode st' = translate /\ a_mode st' = EDIT
     | Sector.rotate => a_transformMode st' = rotate /\ a_mode st' = EDIT
     | Sector.scale => a_transformMode st' = scale /\ a_mode st' = EDIT
     | Sector.color => a_transformMode st' = color /\ a_mode st' = EDIT
     | Sector.delete =>
         a_transformMode st' = a_transformMode st /\ a_mode st' = VIEW
         /\ (truthy (a_selectedId st) = true ->
             a_selectedId st' = None
             /\ forall o, o ∈ a_objects st' -> Some (so_id o) <> a_selectedId st)
     end.
Proof.
  intros Hhand Hmode Hpinch cursor centre Hfar Hsector.
  assert (Hradial :
    radialBlock st hd (le_innerWidth env) (le_innerHeight env)
    = SetActiveRadialSector (Some sector) ::
      match sector with
      | Sector.move => [SetTransformMode translate; SetMode EDIT]
      | Sector.rotate => [SetTransformMode rotate; SetMode EDIT]
      | Sector.scale => [SetTransformMode scale; SetMode EDIT]
      | Sector.color => [SetTransformMode color; SetMode EDIT]
      | Sector.delete =>
          (if truthy (a_selectedId st)
           then [SetObjects (filter (fun o => Some (so_id o) <> a_selectedId st));
                 SetSelectedId None]
           else []) ++ [SetMode VIEW]
      end).
  { unfold radialBlock. rewrite (bool_decide_eq_true_2 _ Hmode).
    change ((hd_x hd + 1) / 2 * le_innerWidth env) with cursor.1.
    change ((1 - hd_y hd) / 2 * le_innerHeight env) with cursor.2.
    change (le_innerWidth env / 2) with centre.1.
    change (le_innerHeight env / 2) with centre.2.
    change (sqrt ((cursor.1 - centre.1) * (cursor.1 - centre.1)
                  + (cursor.2 - centre.2) * (cursor.2 - centre.2)))
      with (pixelDistance cursor centre).
    rewrite (bool_decide_eq_true_2 _ Hfar), (sectorRange_sectorOf _ _ Hsector), Hpinch.
    destruct sector; reflexivity. }
  assert (Hmenu : menuBlock st hd (le_element env) = []).
  { unfold menuBlock. rewrite Hmode. decide_modes. reflexivity. }
  assert (Hkeep : a_transformMode
                    (applyCalls st (holdBlock st (hd_gesture hd) (le_now env)))
                  = a_transformMode st
                  /\ a_objects (applyCalls st (holdBlock st (hd_gesture hd) (le_now env)))
                     = a_objects st).
  { split; [|apply objects_after_other_calls, holdBlock_keeps_objects].
    unfold holdBlock.
    destruct (currentTargetAction st _) as [[action label]|]; [|destruct st; reflexivity].
    destruct (a_holdStart st) as [hold|]; [|destruct st; reflexivity].
    destruct (bool_decide (hs_type hold <> _)); [destruct st; reflexivity|].
    destruct (bool_decide (_ >= _)%Z), action; destruct st; reflexivity. }
  cbn zeta. unfold gestureLoop. rewrite Hhand, Hmenu, app_nil_r, applyCalls_app, Hradial.
  destruct Hkeep as [Htm Hobjs].
  destruct (applyCalls st (holdBlock st (hd_gesture hd) (le_now env)))
    as [hd1 objs1 sel1 m1 tm1 sens1 pend1 hs1 prog1 sect1 tab1 cool1 gs1].
  cbn in Htm, Hobjs. subst tm1 objs1.
  destruct sector; cbn; try (split; [reflexivity | split; reflexivity]).
  destruct (truthy (a_selectedId st)) eqn:Hsel; cbn.
  - split; [reflexivity|]. split; [reflexivity|]. split; [reflexivity|].
    intros _. split; [reflexivity|].
    intros o Ho. apply list_elem_of_filter in Ho as [Hne _]. exact Hne.
  - split; [reflexivity|]. split; [reflexivity|]. split; [reflexivity|].
    intros Habsurd. discriminate Habsurd.
Qed.

Lemma radial_pinch_selects_tool_witness :
  a_transformMode (applyCalls Samples.radialPinchTop
                     (gestureLoop Samples.radialPinchTop Samples.window1000x800))
  = translate
  /\ a_mode (applyCalls Samples.radialPinchTop
               (gestureLoop Samples.radialPinchTop Samples.window1000x800))
     = EDIT.
Proof.
  apply (radial_pinch_selects_tool Samples.radialPinchTop Samples.window1000x800
           (mkHandData 0 1 PINCH (1 / 100) true) Sector.move eq_refl eq_refl eq_refl).
  - unfold pixelDistance; cbn.
    replace (Rsqr ((0 + 1) / 2 * 1000 - 1000 / 2)
             + Rsqr ((1 - 1) / 2 * 800 - 800 / 2))
      with (Rsqr 400) by (unfold Rsqr; field).
    rewrite sqrt_Rsqr by lra. lra.
  - cbn [fst snd cursorOnScreen viewportCentre hd_x hd_y le_innerWidth le_innerHeight
         Samples.window1000x800].
    replace ((0 + 1) / 2 * 1000 - 1000 / 2) with 0 by field.
    rewrite clockDegOf_top by lra. cbn. lra.
Defined.

Lemma holdBlock_modes st g now :
  modeCalls (holdBlock st g now) = []
  \/ exists target, holdTarget g = Some target
                    /\ modeCalls (holdBlock st g now) = [target].
Proof.
  unfold holdBlock, currentTargetAction.
  destruct g; decide_tags; cbn [andb];
    repeat match goal with
           | |- context [truthy ?x] => destruct (truthy x); cbn [andb]
           | |- context [a_holdStart st] => destruct (a_holdStart st) as [hold|]
           | |- context [bool_decide ?P] => destruct (bool_decide P)
           end;
    cbn; eauto.
Qed.

Lemma radialBlock_modes st hd width height :
  modeCalls (radialBlock st hd width height) = []
  \/ (a_mode st = RADIAL
      /\ (modeCalls (radialBlock st hd width height) = [EDIT]
          \/ modeCalls (radialBlock st hd width height) = [VIEW])).
Proof.
  unfold radialBlock. case_bool_decide as Hmode; [|left; reflexivity].
  destruct (bool_decide (sqrt _ > 50)); [|left; reflexivity].
  destruct (hd_isPinching hd); [|left; reflexivity].
  destruct (sectorOf _) as [[| | | |]|]; cbn; try tauto.
  destruct (truthy (a_selectedId st)); cbn; tauto.
Qed.

Lemma menuBlock_modes st hd element :
  modeCalls (menuBlock st hd element) = []
  \/ ((a_mode st = MENU \/ a_mode st = HUB \/ a_mode st = SETTINGS)
      /\ modeCalls (menuBlock st hd element) = [PLACING]).
Proof.
  unfold menuBlock.
  destruct (bool_decide (a_mode st = MENU)) eqn:Hmenu,
    (bool_decide (a_mode st = HUB)) eqn:Hhub,
    (bool_decide (a_mode st = SETTINGS)) eqn:Hset;
    try apply bool_decide_eq_true in Hmenu;
    try apply bool_decide_eq_true in Hhub;
    try apply bool_decide_eq_true in Hset;
    cbn [orb andb]; try (left; reflexivity);
    (destruct (hd_isPinching hd); [|left; reflexivity]);
    (destruct element as [[[ty|] [tab|]]|]; cbn;
     repeat match goal with
            | |- context [if ?b then _ else _] => destruct b
            end; cbn; tauto).
Qed.

(** X12.  Where the gesture loop can take the mode: it stays, or a hold
    sets View, Settings, Menu or Radial, or a pinch in the radial menu
    sets Edit or View, or a pinch in Menu, Hub or Settings sets Placing.
    So the loop never opens the Hub, never enters Create, enters Placing
    only from Menu, Hub or Settings, and enters Edit only from Radial. *)
Theorem gestureLoop_mode_targets (st : AppState) (env : LoopEnv) :
  let m' := a_mode (applyCalls st (gestureLoop st env)) in
  (m' = a_mode st \/ m' = VIEW \/ m' = SETTINGS \/ m' = MENU \/ m' = RADIAL
   \/ (m' = EDIT /\ a_mode st = RADIAL)
   \/ (m' = PLACING
       /\ (a_mode st = MENU \/ a_mode st = HUB \/ a_mode st = SETTINGS)))
  /\ (m' = HUB -> a_mode st = HUB)
  /\ (m' = CREATE -> a_mode st = CREATE)
  /\ (m' = PLACING ->
      a_mode st = PLACING \/ a_mode st = MENU \/ a_mode st = HUB
      \/ a_mode st = SETTINGS)
  /\ (m' = EDIT -> a_mode st = EDIT \/ a_mode st = RADIAL).
Proof.
  cbn zeta.
  assert (Hcases :
    let m' := a_mode (applyCalls st (gestureLoop st env)) in
    m' = a_mode st \/ m' = VIEW \/ m' = SETTINGS \/ m' = MENU \/ m' = RADIAL
    \/ (m' = EDIT /\ a_mode st = RADIAL)
    \/ (m' = PLACING
        /\ (a_mode st = MENU \/ a_mode st = HUB \/ a_mode st = SETTINGS))).
  { cbn zeta. rewrite mode_after_calls. unfold gestureLoop.
    destruct (a_handData st) as [hd|]; [|left; reflexivity].
    rewrite !modeCalls_app.
    destruct (holdBlock_modes st (hd_gesture hd) (le_now env))
      as [-> | (target & Htarget & ->)];
      destruct (radialBlock_modes st hd (le_innerWidth env) (le_innerHeight env))
        as [-> | (Hr & [-> | ->])];
      destruct (menuBlock_modes st hd (le_element env)) as [-> | (Hm & ->)];
      cbn; try tauto;
      destruct (hd_gesture hd); cbn in Htarget; try discriminate Htarget;
      injection Htarget as <-; tauto. }
  cbn zeta in Hcases. split; [exact Hcases|].
  repeat split; intros Hm'; rewrite Hm' in Hcases;
    destruct Hcases as [H0 | [H0 | [H0 | [H0 | [H0 | [[H0 H1] | [H0 H1]]]]]]];
    try discriminate H0; try tauto; try (rewrite <- H0; tauto).
Qed.

(** X13.  In the Hub a pinch over no tab toggles the tab once per
    cooldown: with the cooldown off the tab changes and the cooldown is
    set; the next run of the loop, with the pinch still held, finds the
    cooldown set and leaves the tab alone.  A pinch over a tab shows that
    tab and does not touch the cooldown. *)
Theorem hub_pinch_toggles_once (st : AppState) (hd : HandData)
    (element : option Element) :
  a_mode st = HUB -> hd_isPinching hd = true ->
  let st1 := applyCalls st (menuBlock st hd element) in
  (element ≫= data_hub_tab = None -> a_hubPinchCooldown st = false ->
   a_hubTab st1 <> a_hubTab st /\ a_hubPinchCooldown st1 = true
   /\ forall hd' element',
        a_mode st1 = HUB -> element' ≫= data_hub_tab = None ->
        a_hubTab (applyCalls st1 (menuBlock st1 hd' element')) = a_hubTab st1)
  /\ (element ≫= data_hub_tab = None -> a_hubPinchCooldown st = true ->
      a_hubTab st1 = a_hubTab st /\ a_hubPinchCooldown st1 = true)
  /\ (forall tab, element ≫= data_hub_tab = Some tab ->
      a_hubTab st1 = tab /\ a_hubPinchCooldown st1 = a_hubPinchCooldown st).
Proof.
  intros Hmode Hpinch. cbn zeta.
  assert (Hcool : forall s h e,
            a_mode s = HUB -> e ≫= data_hub_tab = None ->
            a_hubPinchCooldown s = true ->
            a_hubTab (applyCalls s (menuBlock s h e)) = a_hubTab s
            /\ a_hubPinchCooldown (applyCalls s (menuBlock s h e)) = true).
  { intros s h e Hs He Hc. unfold menuBlock. rewrite Hs, Hc. decide_modes.
    cbn [orb andb negb]. rewrite andb_false_r.
    destruct (hd_isPinching h); [|split; [reflexivity | exact Hc]].
    destruct e as [[[ty|] [tab|]]|]; try discriminate He;
      destruct s; cbn in *; split; congruence. }
  assert (Hfresh : element ≫= data_hub_tab = None -> a_hubPinchCooldown st = false ->
            a_hubTab (applyCalls st (menuBlock st hd element)) <> a_hubTab st
            /\ a_hubPinchCooldown (applyCalls st (menuBlock st hd element)) = true).
  { intros Hnone Hoff.
    destruct st as [? ? ? m ? ? ? ? ? ? tab cool ?], hd as [? ? ? ? pinching].
    cbn in Hmode, Hpinch, Hoff. subst m pinching cool.
    destruct element as [[[ty|] [tab'|]]|]; try discriminate Hnone;
      destruct tab; vm_compute; split; (reflexivity || discriminate). }
  split; [|split].
  - intros Hnone Hoff. destruct (Hfresh Hnone Hoff) as [Htab Hset].
    split; [exact Htab|]. split; [exact Hset|].
    intros hd' element' Hmode1 Hnone'.
    apply (Hcool _ hd' element' Hmode1 Hnone' Hset).
  - intros Hnone Hon. apply Hcool; assumption.
  - intros tab Htab.
    destruct st as [? ? ? m ? ? ? ? ? ? tab0 cool ?], hd as [? ? ? ? pinching].
    cbn in Hmode, Hpinch. subst m pinching.
    destruct element as [[[ty|] [tab'|]]|]; try discriminate Htab;
      cbn in Htab; injection Htab as ->;
      destruct cool, tab; vm_compute; split; reflexivity.
Qed.

Lemma hub_pinch_toggles_once_witness :
  a_hubTab (applyCalls Samples.hubOpen (menuBlock Samples.hubOpen Samples.pinchFrame None))
  <> a_hubTab Samples.hubOpen.
Proof.
  apply (hub_pinch_toggles_once Samples.hubOpen Samples.pinchFrame None
           eq_refl eq_refl); reflexivity.
Defined.

(** X14.  The kind clicked is the kind placed.  A run of the loop in
    Menu, Hub or Settings with a pinch over a creation button leaves the
    mode Placing and the button's kind pending, also when a hold fires in
    the same run; placing from that state appends one object of that kind
    to the store as it was, selects it and leaves the mode Edit with
    nothing pending. *)
Theorem menu_click_then_place (st : AppState) (env : LoopEnv) (hd : HandData)
    (el : Element) (ty : ShapeType) (newId : string) (pos : Triple) :
  a_handData st = Some hd -> hd_isPinching hd = true ->
  a_mode st = MENU \/ a_mode st = HUB \/ a_mode st = SETTINGS ->
  le_element env = Some el -> data_create_type el = Some ty ->
  let st1 := applyCalls st (gestureLoop st env) in
  let st2 := applyCalls st1 (handlePlaceObject st1 newId pos) in
  a_mode st1 = PLACING /\ a_pendingObjectType st1 = Some ty
  /\ a_objects st2
     = a_objects st ++ [mkSceneObject newId ty pos (0, 0, 0) (1, 1, 1) "#ffffff"]
  /\ a_selectedId st2 = Some newId /\ a_mode st2 = EDIT
  /\ a_pendingObjectType st2 = None.
Proof.
  intros Hhand Hpinch Hmode Hel Hty. cbn zeta.
  assert (Hradial : radialBlock st hd (le_innerWidth env) (le_innerHeight env) = []).
  { unfold radialBlock. rewrite bool_decide_eq_false_2; [reflexivity|].
    destruct Hmode as [-> | [-> | ->]]; discriminate. }
  assert (Hmenu : exists rest,
            menuBlock st hd (le_element env)
            = [SetPendingObjectType (Some ty); SetMode PLACING] ++ rest
            /\ Forall (fun c => match c with
                                | SetHubTab _ | SetHubPinchCooldown _ => True
                                | _ => False
                                end) rest).
  { unfold menuBlock. rewrite Hel, Hty, Hpinch.
    assert (Hin : bool_decide (a_mode st = MENU) || bool_decide (a_mode st = HUB)
                  || bool_decide (a_mode st = SETTINGS) = true)
      by (destruct Hmode as [-> | [-> | ->]]; decide_modes; reflexivity).
    rewrite Hin. cbn [andb]. rewrite <- app_assoc. eexists. split; [reflexivity|].
    apply Forall_app. split.
    - destruct (data_hub_tab el); repeat constructor.
    - destruct (_ && _ && _); repeat constructor. }
  destruct Hmenu as (rest & Hmenu & Hrest).
  assert (Hobjs : a_objects (applyCalls st (holdBlock st (hd_gesture hd) (le_now env)))
                  = a_objects st)
    by apply objects_after_other_calls, holdBlock_keeps_objects.
  unfold gestureLoop. rewrite Hhand, Hradial, Hmenu. cbn [app].
  rewrite applyCalls_app.
  destruct (applyCalls st (holdBlock st (hd_gesture hd) (le_now env)))
    as [hd1 objs1 sel1 m1 tm1 sens1 pend1 hs1 prog1 sect1 tab1 cool1 gs1].
  cbn in Hobjs. subst objs1.
  change (applyCalls ?s (?c1 :: ?c2 :: rest))
    with (applyCalls (applyCall (applyCall s c1) c2) rest).
  cbn [applyCall].
  assert (Hkept : forall s0,
            a_mode (applyCalls s0 rest) = a_mode s0
            /\ a_pendingObjectType (applyCalls s0 rest) = a_pendingObjectType s0
            /\ a_objects (applyCalls s0 rest) = a_objects s0
            /\ a_selectedId (applyCalls s0 rest) = a_selectedId s0).
  { clear -Hrest. induction Hrest as [|c rest Hc _ IH]; intros s0; [repeat split|].
    change (applyCalls s0 (c :: rest)) with (applyCalls (applyCall s0 c) rest).
    destruct (IH (applyCall s0 c)) as (-> & -> & -> & ->).
    destruct c; try contradiction; destruct s0; repeat split. }
  match goal with
  | |- context [applyCalls ?s0 rest] =>
      destruct (Hkept s0) as (Hm & Hp & Ho & Hs);
      destruct (applyCalls s0 rest)
        as [hd2 objs2 sel2 m2 tm2 sens2 pend2 hs2 prog2 sect2 tab2 cool2 gs2]
  end.
  cbn in Hm, Hp, Ho, Hs. subst m2 pend2 objs2 sel2.
  repeat split.
Qed.

Lemma menu_click_then_place_witness :
  a_objects
    (applyCalls (applyCalls Samples.menuPinch
                   (gestureLoop Samples.menuPinch Samples.overSphereButton))
       (handlePlaceObject
          (applyCalls Samples.menuPinch
             (gestureLoop Samples.menuPinch Samples.overSphereButton))
          "obj-7" (1, 5 / 10, -2)))
  = a_objects Samples.menuPinch
    ++ [mkSceneObject "obj-7" sphere (1, 5 / 10, -2) (0, 0, 0) (1, 1, 1) "#ffffff"].
Proof.
  apply (menu_click_then_place Samples.menuPinch Samples.overSphereButton
           Samples.pinchFrame (mkElement (Some sphere) None) sphere "obj-7"
           (1, 5 / 10, -2) eq_refl eq_refl (or_introl eq_refl) eq_refl eq_refl).
Defined.

(** ** The wheel: the drawing and the hit test agree *)

Lemma polar_ratio theta r :
  r <> 0 -> cos theta <> 0 -> sin theta * r / (cos theta * r) = tan theta.
Proof. intros Hr Hc. unfold tan. field. split; assumption. Qed.

Lemma tan_half_turn theta : cos theta <> 0 -> tan (theta + PI) = tan theta.
Proof.
  intros Hc. unfold tan. rewrite neg_sin, neg_cos. field. exact Hc.
Qed.

(** [Math.atan2] gives back the angle of a point in polar form. *)
Lemma atan2_polar theta r :
  0 < r -> - PI < theta <= PI ->
  atan2 (sin theta * r) (cos theta * r) = theta.
Proof.
  intros Hr [Hlo Hhi]. pose proof PI_RGT_0 as Hpi.
  destruct (Rtotal_order theta (- (PI / 2))) as [Hlt | [Heq | Hgt]].
  - (* third quadrant *)
    assert (Hcos : cos theta < 0).
    { rewrite <- cos_neg. apply cos_lt_0; lra. }
    assert (Hsin : sin theta < 0) by (apply sin_lt_0_var; lra).
    unfold atan2.
    rewrite (bool_decide_eq_false_2 (0 < cos theta * r)) by nra.
    rewrite (bool_decide_eq_true_2 (cos theta * r < 0)) by nra.
    rewrite (bool_decide_eq_false_2 (0 <= sin theta * r)) by nra.
    rewrite polar_ratio by lra.
    rewrite <- (tan_half_turn theta) by lra.
    rewrite atan_tan by lra. lra.
  - subst theta. rewrite cos_neg, sin_neg, cos_PI2, sin_PI2.
    unfold atan2. decide_reals; lra.
  - destruct (Rtotal_order theta (PI / 2)) as [Hlt | [Heq | Hgt2]].
    + assert (Hcos : 0 < cos theta) by (apply cos_gt_0; lra).
      unfold atan2.
      rewrite (bool_decide_eq_true_2 (0 < cos theta * r)) by nra.
      rewrite polar_ratio by lra. apply atan_tan. lra.
    + subst theta. rewrite cos_PI2, sin_PI2.
      unfold atan2. decide_reals; lra.
    + assert (Hcos : cos theta < 0) by (apply cos_lt_0; lra).
      assert (Hsin : 0 <= sin theta) by (apply sin_ge_0; lra).
      unfold atan2.
      rewrite (bool_decide_eq_false_2 (0 < cos theta * r)) by nra.
      rewrite (bool_decide_eq_true_2 (cos theta * r < 0)) by nra.
      rewrite (bool_decide_eq_true_2 (0 <= sin theta * r)) by nra.
      rewrite polar_ratio by lra.
      assert (Hshift : tan theta = tan (theta - PI)).
      { rewrite <- (tan_half_turn (theta - PI)).
        - f_equal. lra.
        - replace (theta - PI) with (- (PI - theta)) by lra.
          rewrite cos_neg. replace (PI - theta) with (- theta + PI) by lra.
          rewrite neg_cos, cos_neg. lra. }
      rewrite Hshift, atan_tan by lra. lra.
Qed.

(** The point of the wheel at the clock angle [a] and radius [r], as
    [RadialSlice] computes its corners and its icon. *)
Lemma clockDegOf_wheel_point a r :
  0 <= a < 360 -> 0 < r ->
  clockDegOf (sin ((a - 90) * (PI / 180)) * r) (cos ((a - 90) * (PI / 180)) * r) = a.
Proof.
  intros [Hlo Hhi] Hr. pose proof PI_RGT_0 as Hpi.
  set (theta := (a - 90) * (PI / 180)).
  assert (Hdeg : theta * (180 / PI) = a - 90) by (unfold theta; field; lra).
  assert (Htheta : - (PI / 2) <= theta < 3 * (PI / 2)).
  { unfold theta. split.
    - replace (- (PI / 2)) with ((0 - 90) * (PI / 180)) by field.
      apply Rmult_le_compat_r; lra.
    - replace (3 * (PI / 2)) with ((360 - 90) * (PI / 180)) by field.
      apply Rmult_lt_compat_r; lra. }
  unfold clockDegOf.
  destruct (Rle_lt_dec theta PI) as [Hle | Hgt].
  - rewrite atan2_polar by lra. rewrite Hdeg.
    rewrite bool_decide_eq_false_2 by lra. lra.
  - assert (Hsin : sin theta = sin (theta - 2 * PI)).
    { rewrite <- (sin_period (theta - 2 * PI) 1). f_equal. cbn. lra. }
    assert (Hcos : cos theta = cos (theta - 2 * PI)).
    { rewrite <- (cos_period (theta - 2 * PI) 1). f_equal. cbn. lra. }
    rewrite Hsin, Hcos, atan2_polar by lra.
    assert (Hdeg' : (theta - 2 * PI) * (180 / PI) = a - 90 - 360).
    { rewrite <- Hdeg. field. lra. }
    rewrite Hdeg'. rewrite bool_decide_eq_true_2 by lra. lra.
Qed.

Lemma wheel_point_full_turn a r :
  (sin ((a - 90) * (PI / 180)) * r, cos ((a - 90) * (PI / 180)) * r)
  = (sin ((a + 360 - 90) * (PI / 180)) * r, cos ((a + 360 - 90) * (PI / 180)) * r).
Proof.
  pose proof PI_RGT_0 as Hpi.
  replace ((a + 360 - 90) * (PI / 180))
    with ((a - 90) * (PI / 180) + 2 * INR 1 * PI) by (cbn; field).
  rewrite sin_period, cos_period. reflexivity.
Qed.

(** X15.  The wheel that is drawn and the hit test agree.  A point at a
    positive radius whose clock angle lies in the angles of a slice, the
    start included and the end excluded, is mapped to the sector of that
    slice; so are the icon and the start corner that [RadialSlice]
    computes for it.  For a clock angle in [0, 360) the clock degree of
    the hit test is that angle. *)
Theorem wheel_slice_is_its_sector (sector : Sector.t) :
  (forall a r, 0 <= a < 360 -> 0 < r ->
     clockDegOf (sin ((a - 90) * (PI / 180)) * r) (cos ((a - 90) * (PI / 180)) * r)
     = a)
  /\ (forall a r,
        (sliceAngles sector).1 <= a < (sliceAngles sector).2 -> 0 < r ->
        sectorOf (clockDegOf (sin ((a - 90) * (PI / 180)) * r)
                    (cos ((a - 90) * (PI / 180)) * r))
        = Some sector)
  /\ (let geo := RadialSlice (sliceAngles sector).1 (sliceAngles sector).2 in
      sectorOf (clockDegOf (sl_iconY geo) (sl_iconX geo)) = Some sector
      /\ sectorOf (clockDegOf (sl_y1 geo) (sl_x1 geo)) = Some sector).
Proof.
  assert (Hslice : forall a r,
            (sliceAngles sector).1 <= a < (sliceAngles sector).2 -> 0 < r ->
            sectorOf (clockDegOf (sin ((a - 90) * (PI / 180)) * r)
                        (cos ((a - 90) * (PI / 180)) * r))
            = Some sector).
  { intros a r Ha Hr.
    destruct (Rlt_le_dec a 0) as [Hneg | Hpos].
    - pose proof (wheel_point_full_turn a r) as Hturn.
      injection Hturn as -> ->.
      rewrite clockDegOf_wheel_point by (destruct sector; cbn in Ha; lra).
      apply sectorRange_sectorOf. destruct sector; cbn in *; lra.
    - rewrite clockDegOf_wheel_point by (destruct sector; cbn in Ha; lra).
      apply sectorRange_sectorOf. destruct sector; cbn in *; lra. }
  split; [intros a r Ha Hr; apply clockDegOf_wheel_point; assumption|].
  split; [exact Hslice|].
  cbn zeta. unfold RadialSlice. cbn [sl_iconX sl_iconY sl_x1 sl_y1].
  split; apply Hslice; destruct sector; cbn; lra.
Qed.

(** X16.  The 2D cursor is the index tip mirrored left to right and
    scaled to the window: it is drawn, in Menu, Radial, Hub and Settings,
    at [(1 - x) * width] and [y * height] for an index tip at [(x, y)] of
    the image, inside the window when the tip is inside the image; in the
    other modes it is not drawn. *)
Theorem virtual_cursor_follows_index_tip (st : AppState)
    (lm : list NormalizedLandmark) (hd : HandData) (width height : R) :
  handDataOf lm = Some hd -> a_handData st = Some hd ->
  (inertMode (a_mode st) ->
   renderVirtualCursor st width height
   = Some ((1 - lm_x (lmAt lm INDEX_TIP)) * width,
           lm_y (lmAt lm INDEX_TIP) * height, hd_isPinching hd)
   /\ (0 <= lm_x (lmAt lm INDEX_TIP) <= 1 -> 0 <= width ->
       0 <= (1 - lm_x (lmAt lm INDEX_TIP)) * width <= width)
   /\ (0 <= lm_y (lmAt lm INDEX_TIP) <= 1 -> 0 <= height ->
       0 <= lm_y (lmAt lm INDEX_TIP) * height <= height))
  /\ (~ inertMode (a_mode st) -> renderVirtualCursor st width height = None).
Proof.
  intros Hlm Hhand.
  assert (Hxy : hd_x hd = 1 - 2 * lm_x (lmAt lm INDEX_TIP)
                /\ hd_y hd = 1 - 2 * lm_y (lmAt lm INDEX_TIP)).
  { revert Hlm. unfold handDataOf, lmAt, INDEX_TIP. intros Hhd.
    repeat match type of Hhd with
           | context [lm !! ?i ≫= _] =>
               destruct (lm !! i); cbn [mbind option_bind] in Hhd; [|discriminate Hhd]
           end.
    injection Hhd as <-. cbn. split; lra. }
  destruct Hxy as [Hx Hy].
  unfold renderVirtualCursor. rewrite Hhand. split.
  - intros Hinert.
    assert (Hguard : bool_decide (a_mode st = MENU) || bool_decide (a_mode st = RADIAL)
                     || bool_decide (a_mode st = HUB)
                     || bool_decide (a_mode st = SETTINGS) = true)
      by (destruct Hinert as [-> | [-> | [-> | ->]]]; decide_modes; reflexivity).
    rewrite Hguard, Hx, Hy. split; [|split].
    + do 2 f_equal. f_equal; field.
    + intros Hu Hw. nra.
    + intros Hv Hh. nra.
  - intros Hnot.
    assert (Hguard : bool_decide (a_mode st = MENU) || bool_decide (a_mode st = RADIAL)
                     || bool_decide (a_mode st = HUB)
                     || bool_decide (a_mode st = SETTINGS) = false).
    { destruct (a_mode st); decide_modes; try reflexivity;
        exfalso; apply Hnot; unfold inertMode; tauto. }
    rewrite Hguard. reflexivity.
Qed.

Lemma virtual_cursor_follows_index_tip_witness :
  renderVirtualCursor
    (applyCall Samples.radialOpen
       (SetHandData
          (Some (mkHandData ((0 * 2 - 1) * -1) ((0 * 2 - 1) * -1) PINCH
                   (getDist Samples.origin (mkLandmark 0 0 1)) true))))
    1000 800
  = Some ((1 - lm_x (lmAt Samples.flatHand INDEX_TIP)) * 1000,
          lm_y (lmAt Samples.flatHand INDEX_TIP) * 800, true).
Proof.
  pose proof (virtual_cursor_follows_index_tip
                (applyCall Samples.radialOpen
                   (SetHandData
                      (Some (mkHandData ((0 * 2 - 1) * -1) ((0 * 2 - 1) * -1) PINCH
                               (getDist Samples.origin (mkLandmark 0 0 1)) true))))
                Samples.flatHand _ 1000 800
                flatHand_classified eq_refl) as [Hshown _].
  apply Hshown. right; left; reflexivity.
Defined.

(** ** The controller: what a frame of a drag does *)

Section Drag.
Context {C : Type} `{ThreeColor C}.

Implicit Types (st : IMState C) (f : Frame) (obj : Object3D C).

(** A pinching frame of a session moves the target as [dragObject] says
    and calls nothing. *)
Lemma drag_frame_step st f hd id obj :
  sessionOn id obj st ->
  f_handData f = Some hd -> hd_isPinching hd = true -> ~ inertMode (f_mode f) ->
  (useFrame st f).2 = []
  /\ scene (useFrame st f).1
     = <[id := dragObject f (dragRef st) (dragDelta st f) obj]> (scene st)
  /\ dragRef (useFrame st f).1 = dragRef st.
Proof.
  intros (Hwait & (p & Hprev & Hwas) & Hdrag & Htarget & Hne & Hobj) Hhand Hpinch Hmode.
  unfold useFrame.
  rewrite Hhand, (not_inert_guard _ Hmode), Hwait, Hpinch, Hprev, Hwas.
  cbn [negb andb fst snd]. unfold dragging.
  rewrite Hdrag, Htarget, (truthy_nonempty id Hne), Hobj. cbn [andb fst snd app].
  repeat split.
Qed.

(** X17.  A frame of a scale drag multiplies the scale of the pinch-down
    by one factor on the three axes, and the factor is never below 0.1:
    it is [1 + dy * sensitivity] or, below 0.1, 0.1 itself.  A scale that
    was positive stays positive; the position and the rotation of the
    target are not touched. *)
Theorem scale_drag_has_floor st f hd id obj :
  sessionOn id obj st ->
  f_handData f = Some hd -> hd_isPinching hd = true -> ~ inertMode (f_mode f) ->
  f_transformMode f = scale ->
  exists k obj',
    scene (useFrame st f).1 !! id = Some obj'
    /\ 1 / 10 <= k
    /\ k = Rmax (1 / 10) (1 + v_y (dragDelta st f) * (1 * f_sensitivity f))
    /\ o_scale obj' = multiplyScalar (startObjScale (dragRef st)) k
    /\ o_position obj' = o_position obj /\ o_rotation obj' = o_rotation obj
    /\ (0 < v_x (startObjScale (dragRef st)) -> 0 < v_x (o_scale obj'))
    /\ (0 < v_y (startObjScale (dragRef st)) -> 0 < v_y (o_scale obj'))
    /\ (0 < v_z (startObjScale (dragRef st)) -> 0 < v_z (o_scale obj')).
Proof.
  intros Hsession Hhand Hpinch Hmode Htm.
  destruct (drag_frame_step st f hd id obj Hsession Hhand Hpinch Hmode)
    as (_ & Hscene & _).
  rewrite Hscene, lookup_insert_eq. unfold dragObject. rewrite Htm.
  set (k := Rmax (1 / 10) (1 + v_y (dragDelta st f) * (1 * f_sensitivity f))).
  assert (Hk : 1 / 10 <= k) by apply Rmax_l.
  exists k. eexists. split; [reflexivity|].
  cbn [o_scale o_position o_rotation multiplyScalar v_x v_y v_z].
  repeat split; try assumption; intros Hpos; nra.
Qed.

Lemma remainder1_range x :
  -1 < remainder1 x < 1 /\ (0 <= x -> 0 <= remainder1 x).
Proof.
  unfold remainder1. case_bool_decide as Hx.
  - destruct (base_fp x) as [Hge Hlt]. unfold frac_part in *. split; [|intros _]; lra.
  - destruct (base_fp (- x)) as [Hge Hlt]. unfold frac_part in *.
    split; [|intros Habsurd]; lra.
Qed.

(** X18.  A frame of a color drag on a mesh with a standard material sets
    a colour whose hue lies in [0, 1) and whose saturation and lightness
    are those of the pinch-down; nothing else of the target changes. *)
Theorem color_drag_wraps_hue st f hd id obj mat :
  sessionOn id obj st ->
  f_handData f = Some hd -> hd_isPinching hd = true -> ~ inertMode (f_mode f) ->
  f_transformMode f = color ->
  o_mesh obj = Some mat -> m_standard mat = true ->
  exists hue,
    0 <= hue < 1
    /\ scene (useFrame st f).1 !! id
       = Some (mkObject3D (o_position obj) (o_rotation obj) (o_scale obj)
                 (Some (mkMaterial true
                          (setHSL hue (hsl_s (startColorHSL (dragRef st)))
                             (hsl_l (startColorHSL (dragRef st))))))).
Proof.
  intros Hsession Hhand Hpinch Hmode Htm Hmesh Hstd.
  destruct (drag_frame_step st f hd id obj Hsession Hhand Hpinch Hmode)
    as (_ & Hscene & _).
  rewrite Hscene, lookup_insert_eq. unfold dragObject. rewrite Htm, Hmesh, Hstd.
  destruct (remainder1_range
              (hsl_h (startColorHSL (dragRef st))
               + v_x (dragDelta st f) * (5 / 10) * f_sensitivity f))
    as [[Hlo Hhi] _].
  eexists. split; [|reflexivity].
  case_bool_decide; lra.
Qed.

(** X19.  A frame of a drag changes the target in the part that belongs
    to the transform mode and in no other: the position in translate
    mode; the first two angles of the rotation in rotate mode, by the
    vertical and the horizontal way of the cursor times twice the
    sensitivity; the scale in scale mode; the material in color mode.
    Every other object of the scene is left as it is, no callback is
    called and the session is kept. *)
Theorem drag_changes_its_own_part st f hd id obj :
  sessionOn id obj st ->
  f_handData f = Some hd -> hd_isPinching hd = true -> ~ inertMode (f_mode f) ->
  exists obj',
    scene (useFrame st f).1 !! id = Some obj'
    /\ (forall other, other <> id ->
          scene (useFrame st f).1 !! other = scene st !! other)
    /\ (useFrame st f).2 = []
    /\ dragRef (useFrame st f).1 = dragRef st
    /\ match f_transformMode f with
       | translate =>
           o_position obj' = add (startObjPos (dragRef st)) (dragDelta st f)
           /\ o_rotation obj' = o_rotation obj /\ o_scale obj' = o_scale obj
           /\ o_mesh obj' = o_mesh obj
       | rotate =>
           e_x (o_rotation obj')
           = e_x (startObjRot (dragRef st))
             + v_y (dragDelta st f) * (2 * f_sensitivity f)
           /\ e_y (o_rotation obj')
              = e_y (startObjRot (dragRef st))
                + v_x (dragDelta st f) * (2 * f_sensitivity f)
           /\ e_z (o_rotation obj') = e_z (o_rotation obj)
           /\ o_position obj' = o_position obj /\ o_scale obj' = o_scale obj
           /\ o_mesh obj' = o_mesh obj
       | scale =>
           o_position obj' = o_position obj /\ o_rotation obj' = o_rotation obj
           /\ o_mesh obj' = o_mesh obj
       | color =>
           o_position obj' = o_position obj /\ o_rotation obj' = o_rotation obj
           /\ o_scale obj' = o_scale obj
       end.
Proof.
  intros Hsession Hhand Hpinch Hmode.
  destruct (drag_frame_step st f hd id obj Hsession Hhand Hpinch Hmode)
    as (Hcbs & Hscene & Hdrag).
  rewrite Hscene, lookup_insert_eq. eexists. split; [reflexivity|].
  split; [intros other Hne; apply lookup_insert_ne; congruence|].
  split; [exact Hcbs|]. split; [exact Hdrag|].
  unfold dragObject. destruct (f_transformMode f); cbn; try (repeat split).
  all: destruct (o_mesh obj) as [mat|]; [destruct (m_standard mat)|]; repeat split.
Qed.

End Drag.

Lemma midDrag_sessionOn : sessionOn "cube-1" Samples.draggedCube Samples.midDrag.
Proof.
  destruct midDrag_session as (Hdrag & Htarget & Hwait & Hwas).
  split; [exact Hwait|]. split; [exact Hwas|]. split; [exact Hdrag|].
  split; [exact Htarget|]. split; [discriminate | exact midDrag_cube].
Qed.

Lemma scale_drag_has_floor_witness :
  exists k obj',
    scene (useFrame Samples.midDrag Samples.scaleCube).1 !! "cube-1" = Some obj'
    /\ 1 / 10 <= k
    /\ k = Rmax (1 / 10)
             (1 + v_y (dragDelta Samples.midDrag Samples.scaleCube)
                  * (1 * f_sensitivity Samples.scaleCube))
    /\ o_scale obj' = multiplyScalar (startObjScale (dragRef Samples.midDrag)) k
    /\ o_position obj' = o_position Samples.draggedCube
    /\ o_rotation obj' = o_rotation Samples.draggedCube
    /\ (0 < v_x (startObjScale (dragRef Samples.midDrag)) -> 0 < v_x (o_scale obj'))
    /\ (0 < v_y (startObjScale (dragRef Samples.midDrag)) -> 0 < v_y (o_scale obj'))
    /\ (0 < v_z (startObjScale (dragRef Samples.midDrag)) -> 0 < v_z (o_scale obj')).
Proof.
  exact (scale_drag_has_floor Samples.midDrag Samples.scaleCube Samples.pinchingHand
           "cube-1" Samples.draggedCube midDrag_sessionOn eq_refl eq_refl
           not_inert_edit eq_refl).
Defined.

Lemma color_drag_wraps_hue_witness :
  exists hue,
    0 <= hue < 1
    /\ scene (useFrame Samples.midDrag Samples.tintCube).1 !! "cube-1"
       = Some (mkObject3D (o_position Samples.draggedCube)
                 (o_rotation Samples.draggedCube) (o_scale Samples.draggedCube)
                 (Some (mkMaterial true
                          (setHSL hue
                             (hsl_s (startColorHSL (dragRef Samples.midDrag)))
                             (hsl_l (startColorHSL (dragRef Samples.midDrag))))))).
Proof.
  exact (color_drag_wraps_hue Samples.midDrag Samples.tintCube Samples.pinchingHand
           "cube-1" Samples.draggedCube (mkMaterial true "6366f1")
           midDrag_sessionOn eq_refl eq_refl not_inert_edit eq_refl eq_refl eq_refl).
Defined.

Lemma drag_changes_its_own_part_witness :
  exists obj',
    scene (useFrame Samples.midDrag Samples.turnCube).1 !! "cube-1" = Some obj'
    /\ e_x (o_rotation obj')
       = e_x (startObjRot (dragRef Samples.midDrag))
         + v_y (dragDelta Samples.midDrag Samples.turnCube)
           * (2 * f_sensitivity Samples.turnCube)
    /\ o_position obj' = o_position Samples.draggedCube
    /\ scene (useFrame Samples.midDrag Samples.turnCube).1 !! "rig"
       = scene Samples.midDrag !! "rig".
Proof.
  destruct (drag_changes_its_own_part Samples.midDrag Samples.turnCube
              Samples.pinchingHand "cube-1" Samples.draggedCube
              midDrag_sessionOn eq_refl eq_refl not_inert_edit)
    as (obj' & Hobj & Hothers & _ & _ & Hpart).
  exists obj'. cbn in Hpart. destruct Hpart as (Hx & _ & _ & Hpos & _).
  split; [exact Hobj|]. split; [exact Hx|]. split; [exact Hpos|].
  apply Hothers. discriminate.
Defined.

(** ** The controller: placing, callbacks and the scene graph *)

Section Frames.
Context {C : Type} `{ThreeColor C}.

Implicit Types (st : IMState C) (f : Frame) (obj : Object3D C).

Lemma not_inert_placing : ~ inertMode PLACING.
Proof. intros [Hm | [Hm | [Hm | Hm]]]; discriminate Hm. Qed.

(** A tracked frame that waits for the release of the pinch. *)
Lemma waiting_frame st f hd :
  waitingForPinchRelease st = true ->
  f_handData f = Some hd -> ~ inertMode (f_mode f) ->
  useFrame st f
  = (mkIMState (Some (mkPrevHand (hd_x hd) (hd_y hd) (hd_isPinching hd)))
       (hd_isPinching hd) (dragRef st)
       (updateCursor st f hd (cursorPosOf (dragRef st) f))
       (updateGhost st f (cursorPosOf (dragRef st) f)) (scene st),
     []).
Proof.
  intros Hwait Hhand Hmode. unfold useFrame.
  rewrite Hhand, (not_inert_guard _ Hmode), Hwait.
  destruct (hd_isPinching hd); reflexivity.
Qed.

Lemma updateGhost_some st f cursorPos :
  is_Some (ghostRef st) -> is_Some (updateGhost st f cursorPos).
Proof. intros [g Hg]. unfold updateGhost. rewrite Hg. cbn. eexists. reflexivity. Qed.

Lemma held_pinch_waits st held :
  waitingForPinchRelease st = true -> is_Some (ghostRef st) ->
  Forall (pinchIn PLACING) held ->
  (runFrames st held).2 = []
  /\ waitingForPinchRelease (runFrames st held).1 = true
  /\ is_Some (ghostRef (runFrames st held).1)
  /\ scene (runFrames st held).1 = scene st.
Proof.
  intros Hwait Hghost Hheld. revert st Hwait Hghost.
  induction Hheld as [|f rest (Hmode & hd & Hhand & Hpinch) _ IH];
    intros st Hwait Hghost; [cbn; auto|].
  cbn [runFrames].
  assert (Hnot : ~ inertMode (f_mode f)) by (rewrite Hmode; exact not_inert_placing).
  rewrite (waiting_frame st f hd Hwait Hhand Hnot), Hpinch.
  match goal with |- context [runFrames ?s rest] =>
    destruct (IH s eq_refl (updateGhost_some st f _ Hghost)) as (Hcb & Hw & Hg & Hsc);
    destruct (runFrames s rest) as [st2 cb2] end.
  cbn in *. subst cb2. auto.
Qed.

(** X20.  The object to place is not put down by the pinch that chose it.
    Once the mode has become Placing, the frames of a pinch that is still
    held call nothing and leave the scene as it is; after one frame with
    an open hand, the next pinch calls onPlaceObject, once, and nothing
    else. *)
Theorem placing_needs_release_then_pinch st (held : list Frame) (fo fp : Frame) :
  is_Some (ghostRef st) ->
  Forall (pinchIn PLACING) held -> openIn PLACING fo -> pinchIn PLACING fp ->
  (runFrames (modeEffect PLACING st) held).2 = []
  /\ scene (runFrames (modeEffect PLACING st) held).1 = scene st
  /\ (runFrames (modeEffect PLACING st) (held ++ [fo])).2 = []
  /\ exists pos,
       (runFrames (modeEffect PLACING st) (held ++ [fo; fp])).2
       = [OnPlaceObject pos].
Proof.
  intros Hghost Hheld (Hmo & hdo & Hho & Hopen) (Hmp & hdp & Hhp & Hpinch).
  assert (Hwait0 : waitingForPinchRelease (modeEffect PLACING st) = true)
    by (cbn; apply bool_decide_eq_true_2; reflexivity).
  destruct (held_pinch_waits (modeEffect PLACING st) held Hwait0 Hghost Hheld)
    as (Hcb & Hwait & Hg & Hsc).
  assert (Hno : ~ inertMode (f_mode fo)) by (rewrite Hmo; exact not_inert_placing).
  assert (Hnp : ~ inertMode (f_mode fp)) by (rewrite Hmp; exact not_inert_placing).
  split; [exact Hcb|]. split; [exact Hsc|].
  rewrite !runFrames_app, Hcb. cbn [app snd fst].
  set (st1 := (runFrames (modeEffect PLACING st) held).1) in *.
  cbn [runFrames].
  rewrite (waiting_frame st1 fo hdo Hwait Hho Hno), Hopen. cbn [snd fst app].
  split; [reflexivity|].
  match goal with |- context [useFrame ?s fp] => set (st2 := s) end.
  destruct (updateGhost_some st2 fp (cursorPosOf (dragRef st2) fp)
              (updateGhost_some st1 fo _ Hg)) as [g' Hg'].
  unfold useFrame. rewrite Hhp, (not_inert_guard _ Hnp), Hpinch.
  cbn [waitingForPinchRelease prevHandPos gestureWasPinch st2 negb andb].
  unfold startPinch. rewrite Hg', Hmp.
  rewrite (bool_decide_eq_true_2 (PLACING = PLACING)) by reflexivity.
  cbn. eexists. reflexivity.
Qed.

Lemma startPinch_cases ghost f cursorPos (sc : gmap string (Object3D C)) d :
  ((startPinch ghost f cursorPos sc d).2 = []
   /\ (startPinch ghost f cursorPos sc d).1 = d)
  \/ (exists g,
        ghost = Some g /\ f_mode f = PLACING
        /\ (startPinch ghost f cursorPos sc d).2
           = [OnPlaceObject (tripleOf (g_position g))]
        /\ (startPinch ghost f cursorPos sc d).1 = d)
  \/ (exists hit id,
        (f_mode f = EDIT \/ f_mode f = VIEW)
        /\ f_hit f = Some hit /\ objectIdOf hit = Some id
        /\ (startPinch ghost f cursorPos sc d).2 = [OnSelect (Some id)]
        /\ targetId (startPinch ghost f cursorPos sc d).1 = Some id
        /\ isDragging (startPinch ghost f cursorPos sc d).1 = true).
Proof.
  assert (Hgrab : forall r,
    r = (if bool_decide (f_mode f = EDIT) || bool_decide (f_mode f = VIEW) then
           match f_hit f with
           | Some hit =>
               match objectIdOf hit with
               | Some objectId =>
                   let d1 :=
                     mkDragState true (Some objectId) (hit_distance hit) cursorPos
                       (startObjPos d) (startObjRot d) (startObjScale d)
                       (startColorHSL d) in
                   let d2 :=
                     match sc !! objectId with
                     | Some obj =>
                         mkDragState (isDragging d1) (targetId d1)
                           (distanceToCamera d1) (startCursorPos d1)
                           (o_position obj) (o_rotation obj) (o_scale obj)
                           (match o_mesh obj with
                            | Some mat =>
                                if m_standard mat then getHSL (m_color mat)
                                else startColorHSL d1
                            | None => startColorHSL d1
                            end)
                     | None => d1
                     end in
                   (d2, [OnSelect (Some objectId)])
               | None => (d, [])
               end
           | None => (d, [])
           end
         else (d, [])) ->
    (r.2 = [] /\ r.1 = d)
    \/ (exists hit id,
          (f_mode f = EDIT \/ f_mode f = VIEW)
          /\ f_hit f = Some hit /\ objectIdOf hit = Some id
          /\ r.2 = [OnSelect (Some id)]
          /\ targetId r.1 = Some id /\ isDragging r.1 = true)).
  { intros r ->.
    destruct (bool_decide (f_mode f = EDIT) || bool_decide (f_mode f = VIEW))
      eqn:Hmode; [|left; split; reflexivity].
    destruct (f_hit f) as [hit|]; [|left; split; reflexivity].
    destruct (objectIdOf hit) as [id|] eqn:Hid; [|left; split; reflexivity].
    right. exists hit, id.
    apply orb_true_iff in Hmode. rewrite !bool_decide_eq_true in Hmode.
    split; [exact Hmode|]. split; [reflexivity|]. split; [exact Hid|].
    split; [reflexivity|]. cbn. destruct (sc !! id); split; reflexivity. }
  unfold startPinch. destruct ghost as [g|].
  - destruct (bool_decide (f_mode f = PLACING)) eqn:Hplacing.
    + right; left. exists g. apply bool_decide_eq_true in Hplacing.
      repeat split. exact Hplacing.
    + destruct (Hgrab _ eq_refl) as [Hnone | Hsel]; [left | right; right]; assumption.
  - destruct (Hgrab _ eq_refl) as [Hnone | Hsel]; [left | right; right]; assumption.
Qed.

Lemma endPinch_cases f (sc : gmap string (Object3D C)) d :
  isDragging (endPinch f sc d).1 = false
  /\ targetId (endPinch f sc d).1 = None
  /\ ((endPinch f sc d).2 = []
      \/ exists id obj,
           targetId d = Some id /\ id <> "" /\ sc !! id = Some obj
           /\ (endPinch f sc d).2 = [OnUpdateObject id (commitUpdate f obj)]).
Proof.
  unfold endPinch. cbn [fst snd isDragging targetId].
  split; [reflexivity|]. split; [reflexivity|].
  destruct (targetId d) as [id|]; [|left; reflexivity].
  cbn [truthy]. case_bool_decide as Hid; cbn [negb]; [left; reflexivity|].
  destruct (sc !! id) as [obj|] eqn:Hobj; [|left; reflexivity].
  right. exists id, obj. split; [reflexivity|]. split; [exact Hid|].
  split; [exact Hobj | reflexivity].
Qed.

(** X21.  A frame calls at most one callback, and each call tells what
    the frame was: onSelect is called on a pinch-down in View or Edit
    over an object with a name, and with that name, never with null;
    onPlaceObject on a pinch-down in Placing; onUpdateObject at a
    pinch-up that ends a session, for the target of the session, which
    is in the scene. *)
Theorem frame_calls_at_most_one st f :
  match (useFrame st f).2 with
  | [] => True
  | [OnSelect sel] =>
      exists hd hit id,
        f_handData f = Some hd /\ hd_isPinching hd = true /\ ~ wasPinching st
        /\ (f_mode f = EDIT \/ f_mode f = VIEW)
        /\ f_hit f = Some hit /\ objectIdOf hit = Some id
        /\ sel = Some id /\ id <> ""
        /\ targetId (dragRef (useFrame st f).1) = Some id
        /\ isDragging (dragRef (useFrame st f).1) = true
  | [OnPlaceObject pos] =>
      exists hd,
        f_handData f = Some hd /\ hd_isPinching hd = true /\ ~ wasPinching st
        /\ f_mode f = PLACING /\ waitingForPinchRelease st = false
        /\ dragRef (useFrame st f).1 = dragRef st
  | [OnUpdateObject id u] =>
      exists hd obj,
        f_handData f = Some hd /\ hd_isPinching hd = false /\ wasPinching st
        /\ isDragging (dragRef st) = true /\ targetId (dragRef st) = Some id
        /\ id <> "" /\ scene st !! id = Some obj /\ u = commitUpdate f obj
        /\ isDragging (dragRef (useFrame st f).1) = false
        /\ targetId (dragRef (useFrame st f).1) = None
        /\ scene (useFrame st f).1 = scene st
  | _ => False
  end.
Proof.
  unfold useFrame.
  destruct (f_handData f) as [hd|]; [|exact I].
  destruct (_ || _ || _ || _); [exact I|].
  destruct (waitingForPinchRelease st) eqn:Hwait; [exact I|].
  assert (Hprev : forall b,
    (match prevHandPos st with Some p => gestureWasPinch p | None => false end) = b ->
    if b then wasPinching st else ~ wasPinching st).
  { intros [|] Hp.
    - destruct (prevHandPos st) as [p|] eqn:Hsome; [|discriminate Hp]. exists p.
      split; [exact Hsome | exact Hp].
    - intros (p & Hsome & Hwas). rewrite Hsome in Hp. congruence. }
  specialize (Hprev _ eq_refl).
  destruct (match prevHandPos st with Some p => gestureWasPinch p | None => false end);
    destruct (hd_isPinching hd) eqn:Hpinch; cbn [negb andb fst snd app];
    try exact I.
  - (* pinch-up *)
    destruct (isDragging (dragRef st)) eqn:Hdrag; [|exact I].
    destruct (endPinch_cases f (scene st) (dragRef st))
      as (Hclosed & Hnone & [Hcb | (id & obj & Htarget & Hid & Hobj & Hcb)]).
    + destruct (endPinch f (scene st) (dragRef st)) as [dC cbC].
      cbn in *. rewrite Hcb. exact I.
    + destruct (endPinch f (scene st) (dragRef st)) as [dC cbC].
      cbn in *. rewrite Hcb. exists hd, obj. repeat split; assumption.
  - (* pinch-down *)
    destruct (startPinch_cases (updateGhost st f (cursorPosOf (dragRef st) f)) f
                (cursorPosOf (dragRef st) f) (scene st) (dragRef st))
      as [[Hcb Hd] | [(g & Hg & Hmode & Hcb & Hd)
                     | (hit & id & Hmode & Hhit & Hid & Hcb & Htarget & Hdrag)]];
      destruct (startPinch _ f _ (scene st) (dragRef st)) as [dA cbA];
      cbn in *; rewrite Hcb; cbn.
    + exact I.
    + exists hd. repeat split; assumption.
    + exists hd, hit, id. repeat split; try assumption.
      exact (objectIdOf_nonempty hit id Hid).
Qed.

Lemma dragging_dom f cursorPos d (sc : gmap string (Object3D C)) :
  dom (dragging f cursorPos d sc) = dom sc.
Proof.
  unfold dragging.
  destruct (isDragging d && truthy (targetId d)); [|reflexivity].
  destruct (targetId d) as [id|]; [|reflexivity].
  destruct (sc !! id) as [obj|] eqn:Hobj; [|reflexivity].
  rewrite dom_insert_L. apply subseteq_union_1_L, singleton_subseteq_l.
  apply elem_of_dom. eexists. exact Hobj.
Qed.

Lemma useFrame_dom st f : dom (scene (useFrame st f).1) = dom (scene st).
Proof.
  unfold useFrame.
  destruct (f_handData f) as [hd|]; [|reflexivity].
  destruct (_ || _ || _ || _); [reflexivity|].
  destruct (waitingForPinchRelease st); [reflexivity|].
  destruct (if hd_isPinching hd && negb _ then _ else _) as [dA cbA].
  destruct (if negb (hd_isPinching hd) && _ && _ then _ else _) as [dC cbC].
  cbn [fst scene].
  destruct (hd_isPinching hd); [apply dragging_dom | reflexivity].
Qed.

(** X22.  The controller neither adds an object to the scene graph nor
    removes one: after any run of frames the scene has the objects it
    had, by name. *)
Theorem frames_keep_scene_objects st (fs : list Frame) :
  dom (scene (runFrames st fs).1) = dom (scene st).
Proof.
  revert st. induction fs as [|f rest IH]; intros st; [reflexivity|].
  cbn [runFrames]. pose proof (useFrame_dom st f) as Hf.
  destruct (useFrame st f) as [st1 cb1]. specialize (IH st1).
  destruct (runFrames st1 rest) as [st2 cb2]. cbn in *. congruence.
Qed.

(** X23.  A frame changes no object of the scene but the target of the
    session it leaves open: an object whose name is not the target after
    the frame is as it was before. *)
Theorem frame_touches_only_target st f (id : string) :
  targetId (dragRef (useFrame st f).1) <> Some id ->
  scene (useFrame st f).1 !! id = scene st !! id.
Proof.
  unfold useFrame.
  destruct (f_handData f) as [hd|]; [|reflexivity].
  destruct (_ || _ || _ || _); [reflexivity|].
  destruct (waitingForPinchRelease st); [reflexivity|].
  destruct (hd_isPinching hd); cbn [negb andb].
  - destruct (if negb _ then _ else _) as [dA cbA]. cbn [fst scene dragRef].
    intros Htarget. unfold dragging.
    destruct (isDragging dA && truthy (targetId dA)); [|reflexivity].
    destruct (targetId dA) as [tid|]; [|reflexivity].
    destruct (scene st !! tid); [|reflexivity].
    apply lookup_insert_ne. congruence.
  - destruct (if _ && isDragging (dragRef st) then _ else _) as [dC cbC].
    reflexivity.
Qed.

(** X24.  A session whose target is no longer in the scene does nothing:
    its frames change no object and call nothing, and the pinch-up that
    ends it writes no update. *)
Theorem stale_target_is_silent st f hd (id : string) :
  waitingForPinchRelease st = false -> wasPinching st ->
  isDragging (dragRef st) = true -> targetId (dragRef st) = Some id ->
  scene st !! id = None ->
  f_handData f = Some hd -> ~ inertMode (f_mode f) ->
  (useFrame st f).2 = []
  /\ scene (useFrame st f).1 = scene st
  /\ (hd_isPinching hd = true -> dragRef (useFrame st f).1 = dragRef st)
  /\ (hd_isPinching hd = false ->
      isDragging (dragRef (useFrame st f).1) = false
      /\ targetId (dragRef (useFrame st f).1) = None).
Proof.
  intros Hwait (p & Hprev & Hwas) Hdrag Htarget Hgone Hhand Hmode.
  unfold useFrame.
  rewrite Hhand, (not_inert_guard _ Hmode), Hwait, Hprev, Hwas.
  destruct (hd_isPinching hd); cbn [negb andb fst snd app].
  - unfold dragging. rewrite Hdrag, Htarget, Hgone.
    destruct (true && truthy (Some id)); repeat split; discriminate.
  - rewrite Hdrag. unfold endPinch. rewrite Htarget, Hgone.
    destruct (truthy (Some id)); repeat split; discriminate.
Qed.

(** X25.  The cursor is put on the ray from the camera through the hand:
    when the direction of the ray has length one its distance from the
    camera is the distance of the object that was hit while a session is
    open, and 10 otherwise. *)
Theorem cursor_at_projection_distance (d : DragState) f :
  norm (f_dir f) = 1 ->
  distanceTo (cursorPosOf d f) (f_cameraPosition f)
  = Rabs (if isDragging d then distanceToCamera d else 10).
Proof.
  intros Hunit. unfold distanceTo, norm, cursorPosOf, sub, add, multiplyScalar in *.
  cbn [v_x v_y v_z] in *.
  set (k := if isDragging d then distanceToCamera d else 10).
  replace (Rsqr (v_x (f_cameraPosition f) + v_x (f_dir f) * k - v_x (f_cameraPosition f))
           + Rsqr (v_y (f_cameraPosition f) + v_y (f_dir f) * k - v_y (f_cameraPosition f))
           + Rsqr (v_z (f_cameraPosition f) + v_z (f_dir f) * k - v_z (f_cameraPosition f)))
    with (Rsqr k * (Rsqr (v_x (f_dir f)) + Rsqr (v_y (f_dir f)) + Rsqr (v_z (f_dir f))))
    by (unfold Rsqr; ring).
  rewrite sqrt_mult_alt by apply Rle_0_sqr.
  rewrite Hunit, sqrt_Rsqr_abs. ring.
Qed.

Lemma lerp_fifth (a v : Vector3) :
  distanceTo (lerp a v (2 / 10)) v = 4 / 5 * distanceTo a v.
Proof.
  unfold distanceTo, norm, lerp, sub. cbn [v_x v_y v_z].
  replace (Rsqr (v_x a + (v_x v - v_x a) * (2 / 10) - v_x v)
           + Rsqr (v_y a + (v_y v - v_y a) * (2 / 10) - v_y v)
           + Rsqr (v_z a + (v_z v - v_z a) * (2 / 10) - v_z v))
    with (Rsqr (4 / 5)
          * (Rsqr (v_x a - v_x v) + Rsqr (v_y a - v_y v) + Rsqr (v_z a - v_z v)))
    by (unfold Rsqr; field).
  rewrite sqrt_mult_alt by apply Rle_0_sqr.
  rewrite sqrt_Rsqr by lra. reflexivity.
Qed.

Lemma updateCursor_shown st f hd cursorPos (c : CursorMesh) :
  cursorRef st = Some c ->
  exists c1,
    updateCursor st f hd cursorPos = Some c1
    /\ c_position c1 = lerp (c_position c) cursorPos (2 / 10)
    /\ c_visible c1 = true.
Proof.
  intros Hc. unfold updateCursor. rewrite Hc. cbn [fmap option_fmap option_map].
  destruct (if bool_decide (f_mode f = PLACING) then _ else _) as [size tint].
  eexists. repeat split.
Qed.

(** An open hand that is tracked while no session is open. *)
Lemma idle_frame st f hd :
  f_handData f = Some hd -> hd_isPinching hd = false -> ~ inertMode (f_mode f) ->
  isDragging (dragRef st) = false ->
  (useFrame st f).2 = []
  /\ dragRef (useFrame st f).1 = dragRef st
  /\ scene (useFrame st f).1 = scene st
  /\ cursorRef (useFrame st f).1 = updateCursor st f hd (cursorAt f 10).
Proof.
  intros Hhand Hopen Hmode Hidle. unfold useFrame.
  rewrite Hhand, (not_inert_guard _ Hmode), Hopen.
  assert (Hpos : cursorPosOf (dragRef st) f = cursorAt f 10)
    by (unfold cursorPosOf; rewrite Hidle; reflexivity).
  rewrite Hpos.
  destruct (waitingForPinchRelease st); [repeat split|].
  cbn [negb andb]. rewrite Hidle, andb_false_r. repeat split.
Qed.

(** X26.  While an open hand is tracked and no session is open, every
    frame brings the cursor mesh a fifth of the way to the point under
    the hand and shows it: after [n] frames with the hand in one place
    the distance that is left is (4/5)^n of what it was, and nothing has
    been called. *)
Theorem cursor_converges st f hd (c : CursorMesh) (n : nat) :
  f_handData f = Some hd -> hd_isPinching hd = false -> ~ inertMode (f_mode f) ->
  isDragging (dragRef st) = false -> cursorRef st = Some c ->
  exists c',
    cursorRef (runFrames st (replicate n f)).1 = Some c'
    /\ distanceTo (c_position c') (cursorAt f 10)
       = (4 / 5) ^ n * distanceTo (c_position c) (cursorAt f 10)
    /\ ((0 < n)%nat -> c_visible c' = true)
    /\ (runFrames st (replicate n f)).2 = [].
Proof.
  intros Hhand Hopen Hmode. revert st c.
  induction n as [|n IH]; intros st c Hidle Hcursor.
  - exists c. cbn. repeat split; [exact Hcursor | lra | lia].
  - cbn [replicate runFrames].
    destruct (idle_frame st f hd Hhand Hopen Hmode Hidle) as (Hcb & Hd & _ & Hc).
    destruct (updateCursor_shown st f hd (cursorAt f 10) c Hcursor)
      as (c1 & Hc1 & Hpos1 & Hvis1).
    destruct (useFrame st f) as [st1 cb1]. cbn [fst snd] in *. subst cb1.
    rewrite Hc1 in Hc.
    assert (Hidle1 : isDragging (dragRef st1) = false) by (rewrite Hd; exact Hidle).
    destruct (IH st1 c1 Hidle1 Hc) as (c' & Hc' & Hdist & Hvis & Hcbs).
    assert (Hshown : c_visible c' = true).
    { destruct n as [|m]; [|apply Hvis; lia].
      cbn in Hc'. rewrite Hc in Hc'. apply (inj Some) in Hc'. subst c'.
      exact Hvis1. }
    destruct (runFrames st1 (replicate n f)) as [st2 cb2]. cbn [fst snd] in *.
    exists c'. split; [exact Hc'|]. split.
    + rewrite Hdist, Hpos1, lerp_fifth. cbn [pow]. ring.
    + split; [intros _; exact Hshown | subst cb2; reflexivity].
Qed.

End Frames.

Lemma placing_needs_release_then_pinch_witness :
  (runFrames (modeEffect PLACING Samples.atRest) [Samples.placingPinch]).2 = []
  /\ scene (runFrames (modeEffect PLACING Samples.atRest) [Samples.placingPinch]).1
     = scene Samples.atRest
  /\ (runFrames (modeEffect PLACING Samples.atRest)
        ([Samples.placingPinch] ++ [Samples.placingOpen])).2 = []
  /\ exists pos,
       (runFrames (modeEffect PLACING Samples.atRest)
          ([Samples.placingPinch] ++ [Samples.placingOpen; Samples.placingPinch])).2
       = [OnPlaceObject pos].
Proof.
  apply (placing_needs_release_then_pinch Samples.atRest [Samples.placingPinch]
           Samples.placingOpen Samples.placingPinch).
  - eexists. reflexivity.
  - repeat constructor. exists Samples.pinchingHand. split; reflexivity.
  - split; [reflexivity|]. exists Samples.openHand. split; reflexivity.
  - split; [reflexivity|]. exists Samples.pinchingHand. split; reflexivity.
Defined.

Lemma frame_touches_only_target_witness :
  scene (useFrame Samples.midDrag Samples.scaleCube).1 !! "rig"
  = scene Samples.midDrag !! "rig".
Proof.
  apply (frame_touches_only_target Samples.midDrag Samples.scaleCube "rig").
  intros Htarget. vm_compute in Htarget. discriminate Htarget.
Defined.

Lemma staleDrag_session :
  waitingForPinchRelease Samples.staleDrag = false
  /\ wasPinching Samples.staleDrag
  /\ isDragging (dragRef Samples.staleDrag) = true
  /\ targetId (dragRef Samples.staleDrag) = Some "cube-1"
  /\ scene Samples.staleDrag !! "cube-1" = None.
Proof.
  destruct midDrag_session as (Hdrag & Htarget & Hwait & Hwas).
  split; [exact Hwait|]. split; [exact Hwas|]. split; [exact Hdrag|].
  split; [exact Htarget|]. apply lookup_delete_eq.
Qed.

Lemma stale_target_is_silent_witness :
  (useFrame Samples.staleDrag Samples.releaseCube).2 = []
  /\ scene (useFrame Samples.staleDrag Samples.releaseCube).1
     = scene Samples.staleDrag
  /\ isDragging (dragRef (useFrame Samples.staleDrag Samples.releaseCube).1) = false
  /\ targetId (dragRef (useFrame Samples.staleDrag Samples.releaseCube).1) = None.
Proof.
  destruct staleDrag_session as (Hwait & Hwas & Hdrag & Htarget & Hgone).
  destruct (stale_target_is_silent Samples.staleDrag Samples.releaseCube
              Samples.openHand "cube-1" Hwait Hwas Hdrag Htarget Hgone eq_refl
              not_inert_edit) as (Hcb & Hscene & _ & Hclosed).
  split; [exact Hcb|]. split; [exact Hscene|]. exact (Hclosed eq_refl).
Defined.

Lemma unit_x_axis : norm (mkVector3 1 0 0) = 1.
Proof.
  unfold norm. cbn [v_x v_y v_z].
  replace (Rsqr 1 + Rsqr 0 + Rsqr 0) with 1 by (unfold Rsqr; ring).
  exact sqrt_1.
Qed.

Lemma cursor_at_projection_distance_witness :
  distanceTo (cursorPosOf (dragRef Samples.midDrag) Samples.holdCube)
    (f_cameraPosition Samples.holdCube)
  = Rabs (if isDragging (dragRef Samples.midDrag)
          then distanceToCamera (dragRef Samples.midDrag) else 10).
Proof.
  apply (cursor_at_projection_distance (dragRef Samples.midDrag) Samples.holdCube).
  exact unit_x_axis.
Defined.

Lemma not_inert_view : ~ inertMode VIEW.
Proof. intros [Hm | [Hm | [Hm | Hm]]]; discriminate Hm. Qed.

Lemma cursor_converges_witness :
  exists c',
    cursorRef (runFrames Samples.atRest (replicate 3 Samples.lookAround)).1 = Some c'
    /\ distanceTo (c_position c') (cursorAt Samples.lookAround 10)
       = (4 / 5) ^ 3
         * distanceTo (c_position (mkCursorMesh false (mkVector3 0 0 0) 1 "#00ffcc"))
             (cursorAt Samples.lookAround 10)
    /\ ((0 < 3)%nat -> c_visible c' = true)
    /\ (runFrames Samples.atRest (replicate 3 Samples.lookAround)).2 = [].
Proof.
  exact (cursor_converges Samples.atRest Samples.lookAround Samples.openHand
           (mkCursorMesh false (mkVector3 0 0 0) 1 "#00ffcc") 3
           eq_refl eq_refl not_inert_view eq_refl eq_refl).
Defined.

(** ** The CameraController *)

(** X27.  In View or Edit a frame of thumbs up moves the camera forward
    along its direction by five times the sensitivity times the time of
    the frame, with the three switches of the orbit controls off, and a
    frame of thumb down of the same length moves it back to where it
    was. *)
Theorem camera_zoom_round_trip (hdUp hdDown : HandData) (mode : AppMode)
    (sensitivity delta : R) (direction position : Vector3) (orbit : OrbitControls) :
  hd_gesture hdUp = THUMBS_UP -> hd_gesture hdDown = THUMB_DOWN ->
  mode = VIEW \/ mode = EDIT ->
  cameraFrame (Some hdUp) mode sensitivity delta direction (Some orbit) position
  = (Some (mkOrbitControls false false false),
     add position (multiplyScalar direction (1 * (5 * sensitivity * delta))))
  /\ (cameraFrame (Some hdDown) mode sensitivity delta direction
        (cameraFrame (Some hdUp) mode sensitivity delta direction (Some orbit)
           position).1
        (cameraFrame (Some hdUp) mode sensitivity delta direction (Some orbit)
           position).2)
     = (Some (mkOrbitControls false false false), position).
Proof.
  intros Hup Hdown Hmode.
  assert (Hguard : bool_decide (mode = VIEW) || bool_decide (mode = EDIT) = true).
  { destruct Hmode as [-> | ->]; decide_modes; reflexivity. }
  assert (Hin :
    cameraFrame (Some hdUp) mode sensitivity delta direction (Some orbit) position
    = (Some (mkOrbitControls false false false),
       add position (multiplyScalar direction (1 * (5 * sensitivity * delta))))).
  { unfold cameraFrame. cbn [fmap option_fmap option_map]. rewrite Hup, Hguard.
    rewrite (bool_decide_eq_true_2 (Some THUMBS_UP = Some THUMBS_UP)) by reflexivity.
    reflexivity. }
  split; [exact Hin|]. rewrite Hin. cbn [fst snd].
  unfold cameraFrame. cbn [fmap option_fmap option_map]. rewrite Hdown, Hguard.
  rewrite (bool_decide_eq_false_2 (Some THUMB_DOWN = Some THUMBS_UP)) by discriminate.
  rewrite (bool_decide_eq_true_2 (Some THUMB_DOWN = Some THUMB_DOWN)) by reflexivity.
  cbn [orb andb]. f_equal.
  destruct position as [px py pz], direction as [dx dy dz].
  unfold add, multiplyScalar. cbn [v_x v_y v_z]. f_equal; ring.
Qed.

Lemma camera_zoom_round_trip_witness :
  (cameraFrame (Some Samples.thumbDown) VIEW 1 (1 / 10) (mkVector3 0 0 (-1))
     (cameraFrame (Some Samples.thumbsUp) VIEW 1 (1 / 10) (mkVector3 0 0 (-1))
        (Some Samples.freeOrbit) (mkVector3 0 0 10)).1
     (cameraFrame (Some Samples.thumbsUp) VIEW 1 (1 / 10) (mkVector3 0 0 (-1))
        (Some Samples.freeOrbit) (mkVector3 0 0 10)).2)
  = (Some (mkOrbitControls false false false), mkVector3 0 0 10).
Proof.
  apply (camera_zoom_round_trip Samples.thumbsUp Samples.thumbDown VIEW 1 (1 / 10)
           (mkVector3 0 0 (-1)) (mkVector3 0 0 10) Samples.freeOrbit eq_refl eq_refl
           (or_introl eq_refl)).
Defined.

(** X28.  Without a thumb gesture in View or Edit the camera stays where
    it is and rotation and zoom are handed back to the orbit controls.
    Panning is never switched on by the controller: it is on after a
    frame only when it was on before, outside View and Edit. *)
Theorem camera_rests_without_thumbs (hd : option HandData) (mode : AppMode)
    (sensitivity delta : R) (direction position : Vector3)
    (controls : option OrbitControls) :
  ~ (exists h, hd = Some h
               /\ (hd_gesture h = THUMBS_UP \/ hd_gesture h = THUMB_DOWN)
               /\ (mode = VIEW \/ mode = EDIT)) ->
  (cameraFrame hd mode sensitivity delta direction controls position).2 = position
  /\ forall after,
       (cameraFrame hd mode sensitivity delta direction controls position).1
       = Some after ->
       enableRotate after = true /\ enableZoom after = true
       /\ (enablePan after = true ->
           mode <> VIEW /\ mode <> EDIT
           /\ exists orbit, controls = Some orbit /\ enablePan orbit = true).
Proof.
  intros Hrest. unfold cameraFrame.
  destruct controls as [orbit|]; [|split; [reflexivity | discriminate]].
  assert (Hguard :
    (bool_decide (hd_gesture <$> hd = Some THUMBS_UP)
     || bool_decide (hd_gesture <$> hd = Some THUMB_DOWN))
    && (bool_decide (mode = VIEW) || bool_decide (mode = EDIT)) = false).
  { apply not_true_is_false. intros Hz. apply Hrest.
    apply andb_true_iff in Hz. destruct Hz as [Hg Hm].
    apply orb_true_iff in Hg, Hm. rewrite !bool_decide_eq_true in Hg, Hm.
    destruct hd as [h|]; [|destruct Hg; discriminate].
    exists h. split; [reflexivity|]. split; [|exact Hm].
    cbn in Hg. destruct Hg as [Hg | Hg]; apply (inj Some) in Hg; auto. }
  rewrite Hguard. cbn [fst snd]. split; [reflexivity|].
  intros after Hafter. apply (inj Some) in Hafter. subst after.
  cbn [enableRotate enableZoom enablePan]. split; [reflexivity|]. split; [reflexivity|].
  destruct (bool_decide (mode = VIEW) || bool_decide (mode = EDIT)) eqn:Hm;
    [discriminate|].
  apply orb_false_iff in Hm. rewrite !bool_decide_eq_false in Hm.
  intros Hpan. split; [tauto|]. split; [tauto|]. exists orbit. auto.
Qed.

Lemma camera_rests_without_thumbs_witness :
  (cameraFrame (Some Samples.openHand) VIEW 1 (1 / 10) (mkVector3 0 0 (-1))
     (Some Samples.freeOrbit) (mkVector3 0 0 10)).2
  = mkVector3 0 0 10.
Proof.
  apply (camera_rests_without_thumbs (Some Samples.openHand) VIEW 1 (1 / 10)
           (mkVector3 0 0 (-1)) (mkVector3 0 0 10) (Some Samples.freeOrbit)).
  intros (h & Hh & [Hg | Hg] & _); apply (inj Some) in Hh; subst h;
    discriminate Hg.
Defined.

(** ** The name under the cursor *)

(** X29.  The object that a ray hit is taken by its own name, or by the
    name of its parent when it has none; a hit whose only name is the
    empty one selects nothing. *)
Theorem objectIdOf_name_or_parent (hit : Hit) (id : string) :
  objectIdOf hit = Some id
  <-> id <> ""
      /\ (hit_name hit = id
          \/ (hit_name hit = "" /\ hit_parentName hit = Some id)).
Proof.
  unfold objectIdOf. split.
  - destruct (bool_decide (hit_name hit = "")) eqn:Hname.
    + apply bool_decide_eq_true in Hname.
      destruct (hit_parentName hit) as [pn|]; cbn [truthy]; [|discriminate].
      case_bool_decide as Hpn; cbn [negb]; [discriminate|].
      intros Hid. apply (inj Some) in Hid. subst pn. auto.
    + apply bool_decide_eq_false in Hname. cbn [truthy].
      rewrite bool_decide_eq_false_2 by exact Hname. cbn [negb].
      intros Hid. apply (inj Some) in Hid. subst id. auto.
  - intros (Hid & [Hname | (Hname & Hparent)]).
    + subst id. rewrite bool_decide_eq_false_2 by exact Hid.
      cbn [truthy]. rewrite bool_decide_eq_false_2 by exact Hid. reflexivity.
    + rewrite Hname, Hparent.
      rewrite (bool_decide_eq_true_2 ("" = "")) by reflexivity.
      cbn [truthy]. rewrite bool_decide_eq_false_2 by exact Hid. reflexivity.
Qed.
